(** * Verification of reactive/kubernetes_master.py

    A shallow embedding of the parts of the kubernetes-master reactive
    charm that its specification makes claims about: the leader/follower
    distribution of the authentication files, the final status report,
    the option-apply-and-restart handlers, the certificate SAN request,
    the DNS provider choice, the basic-auth and known-tokens tables and
    the service address arithmetic.

    Text is modelled as [string]: a sequence of characters whose code
    points are below 256, so that a character is an [ascii].  The
    functions of [str] that depend on the class of a character
    ([str.isspace] for [split] and [strip], the sample case mapping) are
    the ones of Python on these code points.  Python dictionaries and
    the key/value stores are stdpp's [gmap], flags a [gset] of names,
    and an exception is the [Raise] case of [result]. *)

From Stdlib Require Import ZArith Lia Ascii String List Bool.
From Stdlib Require Import Numbers.DecimalString.
From stdpp Require Import gmap strings list sorting.

Local Open Scope Z_scope.

(** ** Exceptions and results *)

Inductive exn : Type :=
| IndexError
| FileNotFoundError
| AddressValueError
| TypeError
| CalledProcessError
| FailedToGetPodStatus
| AttributeError
| InvalidDnsProvider (value : string).

Inductive result (A : Type) : Type :=
| Ok (a : A)
| Raise (e : exn).
Arguments Ok {A} a.
Arguments Raise {A} e.

Definition rbind {A B} (r : result A) (k : A → result B) : result B :=
  match r with
  | Ok a => k a
  | Raise e => Raise e
  end.

Definition is_Ok {A} (r : result A) : bool :=
  match r with Ok _ => true | Raise _ => false end.

(** ** Python built-ins used by the charm *)

Module Py.

Definition LF : ascii := "010"%char.
Definition CR : ascii := "013"%char.
Definition DQ : ascii := "034"%char.

Definition ascii_eqb (a b : ascii) : bool := bool_decide (a = b).
Definition str_eqb (a b : string) : bool := bool_decide (a = b).

(** [bool(s)] for a string, and for an optional string ([None] is falsy). *)
Definition truthy (s : string) : bool := negb (str_eqb s "").
Definition truthy_opt (o : option string) : bool :=
  match o with Some s => truthy s | None => false end.

(** [str.isspace] on a character: the white space among the code points
    below 256 is U+0009 to U+000D, U+001C to U+0020, U+0085 and
    U+00A0. *)
Definition is_space (c : ascii) : bool :=
  let n := nat_of_ascii c in
  ((9 <=? n)%nat && (n <=? 13)%nat) || ((28 <=? n)%nat && (n <=? 32)%nat)
  || (n =? 133)%nat || (n =? 160)%nat.

(** [s.split(sep)] for a one-character separator. *)
Fixpoint split_on (sep : ascii) (s : string) : list string :=
  match s with
  | EmptyString => [EmptyString]
  | String c s' =>
      if ascii_eqb c sep then EmptyString :: split_on sep s'
      else match split_on sep s' with
           | w :: ws => String c w :: ws
           | [] => [String c EmptyString]
           end
  end.

(** [s.split()]: split on runs of white space, no empty words. *)
Fixpoint split_ws_go (cur : option string) (s : string) : list string :=
  match s with
  | EmptyString => option_list (String.rev <$> cur)
  | String a s' =>
      if is_space a
      then option_list (String.rev <$> cur) ++ split_ws_go None s'
      else split_ws_go
             (Some (from_option (String a) (String a EmptyString) cur)) s'
  end.
Definition split_ws : string → list string := split_ws_go None.

Fixpoint lstrip (s : string) : string :=
  match s with
  | EmptyString => EmptyString
  | String c s' => if is_space c then lstrip s' else s
  end.

Fixpoint rstrip (s : string) : string :=
  match s with
  | EmptyString => EmptyString
  | String c s' =>
      let r := rstrip s' in
      if is_space c && str_eqb r "" then EmptyString else String c r
  end.

Definition strip (s : string) : string := rstrip (lstrip s).

(** [sep.join(xs)] *)
Fixpoint join (sep : string) (xs : list string) : string :=
  match xs with
  | [] => ""
  | [x] => x
  | x :: rest => x +:+ sep +:+ join sep rest
  end.

(** [s.lower()] on text of code points below 256: the capitals are
    U+0041 to U+005A and U+00C0 to U+00DE without the multiplication
    sign U+00D7, and each has its small letter 32 places further.  The
    handlers take [str.lower] from the environment ([str_lower] below);
    this one is the case mapping of the sample environments. *)
Definition lower_char (c : ascii) : ascii :=
  let n := nat_of_ascii c in
  if ((65 <=? n)%nat && (n <=? 90)%nat)
     || ((192 <=? n)%nat && (n <=? 222)%nat && negb (n =? 215)%nat)
  then ascii_of_nat (n + 32) else c.
Fixpoint lower (s : string) : string :=
  match s with
  | EmptyString => EmptyString
  | String c s' => String (lower_char c) (lower s')
  end.

(** [str(n)] for a natural number. *)
Definition str_of_nat (n : nat) : string :=
  NilEmpty.string_of_uint (Nat.to_uint n).

(** Text-mode reading translates "\r\n" and a lone "\r" to "\n". *)
Fixpoint universal_newlines (s : string) : string :=
  match s with
  | EmptyString => EmptyString
  | String c s' =>
      if ascii_eqb c CR then
        match s' with
        | String c' s'' =>
            if ascii_eqb c' LF then String LF (universal_newlines s'')
            else String LF (universal_newlines s')
        | EmptyString => String LF EmptyString
        end
      else String c (universal_newlines s')
  end.

(** [for line in stream]: the lines of a text, each with its "\n";
    the last one has none when the text does not end in "\n". *)
Fixpoint readlines (s : string) : list string :=
  match s with
  | EmptyString => []
  | String c s' =>
      if ascii_eqb c LF then String LF EmptyString :: readlines s'
      else match readlines s' with
           | [] => [String c EmptyString]
           | l :: ls => String c l :: ls
           end
  end.

(** [s in t] for strings: substring test. *)
Fixpoint startswith (p s : string) : bool :=
  match p, s with
  | EmptyString, _ => true
  | String a p', String b s' => ascii_eqb a b && startswith p' s'
  | String _ _, EmptyString => false
  end.
Fixpoint contains (p s : string) : bool :=
  startswith p s ||
  match s with
  | EmptyString => false
  | String _ s' => contains p s'
  end.

(** Lexicographic comparison of tuples of integers, as in
    [get_version(..) < (1, 14)]. *)
Fixpoint tuple_lt (a b : list Z) : bool :=
  match a, b with
  | [], [] => false
  | [], _ :: _ => true
  | _ :: _, [] => false
  | x :: a', y :: b' => (x <? y) || ((x =? y) && tuple_lt a' b')
  end.
Definition tuple_ge (a b : list Z) : bool := negb (tuple_lt a b).
Definition tuple_gt (a b : list Z) : bool := tuple_lt b a.

End Py.

(** ** The [ipaddress] module, as far as the charm uses it *)

Module ipaddress.

Definition digit_of (c : ascii) : option Z :=
  let n := nat_of_ascii c in
  if (48 <=? n)%nat && (n <=? 57)%nat then Some (Z.of_nat n - 48) else None.

Fixpoint parse_digits (acc : Z) (s : string) : option Z :=
  match s with
  | EmptyString => Some acc
  | String c s' =>
      match digit_of c with
      | Some d => parse_digits (10 * acc + d) s'
      | None => None
      end
  end.

(** A non-empty run of decimal digits. *)
Definition parse_decimal (s : string) : option Z :=
  match s with
  | EmptyString => None
  | _ => parse_digits 0 s
  end.

(** [_parse_octet]: one to three digits, no leading zero, at most 255. *)
Definition parse_octet (s : string) : option Z :=
  match parse_decimal s with
  | Some n =>
      if (3 <? String.length s)%nat then None
      else if Py.startswith "0" s && (1 <? String.length s)%nat then None
      else if 255 <? n then None
      else Some n
  | None => None
  end.

(** [IPv4Address(s)] as an integer. *)
Definition parse_address (s : string) : option Z :=
  match Py.split_on "." s with
  | [a; b; c; d] =>
      match parse_octet a, parse_octet b, parse_octet c, parse_octet d with
      | Some a, Some b, Some c, Some d =>
          Some (Z.shiftl a 24 + Z.shiftl b 16 + Z.shiftl c 8 + d)
      | _, _, _, _ => None
      end
  | _ => None
  end.

(** A prefix length, 0 to 32, in decimal. *)
Definition parse_prefixlen (s : string) : option Z :=
  match parse_decimal s with
  | Some n => if n <=? 32 then Some n else None
  | None => None
  end.

Definition ALL_ONES : Z := 2 ^ 32 - 1.

(** [int.bit_length] of a number that is not negative. *)
Definition bit_length (n : Z) : Z :=
  if n =? 0 then 0 else Z.log2 n + 1.

(** [_count_righthand_zero_bits] *)
Definition count_righthand_zero_bits (number bits : Z) : Z :=
  if number =? 0 then bits
  else Z.min bits (bit_length (Z.land (Z.lnot number) (number - 1))).

(** [_prefix_from_ip_int]: the prefix length of a mask whose bits are
    ones followed by zeroes; any other pattern is refused. *)
Definition prefix_from_ip_int (ip_int : Z) : option Z :=
  let trailing_zeroes := count_righthand_zero_bits ip_int 32 in
  let prefixlen := 32 - trailing_zeroes in
  let leading_ones := Z.shiftr ip_int trailing_zeroes in
  let all_ones := Z.shiftl 1 prefixlen - 1 in
  if leading_ones =? all_ones then Some prefixlen else None.

(** [_prefix_from_ip_string]: a mask written as a dotted quad, read as a
    netmask and, when that fails, with its bits inverted as a hostmask. *)
Definition prefix_from_ip_string (s : string) : option Z :=
  match parse_address s with
  | Some ip_int =>
      match prefix_from_ip_int ip_int with
      | Some n => Some n
      | None => prefix_from_ip_int (Z.lxor ip_int ALL_ONES)
      end
  | None => None
  end.

(** [_make_netmask] for what follows the "/": a prefix length, or else
    a dotted netmask or hostmask. *)
Definition make_netmask (arg : string) : option Z :=
  match parse_prefixlen arg with
  | Some n => Some n
  | None => prefix_from_ip_string arg
  end.

Record IPv4Interface := { ip : Z; prefixlen : Z }.

(** [IPv4Interface(s)]: "a.b.c.d", which has the prefix length 32, or
    "a.b.c.d/mask" with at most one "/". *)
Definition parse_interface (s : string) : option IPv4Interface :=
  match Py.split_on "/" s with
  | [a] =>
      match parse_address a with
      | Some i => Some {| ip := i; prefixlen := 32 |}
      | None => None
      end
  | [a; p] =>
      match parse_address a, make_netmask p with
      | Some i, Some n => Some {| ip := i; prefixlen := n |}
      | _, _ => None
      end
  | _ => None
  end.

Definition netmask (plen : Z) : Z :=
  Z.lxor ALL_ONES (Z.shiftr ALL_ONES plen).

(** [interface.network.network_address] *)
Definition network_address (i : IPv4Interface) : Z :=
  Z.land (ip i) (netmask (prefixlen i)).

(** [IPv4Address.__add__]: the constructor refuses what does not fit in
    32 bits. *)
Definition add (a n : Z) : result Z :=
  let r := a + n in
  if (r <? 0) || (ALL_ONES <? r) then Raise AddressValueError else Ok r.

Definition octet (a : Z) (k : Z) : string :=
  Py.str_of_nat (Z.to_nat (Z.land (Z.shiftr a (8 * k)) 255)).

(** [ip.exploded]: the dotted quad. *)
Definition exploded (a : Z) : string :=
  Py.join "." [octet a 3; octet a 2; octet a 1; octet a 0].

End ipaddress.

Global Instance result_ret : MRet result := @Ok.
Global Instance result_bind : MBind result := fun A B k r => rbind r k.

(** ** The unit's environment and state *)

(** A pod of the kube-system namespace, as [kubectl get po -o json]
    reports it. *)
Record Pod := {
  pod_name : string;
  pod_phase : string;
  pod_reason : option string
}.

(** What one hook invocation can observe of the outside and cannot
    change: the charm configuration, the relation endpoints, the state of
    the daemons, the entropy, the tools it runs and the paths that the
    kubernetes-common layer defines.  [str_lower] is [str.lower], the
    case mapping of the interpreter's character tables: the handlers are
    modelled for any such mapping. *)
Record Env := {
  config : gmap string string;
  config_bool : gmap string bool;
  goal_state_relations : option (list string);
  encryption_config_exists : bool;
  keystone_api_version : option string;
  keystone_service_ip : option string;
  kube_apiserver_version : list Z;
  service_running : string → bool;
  kube_system_pods : option (list Pod);
  poke_network_unavailable : result unit;
  ceph_admin_key : option string;
  random_index : nat → nat;
  genrsa : result string;
  unit_public_ip : string;
  ingress_address : string → string;
  hostname : string;
  fqdn : string;
  ha_endpoint : bool;
  loadbalancer_endpoint : option (list string);
  extra_args : string → gmap string string;
  render : string → gmap string string → string;
  ca_crt_path : string;
  server_crt_path : string;
  server_key_path : string;
  client_crt_path : string;
  client_key_path : string;
  cloud_config_path : string → string;
  encryption_config_path : string;
  str_lower : string → string
}.

Inductive CertRequest : Type :=
| ServerCert (common_name : string) (sans : list string)
| ClientCert (common_name : string).

(** What an invocation reads and writes on its unit. *)
Record World := {
  files : gmap string string;
  flags : gset string;
  leader_data : gmap string string;
  leader_log : list (gmap string string);
  kv : gmap string string;
  prev_args : gmap string (gmap string string);
  status_log : list (string * string);
  restart_log : list string;
  cert_requests : list CertRequest;
  rng_pos : nat
}.

Definition set_files (f : gmap string string) (w : World) : World :=
  {| files := f; flags := flags w; leader_data := leader_data w;
     leader_log := leader_log w; kv := kv w; prev_args := prev_args w;
     status_log := status_log w; restart_log := restart_log w;
     cert_requests := cert_requests w; rng_pos := rng_pos w |}.
Definition set_flags (f : gset string) (w : World) : World :=
  {| files := files w; flags := f; leader_data := leader_data w;
     leader_log := leader_log w; kv := kv w; prev_args := prev_args w;
     status_log := status_log w; restart_log := restart_log w;
     cert_requests := cert_requests w; rng_pos := rng_pos w |}.
Definition set_leader (d : gmap string string)
    (l : list (gmap string string)) (w : World) : World :=
  {| files := files w; flags := flags w; leader_data := d;
     leader_log := l; kv := kv w; prev_args := prev_args w;
     status_log := status_log w; restart_log := restart_log w;
     cert_requests := cert_requests w; rng_pos := rng_pos w |}.
Definition set_kv (d : gmap string string) (w : World) : World :=
  {| files := files w; flags := flags w; leader_data := leader_data w;
     leader_log := leader_log w; kv := d; prev_args := prev_args w;
     status_log := status_log w; restart_log := restart_log w;
     cert_requests := cert_requests w; rng_pos := rng_pos w |}.
Definition set_prev_args (d : gmap string (gmap string string))
    (w : World) : World :=
  {| files := files w; flags := flags w; leader_data := leader_data w;
     leader_log := leader_log w; kv := kv w; prev_args := d;
     status_log := status_log w; restart_log := restart_log w;
     cert_requests := cert_requests w; rng_pos := rng_pos w |}.
Definition set_status_log (l : list (string * string)) (w : World) : World :=
  {| files := files w; flags := flags w; leader_data := leader_data w;
     leader_log := leader_log w; kv := kv w; prev_args := prev_args w;
     status_log := l; restart_log := restart_log w;
     cert_requests := cert_requests w; rng_pos := rng_pos w |}.
Definition set_restart_log (l : list string) (w : World) : World :=
  {| files := files w; flags := flags w; leader_data := leader_data w;
     leader_log := leader_log w; kv := kv w; prev_args := prev_args w;
     status_log := status_log w; restart_log := l;
     cert_requests := cert_requests w; rng_pos := rng_pos w |}.
Definition set_cert_requests (l : list CertRequest) (w : World) : World :=
  {| files := files w; flags := flags w; leader_data := leader_data w;
     leader_log := leader_log w; kv := kv w; prev_args := prev_args w;
     status_log := status_log w; restart_log := restart_log w;
     cert_requests := l; rng_pos := rng_pos w |}.
Definition set_rng_pos (n : nat) (w : World) : World :=
  {| files := files w; flags := flags w; leader_data := leader_data w;
     leader_log := leader_log w; kv := kv w; prev_args := prev_args w;
     status_log := status_log w; restart_log := restart_log w;
     cert_requests := cert_requests w; rng_pos := n |}.

(** ** Handlers: state passing with exceptions

    A Python exception leaves the effects made before it in place, so a
    computation returns the state together with its result. *)

Definition M (A : Type) : Type := World → result A * World.

Definition ret {A} (a : A) : M A := fun w => (Ok a, w).
Definition raise {A} (e : exn) : M A := fun w => (Raise e, w).
Definition bind {A B} (m : M A) (k : A → M B) : M B :=
  fun w => match m w with
           | (Ok a, w') => k a w'
           | (Raise e, w') => (Raise e, w')
           end.
Definition lift {A} (r : result A) : M A := fun w => (r, w).
Definition gets {A} (f : World → A) : M A := fun w => (Ok (f w), w).
Definition modify (f : World → World) : M unit := fun w => (Ok tt, f w).

Notation "x <- m ;; k" := (bind m (fun x => k))
  (at level 100, m at next level, right associativity).
Notation "m ;;; k" := (bind m (fun _ => k))
  (at level 100, right associativity).

(** *** charms.reactive flags *)

Definition is_state (f : string) : M bool :=
  gets (fun w => bool_decide (f ∈ flags w)).
Definition set_state (f : string) : M unit :=
  modify (fun w => set_flags ({[f]} ∪ flags w) w).
Definition remove_state (f : string) : M unit :=
  modify (fun w => set_flags (flags w ∖ {[f]}) w).

(** *** charms.leadership: the broadcast channel

    The leadership layer is imported by the source and is not part of
    it; its two functions are modelled after the layer.  [leader_data]
    is the unit's own view of the settings: [leader_get] reads it, with
    [None] for a key that has no value.  [leader_set], which only the
    leader calls, goes through the settings it is given: a value that is
    not the one on record in the unit's key/value store under
    [leadership.settings.<key>] sets the flags [leadership.changed.<key>]
    and [leadership.changed], and every key that is given a value gets
    its flag [leadership.set.<key>]; then the settings are handed to the
    controller, after which the leader's own view returns them, and put
    on record.  The handlers modelled here publish texts only, never
    [None].  [leader_log] records the settings of each call, so that a
    handler can be seen to publish once.

    What the other units read is the controller's business: a statement
    about two units says what the follower's view holds. *)

Definition leader_get (k : string) : M (option string) :=
  gets (fun w => leader_data w !! k).

Definition leadership_settings_key (k : string) : string :=
  "leadership.settings." +:+ k.
Definition leadership_set_flag (k : string) : string :=
  "leadership.set." +:+ k.
Definition leadership_changed_flag (k : string) : string :=
  "leadership.changed." +:+ k.

(** One turn of the loop of [leader_set]: the flags of a setting. *)
Definition leadership_flags (previous : gmap string string) (k v : string)
    (F : gset string) : gset string :=
  let F :=
    if bool_decide (previous !! leadership_settings_key k = Some v) then F
    else {[ "leadership.changed" ]} ∪ ({[ leadership_changed_flag k ]} ∪ F) in
  {[ leadership_set_flag k ]} ∪ F.

(** [unitdata.kv().update(settings, prefix='leadership.settings.')] *)
Definition leadership_record (k v : string) (store : gmap string string)
  : gmap string string :=
  <[leadership_settings_key k := v]> store.

Definition leader_set (d : gmap string string) : M unit :=
  modify (fun w =>
    set_kv (map_fold leadership_record (kv w) d)
      (set_flags (map_fold (leadership_flags (kv w)) (flags w) d)
         (set_leader (d ∪ leader_data w) (leader_log w ++ [d]) w))).

(** *** hookenv and the service manager *)

Definition status_set (s msg : string) : M unit :=
  modify (fun w => set_status_log (status_log w ++ [(s, msg)]) w).
Definition service_restart (s : string) : M unit :=
  modify (fun w => set_restart_log (restart_log w ++ [s]) w).

(** *** Files

    Regular files only, a path to its content; directories are not
    modelled, the source creates [/root/cdk] wherever it needs it.
    [os.path.exists] and [os.path.isfile] are the same test then. *)

Definition path_exists (p : string) : M bool :=
  gets (fun w => bool_decide (is_Some (files w !! p))).

(** [open(p, 'r').read()] *)
Definition read_text (p : string) : M string :=
  fun w => match files w !! p with
           | Some c => (Ok (Py.universal_newlines c), w)
           | None => (Raise FileNotFoundError, w)
           end.

(** [open(p, 'w')] followed by writes whose concatenation is [c]. *)
Definition write_text (p c : string) : M unit :=
  modify (fun w => set_files (<[p := c]> (files w)) w).

(** ** The service CIDR and the addresses derived from it *)

Definition service_cidr_key : string := "kubernetes-master.service-cidr".

(** [frozen_cidr or hookenv.config('service-cidr')] *)
Definition service_cidr (e : Env) (w : World) : option string :=
  match kv w !! service_cidr_key with
  | Some frozen => if Py.truthy frozen then Some frozen
                   else config e !! "service-cidr"
  | None => config e !! "service-cidr"
  end.

Definition freeze_service_cidr (e : Env) : M unit :=
  modify (fun w =>
    match service_cidr e w with
    | Some c => set_kv (<[service_cidr_key := c]> (kv w)) w
    | None => set_kv (delete service_cidr_key (kv w)) w
    end).

(** [ipaddress.IPv4Interface(service_cidr())]; the two value errors of
    the module are not told apart. *)
Definition service_interface (e : Env) (w : World)
  : result ipaddress.IPv4Interface :=
  match service_cidr e w with
  | Some s =>
      match ipaddress.parse_interface s with
      | Some i => Ok i
      | None => Raise AddressValueError
      end
  | None => Raise AddressValueError
  end.

Definition get_deprecated_dns_ip (e : Env) (w : World) : result string :=
  interface ← service_interface e w;
  ip ← ipaddress.add (ipaddress.network_address interface) 10;
  Ok (ipaddress.exploded ip).

Definition get_kubernetes_service_ip (e : Env) (w : World) : result string :=
  interface ← service_interface e w;
  ip ← ipaddress.add (ipaddress.network_address interface) 1;
  Ok (ipaddress.exploded ip).

(** ** Tokens and the authentication tables *)

(** [row[i]] *)
Definition index {A} (l : list A) (i : nat) : result A :=
  match l !! i with
  | Some x => Ok x
  | None => Raise IndexError
  end.

(** [string.ascii_letters + string.digits] *)
Definition alpha : string :=
  "abcdefghijklmnopqrstuvwxyzABCDEFGHIJKLMNOPQRSTUVWXYZ0123456789".

(** [random.SystemRandom().choice(alpha)] at the draw numbered [pos]. *)
Definition choice (e : Env) (pos : nat) : ascii :=
  nth (random_index e pos mod 62)%nat (list_ascii_of_string alpha) "a"%char.

Fixpoint draw (e : Env) (pos n : nat) : string :=
  match n with
  | O => EmptyString
  | S n' => String (choice e pos) (draw e (S pos) n')
  end.

Definition token_generator (e : Env) (length : nat) : M string :=
  fun w => (Ok (draw e (rng_pos w) length),
            set_rng_pos (rng_pos w + length)%nat w).

Definition root_cdk : string := "/root/cdk".
Definition service_key : string := "/root/cdk/serviceaccount.key".
Definition basic_auth : string := "/root/cdk/basic_auth.csv".
Definition known_tokens : string := "/root/cdk/known_tokens.csv".
Definition known_tokens_backup : string := "/root/cdk/known_tokens.csv.backup".

(** The loop of [get_password] over the lines of the file. *)
Fixpoint find_password (lines : list string) (user : string)
  : result (option string) :=
  match lines with
  | [] => Ok None
  | line :: rest =>
      let record := Py.split_on "," line in
      r1 ← index record 1;
      if Py.str_eqb r1 user then r0 ← index record 0; Ok (Some r0)
      else find_password rest user
  end.

Definition get_password (csv_fname user : string) : M (option string) :=
  let tokens_fname := root_cdk +:+ "/" +:+ csv_fname in
  isfile <- path_exists tokens_fname ;;
  if negb isfile then ret None
  else
    text <- read_text tokens_fname ;;
    lift (find_password (Py.readlines text) user).

Definition get_token (username : string) : M (option string) :=
  get_password "known_tokens.csv" username.

(** [row[1] == username or row[2] == uid] *)
Definition row_matches (row : list string) (username uid : string)
  : result bool :=
  r1 ← index row 1;
  if Py.str_eqb r1 username then Ok true
  else r2 ← index row 2; Ok (Py.str_eqb r2 uid).

(** The [for row in rows: ... break / else: rows.append(new_row)] loop. *)
Fixpoint update_rows (rows : list (list string)) (username uid : string)
    (new_row : list string) : result (list (list string)) :=
  match rows with
  | [] => Ok [new_row]
  | row :: rest =>
      m ← row_matches row username uid;
      if m : bool then Ok (new_row :: rest)
      else rest' ← update_rows rest username uid new_row; Ok (row :: rest')
  end.

Definition make_row (password username uid : string)
    (groups : option string) : list string :=
  [password; username; uid] ++
  (if Py.truthy_opt groups then option_list groups else []).

(** [touch]: an existing file keeps its content, a missing one is
    created empty. *)
Definition touch (fname : string) : M unit :=
  ex <- path_exists fname ;;
  if ex then ret tt else write_text fname "".

Section Charm.

(** Python's [csv] module: the rows [csv.reader] yields for the lines of
    a text, and the text [csv.writer(f).writerows] produces. *)
Variable csv_reader : list string → list (list string).
Variable csv_writerows : list (list string) → string.

(** [host.file_hash]: the digest of a file's content. *)
Variable file_hash : string → string.

Definition read_rows : M (list (list string)) :=
  fun w => match files w !! basic_auth with
           | Some c =>
               (Ok (csv_reader (Py.readlines (Py.universal_newlines c))), w)
           | None => (Ok [], w)
           end.

Definition setup_basic_auth (e : Env) (password : option string)
    (username uid : string) (groups : option string) : M unit :=
  password <- (match password with
               | Some p => if Py.truthy p then ret p
                           else token_generator e 32
               | None => token_generator e 32
               end) ;;
  let new_row := make_row password username uid groups in
  rows <- read_rows ;;
  rows' <- lift (update_rows rows username uid new_row) ;;
  write_text basic_auth (csv_writerows rows').

(** ** Leader and follower authentication *)

Definition keys : list string := [service_key; basic_auth; known_tokens].

Fixpoint get_keys_from_leader (keys : list string) (overwrite_local : bool)
  : M bool :=
  match keys with
  | [] => ret true
  | k :: rest =>
      ex <- path_exists k ;;
      if negb ex || overwrite_local then
        contents <- leader_get k ;;
        match contents with
        | None => ret false
        | Some c =>
            write_text k (c +:+ String Py.LF "") ;;;
            get_keys_from_leader rest overwrite_local
        end
      else get_keys_from_leader rest overwrite_local
  end.

(** The loop that fills [leader_data] with the content of each file. *)
Fixpoint read_leader_data (fs : list string) (acc : gmap string string)
  : M (gmap string string) :=
  match fs with
  | [] => ret acc
  | f :: rest =>
      c <- read_text f ;;
      read_leader_data rest (<[f := c]> acc)
  end.

Definition reconfigure_flag : string := "reconfigure.authentication.setup".
Definition auth_flag : string := "authentication.setup".
Definition started_flag : string := "kubernetes-master.components.started".
Definition leader_flag : string := "leadership.is_leader".

(** [@when('leadership.is_leader') @when_not('authentication.setup')] *)
Definition setup_leader_authentication_guard (w : World) : bool :=
  bool_decide (leader_flag ∈ flags w) &&
  negb (bool_decide (auth_flag ∈ flags w)).

(** The branch of [setup_leader_authentication] that creates what is
    missing (lines 358 to 370 of the source). *)
Definition generate_missing_secrets (e : Env) : M unit :=
  last_pass <- get_password "basic_auth.csv" "admin" ;;
  setup_basic_auth e last_pass "admin" "admin" (Some "system:masters") ;;;
  (isfile <- path_exists known_tokens ;;
   if negb isfile then touch known_tokens else ret tt) ;;;
  (isfile <- path_exists service_key ;;
   if negb isfile then
     key <- lift (genrsa e) ;;
     write_text service_key key
   else ret tt) ;;;
  remove_state reconfigure_flag.

(** The end of [setup_leader_authentication]: read the three files and
    publish them (lines 372 to 384 of the source). *)
Definition broadcast_secrets : M unit :=
  leader_data <- read_leader_data [known_tokens; basic_auth; service_key] ∅ ;;
  leader_set leader_data ;;;
  remove_state started_flag ;;;
  set_state auth_flag.

Definition setup_leader_authentication (e : Env) : M unit :=
  status_set "maintenance" "Rendering authentication templates." ;;;
  got <- get_keys_from_leader keys false ;;
  reconf <- is_state reconfigure_flag ;;
  (if negb got || reconf then generate_missing_secrets e else ret tt) ;;;
  broadcast_secrets.

(** [charms.reactive.helpers.any_file_changed], a library function:
    it compares the digest of every file with the one recorded in the
    unit's key/value store and records the new one. *)
Definition files_changed_key (f : string) : string :=
  "reactive.files_changed." +:+ f.

Fixpoint any_file_changed (filenames : list string) : M bool :=
  match filenames with
  | [] => ret false
  | f :: rest =>
      old_hash <- gets (fun w => kv w !! files_changed_key f) ;;
      new_hash <- gets (fun w => file_hash <$> files w !! f) ;;
      changed <- (if bool_decide (old_hash = new_hash) then ret false
                  else
                    modify (fun w =>
                      set_kv (match new_hash with
                              | Some h => <[files_changed_key f := h]> (kv w)
                              | None => delete (files_changed_key f) (kv w)
                              end) w) ;;;
                    ret true) ;;
      others <- any_file_changed rest ;;
      ret (changed || others)
  end.

(** [@when_not('leadership.is_leader')] *)
Definition setup_non_leader_authentication_guard (w : World) : bool :=
  negb (bool_decide (leader_flag ∈ flags w)).

Definition setup_non_leader_authentication : M unit :=
  got <- get_keys_from_leader keys true ;;
  if negb got then ret tt
  else
    changed <- any_file_changed keys ;;
    setup <- is_state auth_flag ;;
    if negb changed && setup then ret tt
    else
      status_set "maintenance" "Rendering authentication templates." ;;;
      remove_state started_flag ;;;
      set_state auth_flag.

(** ** The known-tokens table *)

(** One turn of the loop of [add_rbac_roles]: what is written for a
    line, if anything. *)
Definition rewrite_token_line (line : string) : result (option string) :=
  let record := Py.split_on "," (Py.strip line) in
  r2 ← index record 2;
  if Py.str_eqb r2 "admin" && bool_decide (length record = 3%nat) then
    r0 ← index record 0;
    r1 ← index record 1;
    Ok (Some (r0 +:+ "," +:+ r1 +:+ "," +:+ r2 +:+ ","
              +:+ String Py.DQ "system:masters" +:+ String Py.DQ ""
              +:+ String Py.LF ""))
  else if Py.str_eqb r2 "kube_proxy" then
    r0 ← index record 0;
    Ok (Some (r0 +:+ "," +:+ "system:kube-proxy" +:+ ","
              +:+ "kube-proxy" +:+ String Py.LF ""))
  else if Py.str_eqb r2 "kubelet" then
    r1 ← index record 1;
    if Py.str_eqb r1 "kubelet" then Ok None else Ok (Some line)
  else Ok (Some line).

(** [ftokens.write(t)] on the open file. *)
Definition append_text (p t : string) : M unit :=
  modify (fun w =>
    set_files (<[p := default "" (files w !! p) +:+ t]> (files w)) w).

Fixpoint rewrite_token_lines (lines : list string) : M unit :=
  match lines with
  | [] => ret tt
  | line :: rest =>
      towrite <- lift (rewrite_token_line line) ;;
      match towrite with
      | Some t => append_text known_tokens t
      | None => ret tt
      end ;;;
      rewrite_token_lines rest
  end.

(** [shutil.move] of a regular file onto a path. *)
Definition move (src dst : string) : M unit :=
  fun w => match files w !! src with
           | Some c =>
               (Ok tt, set_files (<[dst := c]> (delete src (files w))) w)
           | None => (Raise FileNotFoundError, w)
           end.

Definition add_rbac_roles : M unit :=
  move known_tokens known_tokens_backup ;;;
  write_text known_tokens "" ;;;
  text <- read_text known_tokens_backup ;;
  rewrite_token_lines (Py.readlines text).

End Charm.

(** ** The DNS provider *)

(** [valid_dns_providers.remove('core-dns')] *)
Fixpoint list_remove (x : string) (l : list string) : list string :=
  match l with
  | [] => []
  | y :: l' => if Py.str_eqb y x then l' else y :: list_remove x l'
  end.

Definition valid_dns_providers (e : Env) : list string :=
  let valid := ["auto"; "core-dns"; "kube-dns"; "none"] in
  if Py.tuple_lt (kube_apiserver_version e) [1; 14]
  then list_remove "core-dns" valid
  else valid.

Definition get_dns_provider (e : Env) : M string :=
  let valid := valid_dns_providers e in
  match config e !! "dns-provider" with
  | None => raise AttributeError
  | Some raw =>
      let dns_provider := str_lower e raw in
      if negb (bool_decide (dns_provider ∈ valid)) then
        raise (InvalidDnsProvider dns_provider)
      else
        dns_provider <-
          (if Py.str_eqb dns_provider "auto" then
             auto <- leader_get "auto_dns_provider" ;;
             if negb (Py.truthy_opt auto) then
               ret (if bool_decide ("core-dns" ∈ valid)
                    then "core-dns" else "kube-dns")
             else ret (default "" auto)
           else ret dns_provider) ;;
        is_leader <- is_state leader_flag ;;
        (if is_leader
         then leader_set {[ "auto_dns_provider" := dns_provider ]}
         else ret tt) ;;;
        ret dns_provider
  end.

(** ** The final status *)

Definition master_services : list string :=
  ["kube-apiserver"; "kube-controller-manager"; "kube-scheduler";
   "kube-proxy"].

Definition master_services_down (e : Env) : list string :=
  filter (fun service =>
            service_running e ("snap." +:+ service +:+ ".daemon") = false)
         master_services.

Definition pod_not_running (pod : Pod) : bool :=
  negb (Py.str_eqb (pod_phase pod) "Running") &&
  negb (Py.str_eqb (default "" (pod_reason pod)) "Evicted").

Definition pod_pending (pod : Pod) : bool :=
  Py.str_eqb (pod_phase pod) "Pending".

Definition get_kube_system_pods_not_running (e : Env) : M (list Pod) :=
  match kube_system_pods e with
  | None => raise FailedToGetPodStatus
  | Some items =>
      let not_running := List.filter pod_not_running items in
      let pending := List.filter pod_pending items in
      let any_pending := (0 <? length pending)%nat in
      gcp <- is_state "endpoint.gcp.ready" ;;
      if gcp && any_pending then
        lift (poke_network_unavailable e) ;;;
        ret not_running
      else ret not_running
  end.

(** [is_flag_set] is the current name of [is_state]. *)
Definition is_flag_set := is_state.

Definition in_goal_state (e : Env) (relation : string) : bool :=
  bool_decide (relation ∈ default [] (goal_state_relations e)).

Definition dns_message (value : string) : string :=
  if Py.str_eqb value "core-dns"
  then "dns-provider=core-dns requires k8s 1.14+"
  else "dns-provider=" +:+ value +:+ " is invalid".

Definition pods_message (unready : list Pod) : string :=
  "Waiting for " +:+ Py.str_of_nat (length unready) +:+ " kube-system pod"
  +:+ (if bool_decide (length unready = 1%nat) then "" else "s")
  +:+ " to start".

Definition gpu_message : string :=
  "GPUs available. Set allow-privileged=" +:+ String Py.DQ "auto"
  +:+ String Py.DQ " to enable.".

Definition set_final_status (e : Env) : M unit :=
  failed <- is_flag_set "kubernetes-master.secure-storage.failed" ;;
  if failed then
    status_set "blocked"
      "Failed to configure encryption; secrets are unencrypted or inaccessible"
  else
  created <- is_flag_set "kubernetes-master.secure-storage.created" ;;
  if created && negb (encryption_config_exists e) then
    status_set "blocked"
      "VaultLocker containing encryption config unavailable"
  else
  vsphere_joined <- is_state "endpoint.vsphere.joined" ;;
  azure_joined <- is_state "endpoint.azure.joined" ;;
  cloud_blocked <- is_state "kubernetes-master.cloud.blocked" ;;
  if vsphere_joined && cloud_blocked then
    status_set "blocked" "vSphere integration requires K8s 1.12 or greater"
  else
  if azure_joined && cloud_blocked then
    status_set "blocked" "Azure integration requires K8s 1.11 or greater"
  else
  pending <- is_state "kubernetes-master.cloud.pending" ;;
  if pending then status_set "waiting" "Waiting for cloud integration"
  else
  api_endpoint <- is_state "kube-api-endpoint.available" ;;
  if negb api_endpoint then
    status_set (if in_goal_state e "kube-api-endpoint"
                then "waiting" else "blocked")
               "Waiting for kube-api-endpoint relation"
  else
  kube_control <- is_state "kube-control.connected" ;;
  if negb kube_control then
    status_set (if in_goal_state e "kube-control"
                then "waiting" else "blocked")
               "Waiting for workers."
  else
  if bool_decide (keystone_api_version e = Some "2") then
    status_set "blocked" "Keystone auth v2 detected. v3 is required."
  else
  upgrade_needed <- is_state "kubernetes-master.upgrade-needed" ;;
  upgrade_specified <- is_state "kubernetes-master.upgrade-specified" ;;
  if upgrade_needed && negb upgrade_specified then
    status_set "blocked" "Needs manual upgrade, run the upgrade action"
  else
  fun w =>
  match get_dns_provider e w with
  | (Raise (InvalidDnsProvider value), w) =>
      status_set "blocked" (dns_message value) w
  | (Raise other, w) => (Raise other, w)
  | (Ok _, w) =>
  (started <- is_state started_flag ;;
   if started && negb (bool_decide (master_services_down e = [])) then
     status_set "blocked"
       ("Stopped services: " +:+ Py.join "," (master_services_down e))
   else
   if negb started then
     cni <- is_state "cni.available" ;;
     if cni then
       status_set "maintenance" "Waiting for master components to start"
     else
       status_set "waiting" "Waiting for CNI plugins to become available"
   else
   is_leader <- is_state leader_flag ;;
   authentication_setup <- is_state auth_flag ;;
   if negb is_leader && negb authentication_setup then
     status_set "waiting" "Waiting on leader's crypto keys."
   else
   addons_configured <- is_state "cdk-addons.configured" ;;
   if is_leader && negb addons_configured then
     status_set "waiting" "Waiting to retry addon deployment"
   else
   fun w =>
   match get_kube_system_pods_not_running e w with
   | (Raise FailedToGetPodStatus, w) =>
       status_set "waiting" "Waiting for kube-system pods to start" w
   | (Raise other, w) => (Raise other, w)
   | (Ok unready, w) =>
   (if negb (bool_decide (unready = [])) then
      status_set "waiting" (pods_message unready)
    else
    cidr <- gets (service_cidr e) ;;
    if negb (bool_decide (config e !! "service-cidr" = cidr)) then
      match cidr with
      | Some c =>
          status_set "active"
            ("WARN: cannot change service-cidr, still using " +:+ c)
      | None => raise TypeError
      end
    else
    gpu_available <- is_state "kube-control.gpu.available" ;;
    gpu_enabled <- is_state "kubernetes-master.gpu.enabled" ;;
    if gpu_available && negb gpu_enabled then
      status_set "active" gpu_message
    else
    ceph_storage <- is_state "ceph-storage.available" ;;
    ceph_client <- is_state "ceph-client.connected" ;;
    privileged <- is_state "kubernetes-master.privileged" ;;
    ceph_configured <- is_state "kubernetes-master.ceph.configured" ;;
    if ceph_storage && ceph_client && privileged && negb ceph_configured
       && Py.tuple_ge (kube_apiserver_version e) [1; 12]
       && negb (Py.truthy_opt (ceph_admin_key e)) then
      status_set "waiting" "Waiting for Ceph to provide a key."
    else
    status_set "active" "Kubernetes master running.") w
   end) w
  end.

(** *** The status rules as a priority table

    The specification describes the status report as a strictly ordered
    list of predicate-to-status rules of which the first that matches
    decides.  [status_rules] is that list, written after the
    specification and in the order of the source; [run_rules] is the
    first-match evaluation.  The only rule whose evaluation leaves a
    trace is the DNS provider one: [get_dns_provider] publishes the
    provider it settles on when the unit is the leader, which changes
    the channel and what the leadership layer keeps for that setting. *)

Record Rule := {
  rule_name : string;
  cond : Env → World → result bool;
  report : Env → World → string * string;
  effect : Env → World → World
}.

Definition no_effect (e : Env) (w : World) : World := w.

Definition flag (f : string) (w : World) : bool :=
  bool_decide (f ∈ flags w).

Definition relation_missing_status (e : Env) (relation : string) : string :=
  if in_goal_state e relation then "waiting" else "blocked".

Definition dns_rule_cond (e : Env) (w : World) : result bool :=
  match fst (get_dns_provider e w) with
  | Ok _ => Ok false
  | Raise (InvalidDnsProvider _) => Ok true
  | Raise other => Raise other
  end.

Definition dns_rule_value (e : Env) : string :=
  str_lower e (default "" (config e !! "dns-provider")).

Definition pods_rule_cond (e : Env) (w : World) : result bool :=
  match fst (get_kube_system_pods_not_running e w) with
  | Ok _ => Ok false
  | Raise FailedToGetPodStatus => Ok true
  | Raise other => Raise other
  end.

Definition unready_pods (e : Env) : list Pod :=
  List.filter pod_not_running (default [] (kube_system_pods e)).

Definition status_rules : list Rule := [
  {| rule_name := "encryption storage failed";
     cond := fun e w =>
       Ok (flag "kubernetes-master.secure-storage.failed" w);
     report := fun e w => ("blocked",
       "Failed to configure encryption; secrets are unencrypted or inaccessible");
     effect := no_effect |};
  {| rule_name := "encryption config unavailable";
     cond := fun e w =>
       Ok (flag "kubernetes-master.secure-storage.created" w
           && negb (encryption_config_exists e));
     report := fun e w => ("blocked",
       "VaultLocker containing encryption config unavailable");
     effect := no_effect |};
  {| rule_name := "vsphere needs a newer version";
     cond := fun e w =>
       Ok (flag "endpoint.vsphere.joined" w
           && flag "kubernetes-master.cloud.blocked" w);
     report := fun e w => ("blocked",
       "vSphere integration requires K8s 1.12 or greater");
     effect := no_effect |};
  {| rule_name := "azure needs a newer version";
     cond := fun e w =>
       Ok (flag "endpoint.azure.joined" w
           && flag "kubernetes-master.cloud.blocked" w);
     report := fun e w => ("blocked",
       "Azure integration requires K8s 1.11 or greater");
     effect := no_effect |};
  {| rule_name := "cloud integration pending";
     cond := fun e w => Ok (flag "kubernetes-master.cloud.pending" w);
     report := fun e w => ("waiting", "Waiting for cloud integration");
     effect := no_effect |};
  {| rule_name := "kube-api-endpoint relation missing";
     cond := fun e w => Ok (negb (flag "kube-api-endpoint.available" w));
     report := fun e w => (relation_missing_status e "kube-api-endpoint",
       "Waiting for kube-api-endpoint relation");
     effect := no_effect |};
  {| rule_name := "kube-control relation missing";
     cond := fun e w => Ok (negb (flag "kube-control.connected" w));
     report := fun e w => (relation_missing_status e "kube-control",
       "Waiting for workers.");
     effect := no_effect |};
  {| rule_name := "keystone v2";
     cond := fun e w => Ok (bool_decide (keystone_api_version e = Some "2"));
     report := fun e w => ("blocked",
       "Keystone auth v2 detected. v3 is required.");
     effect := no_effect |};
  {| rule_name := "manual upgrade required";
     cond := fun e w =>
       Ok (flag "kubernetes-master.upgrade-needed" w
           && negb (flag "kubernetes-master.upgrade-specified" w));
     report := fun e w => ("blocked",
       "Needs manual upgrade, run the upgrade action");
     effect := no_effect |};
  {| rule_name := "dns provider invalid";
     cond := dns_rule_cond;
     report := fun e w => ("blocked", dns_message (dns_rule_value e));
     effect := fun e w => snd (get_dns_provider e w) |};
  {| rule_name := "services stopped";
     cond := fun e w =>
       Ok (flag started_flag w
           && negb (bool_decide (master_services_down e = [])));
     report := fun e w => ("blocked",
       "Stopped services: " +:+ Py.join "," (master_services_down e));
     effect := no_effect |};
  {| rule_name := "components not started";
     cond := fun e w => Ok (negb (flag started_flag w));
     report := fun e w =>
       if flag "cni.available" w
       then ("maintenance", "Waiting for master components to start")
       else ("waiting", "Waiting for CNI plugins to become available");
     effect := no_effect |};
  {| rule_name := "waiting on leader credentials";
     cond := fun e w =>
       Ok (negb (flag leader_flag w) && negb (flag auth_flag w));
     report := fun e w => ("waiting", "Waiting on leader's crypto keys.");
     effect := no_effect |};
  {| rule_name := "waiting on addons";
     cond := fun e w =>
       Ok (flag leader_flag w && negb (flag "cdk-addons.configured" w));
     report := fun e w => ("waiting", "Waiting to retry addon deployment");
     effect := no_effect |};
  {| rule_name := "pod status unavailable";
     cond := pods_rule_cond;
     report := fun e w => ("waiting",
       "Waiting for kube-system pods to start");
     effect := no_effect |};
  {| rule_name := "pods not running";
     cond := fun e w => Ok (negb (bool_decide (unready_pods e = [])));
     report := fun e w => ("waiting", pods_message (unready_pods e));
     effect := no_effect |};
  {| rule_name := "service-cidr changed";
     cond := fun e w =>
       Ok (negb (bool_decide (config e !! "service-cidr" = service_cidr e w)));
     report := fun e w => ("active",
       "WARN: cannot change service-cidr, still using "
       +:+ default "" (service_cidr e w));
     effect := no_effect |};
  {| rule_name := "gpu available but disabled";
     cond := fun e w =>
       Ok (flag "kube-control.gpu.available" w
           && negb (flag "kubernetes-master.gpu.enabled" w));
     report := fun e w => ("active", gpu_message);
     effect := no_effect |};
  {| rule_name := "waiting on ceph key";
     cond := fun e w =>
       Ok (flag "ceph-storage.available" w
           && flag "ceph-client.connected" w
           && flag "kubernetes-master.privileged" w
           && negb (flag "kubernetes-master.ceph.configured" w)
           && Py.tuple_ge (kube_apiserver_version e) [1; 12]
           && negb (Py.truthy_opt (ceph_admin_key e)));
     report := fun e w => ("waiting", "Waiting for Ceph to provide a key.");
     effect := no_effect |};
  {| rule_name := "running";
     cond := fun e w => Ok true;
     report := fun e w => ("active", "Kubernetes master running.");
     effect := no_effect |}
].

Fixpoint run_rules (rules : list Rule) (e : Env) : M unit :=
  fun w =>
    match rules with
    | [] => (Ok tt, w)
    | r :: rest =>
        match cond r e w with
        | Raise x => (Raise x, effect r e w)
        | Ok true => status_set (fst (report r e w)) (snd (report r e w)) w
        | Ok false => run_rules rest e (effect r e w)
        end
    end.

(** ** The server certificate request *)

(** [sorted(set(sans))]: the names as a set, then in ascending order. *)
Definition sorted_set (sans : list string) : list string :=
  merge_sort String.le (elements (list_to_set sans : gset string)).

(** [str(x)] in a format, where [x] may be [None]. *)
Definition py_str (o : option string) : string := default "None" o.

(** [hookenv.config(k).split()] *)
Definition config_split (e : Env) (k : string) : result (list string) :=
  match config e !! k with
  | Some v => Ok (Py.split_ws v)
  | None => Raise AttributeError
  end.

(** The names collected by [send_data], before they are made a set. *)
Definition collect_sans (e : Env) (w : World) : result (list string) :=
  kubernetes_service_ip ← get_kubernetes_service_ip e w;
  let ingress_ip := ingress_address e "kube-api-endpoint" in
  let domain := py_str (config e !! "dns_domain") in
  let sans := [
    unit_public_ip e;
    ingress_ip;
    hostname e;
    fqdn e;
    kubernetes_service_ip;
    "kubernetes";
    "kubernetes." +:+ domain;
    "kubernetes.default";
    "kubernetes.default.svc";
    "kubernetes.default.svc." +:+ domain
  ] in
  forced_lb_ips ← config_split e "loadbalancer-ips";
  sans ←
    (if negb (bool_decide (forced_lb_ips = [])) then Ok (sans ++ forced_lb_ips)
     else if ha_endpoint e then
       vips ← config_split e "ha-cluster-vip";
       let dns_record := config e !! "ha-cluster-dns" in
       if negb (bool_decide (vips = [])) then Ok (sans ++ vips)
       else if Py.truthy_opt dns_record
            then Ok (sans ++ [default "" dns_record])
            else Ok sans
     else match loadbalancer_endpoint e with
          | Some hosts => Ok (sans ++ hosts)
          | None => Ok sans
          end);
  let extra_sans := config e !! "extra_sans" in
  if Py.truthy_opt extra_sans
     && negb (bool_decide (extra_sans = Some ""))
  then Ok (sans ++ Py.split_ws (default "" extra_sans))
  else Ok sans.

Definition request_server_cert (cn : string) (sans : list string) : M unit :=
  modify (fun w =>
    set_cert_requests (cert_requests w ++ [ServerCert cn sans]) w).
Definition request_client_cert (cn : string) : M unit :=
  modify (fun w => set_cert_requests (cert_requests w ++ [ClientCert cn]) w).

(** [@when('certificates.available', 'kube-api-endpoint.available')] *)
Definition send_data (e : Env) : M unit :=
  let common_name := unit_public_ip e in
  sans <- (fun w => (collect_sans e w, w)) ;;
  request_server_cert common_name (sorted_set sans) ;;;
  request_client_cert "system:kube-apiserver".

(** ** Applying options and restarting the services *)

Definition configure_prefix : string := "kubernetes-master.prev_args.".

(** Modelled from the spec: [configure_kubernetes_service] belongs to the
    kubernetes-common layer and is not part of the source.  Section 4.6
    of the specification gives its contract: it persists the new option
    map under the namespace, compares it with the map persisted before
    and reports whether anything changed.  The operator's extra
    arguments override the handler's options. *)
Definition configure_kubernetes_service (e : Env) (key service : string)
    (base_args : gmap string string) (extra_args_key : string) : M bool :=
  fun w =>
    let args := extra_args e extra_args_key ∪ base_args in
    let namespace := key +:+ service in
    let changed := negb (bool_decide (prev_args w !! namespace = Some args)) in
    (Ok changed, set_prev_args (<[namespace := args]> (prev_args w)) w).

Definition is_privileged (e : Env) : M bool :=
  match config e !! "allow-privileged" with
  | None => raise AttributeError
  | Some v =>
      let privileged := str_lower e v in
      if Py.str_eqb privileged "auto" then
        gpu <- is_state "kubernetes-master.gpu.enabled" ;;
        ceph <- is_state "ceph-storage.available" ;;
        ret (gpu || ceph)
      else ret (Py.str_eqb privileged "true")
  end.

Definition getStorageBackend (e : Env) : M (option string) :=
  let storage_backend := config e !! "storage-backend" in
  if bool_decide (storage_backend = Some "auto")
  then leader_get "auto_storage_backend"
  else ret storage_backend.

(** The [cloud-provider] and [cloud-config] options, the same chain in
    [configure_apiserver] and [configure_controller_manager]. *)
Definition cloud_opts (e : Env) (component : string)
    (opts : gmap string string) : M (gmap string string) :=
  let path := cloud_config_path e component in
  aws <- is_state "endpoint.aws.ready" ;;
  gcp <- is_state "endpoint.gcp.ready" ;;
  openstack <- is_state "endpoint.openstack.ready" ;;
  vsphere <- is_state "endpoint.vsphere.ready" ;;
  azure <- is_state "endpoint.azure.ready" ;;
  if aws then ret (<["cloud-provider" := "aws"]> opts)
  else if gcp then
    ret (<["cloud-config" := path]> (<["cloud-provider" := "gce"]> opts))
  else if openstack then
    ret (<["cloud-config" := path]> (<["cloud-provider" := "openstack"]> opts))
  else if vsphere && Py.tuple_ge (kube_apiserver_version e) [1; 12] then
    ret (<["cloud-config" := path]> (<["cloud-provider" := "vsphere"]> opts))
  else if azure then
    ret (<["cloud-config" := path]> (<["cloud-provider" := "azure"]> opts))
  else ret opts.

Definition remove_if_exists (path : string) : M unit :=
  modify (fun w => set_files (delete path (files w)) w).

Definition write_file_with_autogenerated_header (path contents : string)
  : M unit :=
  let header := "# Autogenerated by kubernetes-master charm" in
  write_text path (header +:+ String Py.LF "" +:+ contents).

Definition keystone_root : string := "/root/cdk/keystone".

Definition configure_apiserver (e : Env) (etcd_connection_string : string)
  : M unit :=
  let api_opts : gmap string string := ∅ in
  let api_opts := <["client-ca-file" := "null"]> api_opts in
  privileged <- is_privileged e ;;
  (if privileged then set_state "kubernetes-master.privileged"
   else remove_state "kubernetes-master.privileged") ;;;
  let api_opts :=
    <["allow-privileged" := if privileged then "true" else "false"]> api_opts in
  cidr <- gets (service_cidr e) ;;
  let api_opts := <["service-cluster-ip-range" := py_str cidr]> api_opts in
  let api_opts := <["min-request-timeout" := "300"]> api_opts in
  let api_opts := <["v" := "4"]> api_opts in
  let api_opts := <["tls-cert-file" := server_crt_path e]> api_opts in
  let api_opts := <["tls-private-key-file" := server_key_path e]> api_opts in
  let api_opts :=
    <["kubelet-certificate-authority" := ca_crt_path e]> api_opts in
  let api_opts :=
    <["kubelet-client-certificate" := client_crt_path e]> api_opts in
  let api_opts := <["kubelet-client-key" := client_key_path e]> api_opts in
  let api_opts := <["logtostderr" := "true"]> api_opts in
  let api_opts := <["insecure-bind-address" := "127.0.0.1"]> api_opts in
  let api_opts := <["insecure-port" := "8080"]> api_opts in
  storage_backend <- getStorageBackend e ;;
  let api_opts := <["storage-backend" := py_str storage_backend]> api_opts in
  let api_opts := <["basic-auth-file" := "/root/cdk/basic_auth.csv"]> api_opts in
  let api_opts :=
    <["token-auth-file" := "/root/cdk/known_tokens.csv"]> api_opts in
  let api_opts :=
    <["service-account-key-file" := "/root/cdk/serviceaccount.key"]> api_opts in
  let api_opts :=
    <["kubelet-preferred-address-types" :=
        "InternalIP,Hostname,InternalDNS,ExternalDNS,ExternalIP"]> api_opts in
  let api_opts :=
    <["advertise-address" := ingress_address e "kube-control"]> api_opts in
  let etcd_dir := "/root/cdk/etcd" in
  let api_opts := <["etcd-cafile" := etcd_dir +:+ "/client-ca.pem"]> api_opts in
  let api_opts :=
    <["etcd-keyfile" := etcd_dir +:+ "/client-key.pem"]> api_opts in
  let api_opts :=
    <["etcd-certfile" := etcd_dir +:+ "/client-cert.pem"]> api_opts in
  let api_opts := <["etcd-servers" := etcd_connection_string]> api_opts in
  let admission_control_pre_1_9 :=
    ["NamespaceLifecycle"; "LimitRanger"; "ServiceAccount"; "ResourceQuota";
     "DefaultTolerationSeconds"] in
  let admission_control :=
    ["NamespaceLifecycle"; "LimitRanger"; "ServiceAccount";
     "PersistentVolumeLabel"; "DefaultStorageClass";
     "DefaultTolerationSeconds"; "MutatingAdmissionWebhook";
     "ValidatingAdmissionWebhook"; "ResourceQuota"] in
  match config e !! "authorization-mode" with
  | None => raise TypeError
  | Some auth_mode =>
  let admission_control :=
    if Py.contains "Node" auth_mode
    then admission_control ++ ["NodeRestriction"] else admission_control in
  let ks := bool_decide (is_Some (keystone_api_version e)) in
  let ks_ip := if ks then keystone_service_ip e else None in
  opts_and_mode <-
    (if ks && Py.truthy_opt ks_ip then
       let keystone_webhook := keystone_root +:+ "/webhook.yaml" in
       let context : gmap string string :=
         {[ "keystone_service_cluster_ip" := default "" ks_ip ]} in
       write_text keystone_webhook
         (render e "keystone-api-server-webhook.yaml" context) ;;;
       let api_opts :=
         <["authentication-token-webhook-config-file" := keystone_webhook]>
           api_opts in
       let authz :=
         default false (config_bool e !! "enable-keystone-authorization") in
       let auth_mode :=
         if authz && negb (Py.contains "Webhook" auth_mode)
         then auth_mode +:+ ",Webhook" else auth_mode in
       let api_opts :=
         if authz
         then <["authorization-webhook-config-file" := keystone_webhook]>
                api_opts
         else api_opts in
       set_state "keystone.apiserver.configured" ;;;
       ret (api_opts, auth_mode)
     else
       let auth_mode :=
         if ks && negb (Py.truthy_opt ks_ip) && Py.contains "Webhook" auth_mode
         then Py.join ","
                (filter (fun i => i ≠ "Webhook") (Py.split_on "," auth_mode))
         else auth_mode in
       remove_state "keystone.apiserver.configured" ;;;
       ret (api_opts, auth_mode)) ;;
  let api_opts : gmap string string := fst opts_and_mode in
  let auth_mode : string := snd opts_and_mode in
  let api_opts := <["authorization-mode" := auth_mode]> api_opts in
  let kube_version := kube_apiserver_version e in
  let admission_control_pre_1_9 :=
    if Py.tuple_lt kube_version [1; 6]
    then list_remove "DefaultTolerationSeconds" admission_control_pre_1_9
    else admission_control_pre_1_9 in
  let api_opts :=
    if Py.tuple_lt kube_version [1; 9]
    then <["admission-control" := Py.join "," admission_control_pre_1_9]>
           api_opts
    else <["admission-control" := Py.join "," admission_control]> api_opts in
  let api_opts :=
    if Py.tuple_gt kube_version [1; 6]
       && default false (config_bool e !! "enable-metrics")
    then
      <["client-ca-file" := ca_crt_path e]>
      (<["enable-aggregator-routing" := "true"]>
      (<["proxy-client-key-file" := client_key_path e]>
      (<["proxy-client-cert-file" := client_crt_path e]>
      (<["requestheader-username-headers" := "X-Remote-User"]>
      (<["requestheader-group-headers" := "X-Remote-Group"]>
      (<["requestheader-extra-headers-prefix" := "X-Remote-Extra-"]>
      (<["requestheader-allowed-names" := "system:kube-apiserver"]>
      (<["requestheader-client-ca-file" := ca_crt_path e]> api_opts))))))))
    else api_opts in
  api_opts <- cloud_opts e "kube-apiserver" api_opts ;;
  let audit_root := "/root/cdk/audit" in
  let api_opts :=
    <["audit-log-path" := audit_root +:+ "/audit.log"]> api_opts in
  let api_opts := <["audit-log-maxsize" := "100"]> api_opts in
  let api_opts := <["audit-log-maxbackup" := "9"]> api_opts in
  let audit_policy_path := audit_root +:+ "/audit-policy.yaml" in
  let audit_policy := config e !! "audit-policy" in
  (if Py.truthy_opt audit_policy
   then write_file_with_autogenerated_header audit_policy_path
          (default "" audit_policy)
   else remove_if_exists audit_policy_path) ;;;
  let api_opts :=
    if Py.truthy_opt audit_policy
    then <["audit-policy-file" := audit_policy_path]> api_opts
    else api_opts in
  let audit_webhook_config_path :=
    audit_root +:+ "/audit-webhook-config.yaml" in
  let audit_webhook_config := config e !! "audit-webhook-config" in
  (if Py.truthy_opt audit_webhook_config
   then write_file_with_autogenerated_header audit_webhook_config_path
          (default "" audit_webhook_config)
   else remove_if_exists audit_webhook_config_path) ;;;
  let api_opts :=
    if Py.truthy_opt audit_webhook_config
    then <["audit-webhook-config-file" := audit_webhook_config_path]> api_opts
    else api_opts in
  secure <- is_flag_set "kubernetes-master.secure-storage.created" ;;
  let api_opts :=
    if secure
    then <["experimental-encryption-provider-config" :=
             encryption_config_path e]> api_opts
    else api_opts in
  configure_kubernetes_service e configure_prefix "kube-apiserver"
    api_opts "api-extra-args" ;;;
  service_restart "snap.kube-apiserver.daemon"
  end.

Definition configure_controller_manager (e : Env) : M unit :=
  let controller_opts : gmap string string := ∅ in
  let controller_opts := <["min-resync-period" := "3m"]> controller_opts in
  let controller_opts := <["v" := "2"]> controller_opts in
  let controller_opts := <["root-ca-file" := ca_crt_path e]> controller_opts in
  let controller_opts := <["logtostderr" := "true"]> controller_opts in
  let controller_opts :=
    <["master" := "http://127.0.0.1:8080"]> controller_opts in
  let controller_opts :=
    <["service-account-private-key-file" := "/root/cdk/serviceaccount.key"]>
      controller_opts in
  let controller_opts :=
    <["tls-cert-file" := server_crt_path e]> controller_opts in
  let controller_opts :=
    <["tls-private-key-file" := server_key_path e]> controller_opts in
  controller_opts <-
    cloud_opts e "kube-controller-manager" controller_opts ;;
  configure_kubernetes_service e configure_prefix "kube-controller-manager"
    controller_opts "controller-manager-extra-args" ;;;
  service_restart "snap.kube-controller-manager.daemon".

Definition scheduler_opts : gmap string string :=
  <["master" := "http://127.0.0.1:8080"]>
    (<["logtostderr" := "true"]> (<["v" := "2"]> ∅)).

Definition configure_scheduler (e : Env) : M unit :=
  configure_kubernetes_service e configure_prefix "kube-scheduler"
    scheduler_opts "scheduler-extra-args" ;;;
  service_restart "snap.kube-scheduler.daemon".

(** [@when('config.changed.scheduler-extra-args')]
    [@when('kubernetes-master.components.started')] *)
Definition on_config_scheduler_extra_args_change_guard (w : World) : bool :=
  flag "config.changed.scheduler-extra-args" w && flag started_flag w.
Definition on_config_scheduler_extra_args_change (e : Env) : M unit :=
  configure_scheduler e.

(** ** A plain environment and an empty unit, for the examples *)

Definition env0 : Env := {|
  config := ∅;
  config_bool := ∅;
  goal_state_relations := None;
  encryption_config_exists := true;
  keystone_api_version := None;
  keystone_service_ip := None;
  kube_apiserver_version := [1; 14; 2];
  service_running := fun _ => true;
  kube_system_pods := Some [];
  poke_network_unavailable := Ok tt;
  ceph_admin_key := None;
  random_index := fun n => n;
  genrsa := Ok "RSA PRIVATE KEY";
  unit_public_ip := "192.0.2.10";
  ingress_address := fun _ => "10.0.0.10";
  hostname := "master-0";
  fqdn := "master-0.example";
  ha_endpoint := false;
  loadbalancer_endpoint := None;
  extra_args := fun _ => ∅;
  render := fun _ _ => "";
  ca_crt_path := "/root/cdk/ca.crt";
  server_crt_path := "/root/cdk/server.crt";
  server_key_path := "/root/cdk/server.key";
  client_crt_path := "/root/cdk/client.crt";
  client_key_path := "/root/cdk/client.key";
  cloud_config_path := fun c => "/var/snap/" +:+ c +:+ "/common/cloud-config.conf";
  encryption_config_path := "/var/snap/kube-apiserver/common/encryption/encryption_config.yaml";
  str_lower := Py.lower
|}.

Definition with_config (c : gmap string string) (e : Env) : Env := {|
  config := c;
  config_bool := config_bool e;
  goal_state_relations := goal_state_relations e;
  encryption_config_exists := encryption_config_exists e;
  keystone_api_version := keystone_api_version e;
  keystone_service_ip := keystone_service_ip e;
  kube_apiserver_version := kube_apiserver_version e;
  service_running := service_running e;
  kube_system_pods := kube_system_pods e;
  poke_network_unavailable := poke_network_unavailable e;
  ceph_admin_key := ceph_admin_key e;
  random_index := random_index e;
  genrsa := genrsa e;
  unit_public_ip := unit_public_ip e;
  ingress_address := ingress_address e;
  hostname := hostname e;
  fqdn := fqdn e;
  ha_endpoint := ha_endpoint e;
  loadbalancer_endpoint := loadbalancer_endpoint e;
  extra_args := extra_args e;
  render := render e;
  ca_crt_path := ca_crt_path e;
  server_crt_path := server_crt_path e;
  server_key_path := server_key_path e;
  client_crt_path := client_crt_path e;
  client_key_path := client_key_path e;
  cloud_config_path := cloud_config_path e;
  encryption_config_path := encryption_config_path e;
  str_lower := str_lower e
|}.

Definition with_goal_state (g : option (list string)) (e : Env) : Env := {|
  config := config e;
  config_bool := config_bool e;
  goal_state_relations := g;
  encryption_config_exists := encryption_config_exists e;
  keystone_api_version := keystone_api_version e;
  keystone_service_ip := keystone_service_ip e;
  kube_apiserver_version := kube_apiserver_version e;
  service_running := service_running e;
  kube_system_pods := kube_system_pods e;
  poke_network_unavailable := poke_network_unavailable e;
  ceph_admin_key := ceph_admin_key e;
  random_index := random_index e;
  genrsa := genrsa e;
  unit_public_ip := unit_public_ip e;
  ingress_address := ingress_address e;
  hostname := hostname e;
  fqdn := fqdn e;
  ha_endpoint := ha_endpoint e;
  loadbalancer_endpoint := loadbalancer_endpoint e;
  extra_args := extra_args e;
  render := render e;
  ca_crt_path := ca_crt_path e;
  server_crt_path := server_crt_path e;
  server_key_path := server_key_path e;
  client_crt_path := client_crt_path e;
  client_key_path := client_key_path e;
  cloud_config_path := cloud_config_path e;
  encryption_config_path := encryption_config_path e;
  str_lower := str_lower e
|}.

Definition world0 : World := {|
  files := ∅;
  flags := ∅;
  leader_data := ∅;
  leader_log := [];
  kv := ∅;
  prev_args := ∅;
  status_log := [];
  restart_log := [];
  cert_requests := [];
  rng_pos := 0
|}.

(** The text of a prefix-length CIDR, as [str] prints its numbers. *)
Definition dotted (a b c d : Z) : string :=
  Py.join "." (map (fun n => Py.str_of_nat (Z.to_nat n)) [a; b; c; d]).
Definition cidr_text (a b c d p : Z) : string :=
  dotted a b c d +:+ "/" +:+ Py.str_of_nat (Z.to_nat p).

(** ** Characters that a text does not contain *)

Fixpoint no_char (c : ascii) (s : string) : bool :=
  match s with
  | EmptyString => true
  | String a s' => negb (Py.ascii_eqb a c) && no_char c s'
  end.

(** The dotted quad of a number of 32 bits, with its octets as numbers. *)
Definition quad (n : Z) : string :=
  dotted (Z.land (Z.shiftr n 24) 255) (Z.land (Z.shiftr n 16) 255)
    (Z.land (Z.shiftr n 8) 255) (Z.land n 255).

(** The hostmask of a prefix length. *)
Definition hostmask (plen : Z) : Z := Z.shiftr ipaddress.ALL_ONES plen.

(** A mask after the "/" is read as the prefix length it stands for:
    as a netmask for every length, and as a hostmask for the lengths
    between 1 and 31; the masks with all bits or no bit set are taken as
    netmasks. *)
Definition mask_ok (n : nat) : bool :=
  bool_decide (ipaddress.make_netmask (quad (ipaddress.netmask (Z.of_nat n)))
               = Some (Z.of_nat n))
  && bool_decide (ipaddress.make_netmask (quad (hostmask (Z.of_nat n)))
                  = Some (if (n =? 0)%nat then 32
                          else if (n =? 32)%nat then 0 else Z.of_nat n))
  && no_char "/" (quad (ipaddress.netmask (Z.of_nat n)))
  && no_char "/" (quad (hostmask (Z.of_nat n))).

(** Checks that are run over every octet and every prefix length. *)
Definition octet_ok (n : nat) : bool :=
  bool_decide (ipaddress.parse_octet (Py.str_of_nat n) = Some (Z.of_nat n))
  && no_char "." (Py.str_of_nat n) && no_char "/" (Py.str_of_nat n).

Definition prefix_ok (n : nat) : bool :=
  bool_decide (ipaddress.parse_prefixlen (Py.str_of_nat n) = Some (Z.of_nat n))
  && no_char "/" (Py.str_of_nat n).

(** Sample inputs. *)
Definition env_cidr (c : string) : Env :=
  with_config {[ "service-cidr" := c ]} env0.

Definition world_frozen (c : string) : World :=
  set_kv {[ service_cidr_key := c ]} world0.

(** An environment with operator-supplied names: a load-balancer
    override that repeats the ingress address, and extra SANs. *)
Definition env_sans : Env :=
  with_config {[ "service-cidr" := "10.152.183.0/24";
                 "dns_domain" := "cluster.local";
                 "loadbalancer-ips" := "10.0.0.10 10.0.0.11";
                 "extra_sans" := "h4 h3 h4" ]} env0.

(** ** Words of the specification for the two tables *)

(** A row whose second field is the user name or whose third field is
    the uid. *)
Definition row_hit (row : list string) (username uid : string) : Prop :=
  row !! 1%nat = Some username ∨ row !! 2%nat = Some uid.

(** The password that ends up in the new row: the one given, or a token
    drawn from the entropy when none is given. *)
Definition chosen_password (e : Env) (w : World) (password : option string)
  : string :=
  if Py.truthy_opt password then default "" password
  else draw e (rng_pos w) 32.

(** The table that [setup_basic_auth] finds. *)
Definition existing_rows (csv_reader : list string → list (list string))
    (w : World) : list (list string) :=
  match files w !! basic_auth with
  | Some c => csv_reader (Py.readlines (Py.universal_newlines c))
  | None => []
  end.

(** What the specification says [add_rbac_roles] writes for a line. *)
Definition expected_token_line (line : string) : string :=
  let record := Py.split_on "," (Py.strip line) in
  let user := record !! 2%nat in
  if bool_decide (user = Some "admin" ∧ length record = 3%nat) then
    Py.strip line +:+ "," +:+ String Py.DQ "system:masters"
    +:+ String Py.DQ "" +:+ String Py.LF ""
  else if bool_decide (user = Some "kube_proxy") then
    default "" (record !! 0%nat) +:+ ",system:kube-proxy,kube-proxy"
    +:+ String Py.LF ""
  else if bool_decide (user = Some "kubelet" ∧ record !! 1%nat = Some "kubelet")
  then ""
  else line.

Fixpoint concat_text (l : list string) : string :=
  match l with
  | [] => ""
  | s :: l' => s +:+ concat_text l'
  end.

(** [csv.reader] and [csv.writer] on tables whose fields need no quoting:
    a blank line reads as an empty row, rows are written with "\r\n". *)
Definition rstrip_newline (line : string) : string :=
  match Py.split_on Py.LF line with
  | l :: _ => l
  | [] => line
  end.
Definition plain_csv_reader (lines : list string) : list (list string) :=
  map (fun line =>
         if Py.str_eqb (rstrip_newline line) "" then []
         else Py.split_on "," (rstrip_newline line)) lines.
Definition plain_csv_writerows (rows : list (list string)) : string :=
  concat_text (map (fun row => Py.join "," row
                               +:+ String Py.CR (String Py.LF "")) rows).

Definition world_files (f : gmap string string) : World :=
  set_files f world0.

Definition world_basic_auth : World :=
  world_files {[ basic_auth :=
    "pw,bob,bob" +:+ String Py.LF "" +:+ "old,admin,admin" +:+ String Py.LF ""
    +:+ "pw2,eve,eve" +:+ String Py.LF "" ]}.

(** A table with a blank line after its only row. *)
Definition world_blank_row : World :=
  world_files {[ basic_auth :=
    "pw,bob,bob" +:+ String Py.LF "" +:+ String Py.LF "" ]}.

(** The files of a unit that adopts the broadcast values of the keys in
    order, up to the first key that has no value yet. *)
Fixpoint adopt (ks : list string) (d fs : gmap string string)
  : gmap string string :=
  match ks with
  | [] => fs
  | k :: rest =>
      match d !! k with
      | Some c => adopt rest d (<[k := c +:+ String Py.LF ""]> fs)
      | None => fs
      end
  end.

(** The files of a unit that fetches the broadcast value of each key it
    has no file for, in order, up to the first one that is missing on
    both sides. *)
Fixpoint complete (ks : list string) (d fs : gmap string string)
  : gmap string string :=
  match ks with
  | [] => fs
  | k :: rest =>
      match fs !! k with
      | Some _ => complete rest d fs
      | None =>
          match d !! k with
          | Some c => complete rest d (<[k := c +:+ String Py.LF ""]> fs)
          | None => fs
          end
      end
  end.

(** Whether that unit ends up with a file for every key. *)
Fixpoint completes (ks : list string) (d fs : gmap string string) : bool :=
  match ks with
  | [] => true
  | k :: rest =>
      match fs !! k with
      | Some _ => completes rest d fs
      | None =>
          match d !! k with
          | Some c => completes rest d (<[k := c +:+ String Py.LF ""]> fs)
          | None => false
          end
      end
  end.

(** A computation that leaves a component of the state as it was. *)
Definition preserves {A B} (proj : World → B) (m : M A) : Prop :=
  ∀ w, proj (snd (m w)) = proj w.

(** What a unit has published: the channel and the calls made. *)
Definition published (w : World)
  : gmap string string * list (gmap string string) :=
  (leader_data w, leader_log w).

(** The fields of a line of the known-tokens table, and whether the line
    has the three that a row needs. *)
Definition token_record (line : string) : list string :=
  Py.split_on "," (Py.strip line).
Definition token_row (line : string) : Prop :=
  (3 <= length (token_record line))%nat.

(** The lines that [add_rbac_roles] iterates over. *)
Definition token_lines (w : World) : list string :=
  match files w !! known_tokens with
  | Some c => Py.readlines (Py.universal_newlines c)
  | None => []
  end.

(** A unit whose three authentication files hold one admin row each. *)
Definition leader_files : gmap string string :=
  {[ service_key := "RSA PRIVATE KEY" +:+ String Py.LF "";
     basic_auth := "pw,admin,admin,system:masters" +:+ String Py.LF "";
     known_tokens := "tok,admin,admin" +:+ String Py.LF "" ]}.

Definition world_leader : World :=
  set_flags {[ "leadership.is_leader" ]} (world_files leader_files).

(** A leader with no file of its own whose channel holds the two tables
    but no service key, and that leader after its handler. *)
Definition world_partial_broadcast : World :=
  set_leader
    {[ basic_auth := "pw,admin,admin,system:masters" +:+ String Py.LF "";
       known_tokens := "tok,admin,admin" +:+ String Py.LF "" ]} []
    (set_flags {[ "leadership.is_leader" ]} world0).
Definition world_regenerated : World :=
  snd (setup_leader_authentication plain_csv_reader plain_csv_writerows env0
         world_partial_broadcast).

(** A follower that sees what [world_leader] broadcast. *)
Definition world_follower (broadcast : gmap string string) : World :=
  set_leader broadcast [] world0.

(** What the leader publishes for three file contents, as read. *)
Definition leader_dict (tokens auth key : string) : gmap string string :=
  <[service_key := Py.universal_newlines key]>
    (<[basic_auth := Py.universal_newlines auth]>
       (<[known_tokens := Py.universal_newlines tokens]> ∅)).

(** A follower whose channel has the service key only, and an older
    service key of its own. *)
Definition world_partial : World :=
  set_leader {[ service_key := "NEW KEY" ]} []
    (world_files {[ service_key := "OLD KEY" ]}).

(** A digest for the examples: the content itself. *)
Definition plain_hash (content : string) : string := content.

(** The leader [world_leader] after its handler, and a fresh follower
    after its handler, with the leader's broadcast on the channel. *)
Definition world_leader_done : World :=
  snd (setup_leader_authentication plain_csv_reader plain_csv_writerows env0
         world_leader).
Definition world_synced : World :=
  snd (setup_non_leader_authentication plain_hash
         (world_follower (leader_data world_leader_done))).

(** ** Words of the specification for the status rules *)

(** What the leadership layer keeps on the unit for the DNS provider:
    the three flags of the setting and its record in the key/value
    store. *)
Definition dns_leadership_flag (f : string) : bool :=
  Py.str_eqb f "leadership.set.auto_dns_provider"
  || Py.str_eqb f "leadership.changed.auto_dns_provider"
  || Py.str_eqb f "leadership.changed".
Definition dns_setting_key : string := "leadership.settings.auto_dns_provider".

(** Two states of a unit that differ at most in the channel and in what
    the leadership layer keeps for the DNS provider. *)
Definition same_but_leadership (w w' : World) : Prop :=
  files w' = files w
  ∧ prev_args w' = prev_args w
  ∧ status_log w' = status_log w
  ∧ restart_log w' = restart_log w
  ∧ cert_requests w' = cert_requests w
  ∧ rng_pos w' = rng_pos w
  ∧ (∀ f, dns_leadership_flag f = false → flag f w' = flag f w)
  ∧ (∀ k, k ≠ dns_setting_key → kv w' !! k = kv w !! k).

(** A rule whose condition and report do not look at the channel or at
    what the leadership layer keeps, and whose evaluation changes nothing
    else. *)
Definition leader_blind (e : Env) (r : Rule) : Prop :=
  ∀ w w',
    same_but_leadership w w' →
    cond r e w' = cond r e w
    ∧ report r e w' = report r e w
    ∧ same_but_leadership w (effect r e w').

(** The state after the evaluation of the first [i] rules. *)
Definition after_rules (rules : list Rule) (i : nat) (e : Env) (w : World)
  : World :=
  foldl (fun w r => effect r e w) w (take i rules).

(** The position of the DNS provider rule in [status_rules]. *)
Definition dns_rule_index : nat := 9.

Definition env_dns (provider : string) : Env :=
  with_config {[ "dns-provider" := provider ]} env0.

(** A unit whose relations are there and whose components run. *)
Definition world_started : World :=
  set_flags {[ "kube-api-endpoint.available"; "kube-control.connected";
               "kubernetes-master.components.started";
               "leadership.is_leader"; "cdk-addons.configured" ]} world0.

(** ** Words of the specification for the restart of a service *)

(** A handler that, when it runs through, has restarted the service
    exactly once, and that restarts nothing when it fails. *)
Definition restarts_once (s : string) (m : M unit) : Prop :=
  ∀ w,
    (fst (m w) = Ok tt ∧ restart_log (snd (m w)) = restart_log w ++ [s])
    ∨ (fst (m w) ≠ Ok tt ∧ restart_log (snd (m w)) = restart_log w).

(** An environment with the options that [configure_apiserver] reads. *)
Definition env_api : Env :=
  with_config {[ "allow-privileged" := "auto";
                 "authorization-mode" := "Node,RBAC";
                 "service-cidr" := "10.152.183.0/24";
                 "storage-backend" := "etcd3" ]} env0.


(** ** The token table: adding a user *)

(** The line that [setup_tokens] formats for a user. *)
Definition token_line (token username user : string)
    (groups : option string) : string :=
  if Py.truthy_opt groups then
    token +:+ "," +:+ username +:+ "," +:+ user +:+ ","
    +:+ String Py.DQ (default "" groups)
    +:+ String Py.DQ (String Py.LF "")
  else token +:+ "," +:+ username +:+ "," +:+ user +:+ String Py.LF "".

(** [setup_tokens]: the table is opened in append mode, which creates it
    when it is missing. *)
Definition setup_tokens (e : Env) (token : option string)
    (username user : string) (groups : option string) : M unit :=
  token <- (match token with
            | Some t => if Py.truthy t then ret t else token_generator e 32
            | None => token_generator e 32
            end) ;;
  append_text known_tokens (token_line token username user groups).

(** A text that is empty or ends with a line feed: a file of whole
    lines. *)
Fixpoint whole_lines (s : string) : bool :=
  match s with
  | EmptyString => true
  | String c s' =>
      match s' with
      | EmptyString => Py.ascii_eqb c Py.LF
      | String _ _ => whole_lines s'
      end
  end.

(** A field that can be written to a table as it is: no comma and no
    line end in it. *)
Definition plain_field (s : string) : bool :=
  no_char "," s && no_char Py.LF s && no_char Py.CR s.

(** The characters of a text. *)
Definition chars (s : string) : list ascii := list_ascii_of_string s.

(** The fields of a line as [get_password] splits it. *)
Definition password_record (line : string) : list string :=
  Py.split_on "," line.

(** A table with a record for bob, and the same table with a blank
    line after it. *)
Definition world_tokens : World :=
  world_files {[ known_tokens := "tok,bob,bob" +:+ String Py.LF "" ]}.
Definition world_tokens_blank : World :=
  world_files {[ known_tokens :=
    "tok,bob,bob" +:+ String Py.LF (String Py.LF "") ]}.

(** ** Tokens for the workers *)

(** A request of a worker on the kube-control relation, as
    [kube_control.auth_user()] lists them: the unit that asks, with the
    user and the group it asks for. *)
Record AuthRequest := {
  request_unit : string;
  request_user : option string;
  request_group : option string
}.

(** The arguments of one [kube_control.sign_auth_request] call. *)
Record AuthReply := {
  reply_unit : string;
  reply_user : string;
  reply_kubelet_token : option string;
  reply_proxy_token : option string;
  reply_client_token : option string
}.

(** The loop of [create_service_configs] over the requests.  The replies
    that were signed are returned with the result. *)
Fixpoint sign_requests (e : Env) (requests : list AuthRequest)
    (proxy_token client_token : option string) (should_restart : bool)
  : M (bool * list AuthReply) :=
  match requests with
  | [] => ret (should_restart, [])
  | request :: rest =>
      let username := request_user request in
      let group := request_group request in
      if negb (Py.truthy_opt username) || negb (Py.truthy_opt group) then
        sign_requests e rest proxy_token client_token should_restart
      else
        let username := default "" username in
        kubelet_token <- get_token username ;;
        signed <-
          (if negb (Py.truthy_opt kubelet_token) then
             unit_number <-
               lift (index (Py.split_on "/" (request_unit request)) 1) ;;
             let userid := "kubelet-" +:+ unit_number in
             setup_tokens e None username userid group ;;;
             kubelet_token <- get_token username ;;
             ret (kubelet_token, true)
           else ret (kubelet_token, should_restart)) ;;
        let reply := {| reply_unit := request_unit request;
                        reply_user := username;
                        reply_kubelet_token := fst signed;
                        reply_proxy_token := proxy_token;
                        reply_client_token := client_token |} in
        others <- sign_requests e rest proxy_token client_token (snd signed) ;;
        ret (fst others, reply :: snd others)
  end.

Definition apiserver_daemon : string := "snap.kube-apiserver.daemon".

(** [@when('kube-control.connected') @when('snap.installed.kubectl')
    @when('leadership.is_leader')]; the requests are those of the
    [kube_control] endpoint that the handler is called with. *)
Definition create_service_configs (e : Env) (requests : list AuthRequest)
  : M (list AuthReply) :=
  let should_restart := false in
  proxy_token <- get_token "system:kube-proxy" ;;
  proxy <-
    (if negb (Py.truthy_opt proxy_token) then
       setup_tokens e None "system:kube-proxy" "kube-proxy" None ;;;
       proxy_token <- get_token "system:kube-proxy" ;;
       ret (proxy_token, true)
     else ret (proxy_token, should_restart)) ;;
  let proxy_token := fst proxy in
  let should_restart := snd proxy in
  client_token <- get_token "admin" ;;
  client <-
    (if negb (Py.truthy_opt client_token) then
       setup_tokens e None "admin" "admin" (Some "system:masters") ;;;
       client_token <- get_token "admin" ;;
       ret (client_token, true)
     else ret (client_token, should_restart)) ;;
  let client_token := fst client in
  let should_restart := snd client in
  signed <- sign_requests e requests proxy_token client_token should_restart ;;
  (if fst signed then
     service_restart apiserver_daemon ;;;
     remove_state auth_flag
   else ret tt) ;;;
  ret (snd signed).

(** What [create_service_configs] does with the token it has looked
    up for a user: it adds one when there is none and looks again. *)
Definition add_token (e : Env) (username user : string)
    (groups : option string) (should_restart : bool)
    (token : option string) : M (option string * bool) :=
  if negb (Py.truthy_opt token) then
    setup_tokens e None username user groups ;;;
    token <- get_token username ;;
    ret (token, true)
  else ret (token, should_restart).

(** The size of the token table. *)
Definition tokens_size (w : World) : nat :=
  String.length (default "" (files w !! known_tokens)).

(** A request that names a user and a group. *)
Definition request_valid (request : AuthRequest) : bool :=
  Py.truthy_opt (request_user request)
  && Py.truthy_opt (request_group request).

(** A user with a token in the table. *)
Definition has_token (w : World) (username : string) : Prop :=
  ∃ t, fst (get_token username w) = Ok (Some t) ∧ t ≠ "".

(** What a step of [create_service_configs] does to the unit: nothing,
    and the restart stays as it was decided, or the token table has
    grown, and a restart is decided. *)
Definition token_outcome (should_restart : bool) (w : World)
    (should_restart' : bool) (w' : World) : Prop :=
  (w' = w ∧ should_restart' = should_restart)
  ∨ ((tokens_size w < tokens_size w')%nat ∧ should_restart' = true
     ∧ flags w' = flags w ∧ restart_log w' = restart_log w).

(** The token that [get_token] finds for a user, if any. *)
Definition token_of (w : World) (username : string) : option string :=
  match fst (get_token username w) with
  | Ok t => t
  | Raise _ => None
  end.

(** The reply to a request on a table that is left as it is. *)
Definition reply_of (w : World) (request : AuthRequest) : AuthReply :=
  {| reply_unit := request_unit request;
     reply_user := default "" (request_user request);
     reply_kubelet_token := token_of w (default "" (request_user request));
     reply_proxy_token := token_of w "system:kube-proxy";
     reply_client_token := token_of w "admin" |}.

(** A table with tokens for the proxy, the administrator and one
    worker, and the request of that worker. *)
Definition world_tokens_all : World :=
  world_files {[ known_tokens :=
    "t1,system:kube-proxy,kube-proxy" +:+ String Py.LF ""
    +:+ "t2,admin,admin," +:+ String Py.DQ "system:masters"
    +:+ String Py.DQ (String Py.LF "")
    +:+ "t3,system:node:w0,kubelet-0," +:+ String Py.DQ "system:nodes"
    +:+ String Py.DQ (String Py.LF "") ]}.
Definition request_w0 : AuthRequest :=
  {| request_unit := "kubernetes-worker/0";
     request_user := Some "system:node:w0";
     request_group := Some "system:nodes" |}.

(** ** Upgrades and cloud integration *)

(** [set_upgrade_needed]; [previous_channel] is what
    [config.previous('channel')] returns, the value of the option at the
    end of the previous hook, [None] when there was none. *)
Definition set_upgrade_needed (e : Env) (previous_channel : option string)
    (forced : bool) : M unit :=
  set_state "kubernetes-master.upgrade-needed" ;;;
  let require_manual := config_bool e !! "require-manual-upgrade" in
  if bool_decide (previous_channel = None)
     || negb (default false require_manual) || forced
  then set_state "kubernetes-master.upgrade-specified"
  else ret tt.

(** [@when('config.changed.channel')] *)
Definition channel_changed (e : Env) (previous_channel : option string)
  : M unit :=
  set_upgrade_needed e previous_channel false.

(** [@when_any('endpoint.aws.joined', ...)
    @when_not('kubernetes-master.cloud.ready')] *)
Definition set_cloud_pending (e : Env) : M unit :=
  let k8s_version := kube_apiserver_version e in
  let k8s_1_11 := Py.tuple_ge k8s_version [1; 11] in
  let k8s_1_12 := Py.tuple_ge k8s_version [1; 12] in
  vsphere_joined <- is_state "endpoint.vsphere.joined" ;;
  azure_joined <- is_state "endpoint.azure.joined" ;;
  (if (vsphere_joined && negb k8s_1_12) || (azure_joined && negb k8s_1_11)
   then set_state "kubernetes-master.cloud.blocked"
   else remove_state "kubernetes-master.cloud.blocked") ;;;
  set_state "kubernetes-master.cloud.pending".

(** The status that [set_final_status] has added to the log. *)
Definition reported (w w' : World) (status : string * string) : Prop :=
  status_log w' = status_log w ++ [status].

(** Sample inputs: an environment with another version of the API
    server, with boolean options, and a unit with given flags. *)
Definition with_version (v : list Z) (e : Env) : Env := {|
  config := config e;
  config_bool := config_bool e;
  goal_state_relations := goal_state_relations e;
  encryption_config_exists := encryption_config_exists e;
  keystone_api_version := keystone_api_version e;
  keystone_service_ip := keystone_service_ip e;
  kube_apiserver_version := v;
  service_running := service_running e;
  kube_system_pods := kube_system_pods e;
  poke_network_unavailable := poke_network_unavailable e;
  ceph_admin_key := ceph_admin_key e;
  random_index := random_index e;
  genrsa := genrsa e;
  unit_public_ip := unit_public_ip e;
  ingress_address := ingress_address e;
  hostname := hostname e;
  fqdn := fqdn e;
  ha_endpoint := ha_endpoint e;
  loadbalancer_endpoint := loadbalancer_endpoint e;
  extra_args := extra_args e;
  render := render e;
  ca_crt_path := ca_crt_path e;
  server_crt_path := server_crt_path e;
  server_key_path := server_key_path e;
  client_crt_path := client_crt_path e;
  client_key_path := client_key_path e;
  cloud_config_path := cloud_config_path e;
  encryption_config_path := encryption_config_path e;
  str_lower := str_lower e
|}.

Definition with_config_bool (c : gmap string bool) (e : Env) : Env := {|
  config := config e;
  config_bool := c;
  goal_state_relations := goal_state_relations e;
  encryption_config_exists := encryption_config_exists e;
  keystone_api_version := keystone_api_version e;
  keystone_service_ip := keystone_service_ip e;
  kube_apiserver_version := kube_apiserver_version e;
  service_running := service_running e;
  kube_system_pods := kube_system_pods e;
  poke_network_unavailable := poke_network_unavailable e;
  ceph_admin_key := ceph_admin_key e;
  random_index := random_index e;
  genrsa := genrsa e;
  unit_public_ip := unit_public_ip e;
  ingress_address := ingress_address e;
  hostname := hostname e;
  fqdn := fqdn e;
  ha_endpoint := ha_endpoint e;
  loadbalancer_endpoint := loadbalancer_endpoint e;
  extra_args := extra_args e;
  render := render e;
  ca_crt_path := ca_crt_path e;
  server_crt_path := server_crt_path e;
  server_key_path := server_key_path e;
  client_crt_path := client_crt_path e;
  client_key_path := client_key_path e;
  cloud_config_path := cloud_config_path e;
  encryption_config_path := encryption_config_path e;
  str_lower := str_lower e
|}.

Definition world_flags (f : gset string) : World := set_flags f world0.

(** A running leader with the service CIDR and the DNS provider
    configured. *)
Definition env_running (cidr : string) : Env :=
  with_config {[ "service-cidr" := cidr; "dns-provider" := "auto" ]} env0.

(** ** The addresses that the unit advertises *)

(** What [push_service_data] hands to [kube_api.configure] as the
    address: a list of addresses, or the DNS record, a text. *)
Inductive Address : Type :=
| AddressList (addresses : list string)
| AddressName (name : string).

(** [bool(address)] *)
Definition address_truthy (a : option Address) : bool :=
  match a with
  | Some (AddressList l) => negb (bool_decide (l = []))
  | Some (AddressName s) => Py.truthy s
  | None => false
  end.

Definition address_names (a : Address) : list string :=
  match a with
  | AddressList l => l
  | AddressName s => [s]
  end.

(** The arguments of [kube_api.configure]; the two addresses are [None]
    when the call leaves them out. *)
Record ApiEndpoint := {
  endpoint_port : Z;
  endpoint_private_address : option Address;
  endpoint_public_address : option Address
}.

(** [@when('kube-api-endpoint.available')]: the handler has no effect
    but the call of [kube_api.configure], whose arguments are returned. *)
Definition push_service_data (e : Env) : result ApiEndpoint :=
  forced_lb_ips ← config_split e "loadbalancer-ips";
  address ←
    (if negb (bool_decide (forced_lb_ips = []))
     then Ok (Some (AddressList forced_lb_ips))
     else if ha_endpoint e then
       vips ← config_split e "ha-cluster-vip";
       let dns_record := config e !! "ha-cluster-dns" in
       if negb (bool_decide (vips = [])) then Ok (Some (AddressList vips))
       else if Py.truthy_opt dns_record then Ok (AddressName <$> dns_record)
       else Ok None
     else Ok None);
  if address_truthy address
  then Ok {| endpoint_port := 6443;
             endpoint_private_address := address;
             endpoint_public_address := address |}
  else Ok {| endpoint_port := 6443;
             endpoint_private_address := None;
             endpoint_public_address := None |}.

(** [get_hacluster_ip_or_hostname]; [unit_number] is what
    [get_unit_number()] of the kubernetes-common layer returns, the
    number in the name of the unit. *)
Definition get_hacluster_ip_or_hostname (e : Env) (unit_number : nat)
  : result (option string) :=
  if ha_endpoint e then
    vips ← config_split e "ha-cluster-vip";
    let dns_record := config e !! "ha-cluster-dns" in
    if negb (bool_decide (vips = [])) then
      vip ← index vips (unit_number mod length vips);
      Ok (Some vip)
    else if Py.truthy_opt dns_record then Ok dns_record
    else Ok None
  else Ok None.

(** The server that [create_self_config] builds the kubeconfig for;
    [hookenv.unit_get('public-address')] is the address that
    [hookenv.unit_public_ip()] returns. *)
Definition self_config_server (e : Env) (unit_number : nat)
  : result (string * string) :=
  forced_lb_ips ← config_split e "loadbalancer-ips";
  address ←
    (if negb (bool_decide (forced_lb_ips = [])) then
       index forced_lb_ips (unit_number mod length forced_lb_ips)
     else
       hacluster_vip ← get_hacluster_ip_or_hostname e unit_number;
       if Py.truthy_opt hacluster_vip then Ok (default "" hacluster_vip)
       else Ok (unit_public_ip e));
  Ok (address, "https://" +:+ address +:+ ":" +:+ "6443").

Section Kubeconfig.

(** [build_kubeconfig] writes the kubeconfig of the administrator with
    the tools of the kubernetes-common layer. *)
Variable build_kubeconfig : string → M unit.

(** [@when('certificates.ca.available',
    'certificates.client.cert.available', 'authentication.setup')
    @when_not('loadbalancer.available')] *)
Definition create_self_config (e : Env) (unit_number : nat) : M unit :=
  server <- lift (self_config_server e unit_number) ;;
  build_kubeconfig (snd server).

End Kubeconfig.

(** An environment with a high-availability cluster and two virtual
    addresses. *)
Definition with_ha (ha : bool) (e : Env) : Env := {|
  config := config e;
  config_bool := config_bool e;
  goal_state_relations := goal_state_relations e;
  encryption_config_exists := encryption_config_exists e;
  keystone_api_version := keystone_api_version e;
  keystone_service_ip := keystone_service_ip e;
  kube_apiserver_version := kube_apiserver_version e;
  service_running := service_running e;
  kube_system_pods := kube_system_pods e;
  poke_network_unavailable := poke_network_unavailable e;
  ceph_admin_key := ceph_admin_key e;
  random_index := random_index e;
  genrsa := genrsa e;
  unit_public_ip := unit_public_ip e;
  ingress_address := ingress_address e;
  hostname := hostname e;
  fqdn := fqdn e;
  ha_endpoint := ha;
  loadbalancer_endpoint := loadbalancer_endpoint e;
  extra_args := extra_args e;
  render := render e;
  ca_crt_path := ca_crt_path e;
  server_crt_path := server_crt_path e;
  server_key_path := server_key_path e;
  client_crt_path := client_crt_path e;
  client_key_path := client_key_path e;
  cloud_config_path := cloud_config_path e;
  encryption_config_path := encryption_config_path e;
  str_lower := str_lower e
|}.

Definition env_ha : Env :=
  with_ha true
    (with_config {[ "service-cidr" := "10.152.183.0/24";
                    "dns_domain" := "cluster.local";
                    "loadbalancer-ips" := "";
                    "ha-cluster-vip" := "10.0.0.20 10.0.0.21";
                    "ha-cluster-dns" := "k8s.example" ]} env0).

(** ** Files that a handler leaves alone *)

(** A computation that never changes or removes the file at [p], once
    it exists, whether it returns or raises. *)
Definition keeps_file {A} (p : string) (m : M A) : Prop :=
  ∀ w c, files w !! p = Some c → files (snd (m w)) !! p = Some c.

(** ** The token table after the migration *)

(** A line as a file yields it: not empty, and with no line feed except
    as its last character. *)
Fixpoint one_line (s : string) : bool :=
  match s with
  | EmptyString => false
  | String c s' =>
      match s' with
      | EmptyString => true
      | String _ _ => negb (Py.ascii_eqb c Py.LF) && one_line s'
      end
  end.

(** The lines of a file: each is a line, and each but the last one ends
    with a line feed. *)
Fixpoint lines_ok (ls : list string) : Prop :=
  match ls with
  | [] => True
  | l :: rest =>
      one_line l = true ∧ (rest ≠ [] → whole_lines l = true) ∧ lines_ok rest
  end.

(** What is written for the lines of a file: nothing, or a line, which
    ends with a line feed unless it is the last. *)
Fixpoint texts_ok (ts : list string) : Prop :=
  match ts with
  | [] => True
  | t :: rest =>
      (t = "" ∨ (one_line t = true ∧ (rest ≠ [] → whole_lines t = true)))
      ∧ texts_ok rest
  end.

Definition nonempty (s : string) : bool := negb (Py.str_eqb s "").

(** A table of the time before RBAC: an administrator, a proxy, a
    kubelet and a user. *)
Definition world_old_tokens : World :=
  world_files {[ known_tokens :=
    "t1,admin,admin" +:+ String Py.LF ""
    +:+ "t2,kube_proxy,kube_proxy" +:+ String Py.LF ""
    +:+ "t3,kubelet,kubelet" +:+ String Py.LF ""
    +:+ "t4,alice,alice" +:+ String Py.LF "" ]}.

(** The ends of the two lines that [add_rbac_roles] rewrites, without
    the line feed. *)
Definition admin_groups : string :=
  "," +:+ String Py.DQ "system:masters" +:+ String Py.DQ "".
Definition proxy_fields : string := ",system:kube-proxy,kube-proxy".

(** ** The digests that a follower records *)

(** The digests on record are those of the files. *)
Definition recorded (file_hash : string → string) (fs : list string)
    (w : World) : Prop :=
  ∀ f, f ∈ fs → kv w !! files_changed_key f = file_hash <$> files w !! f.

(** ** What a handler establishes *)

(** A computation after which, when it returns, a component of the
    state has the value [v]. *)
Definition yields {A B} (proj : World → B) (v : B) (m : M A) : Prop :=
  ∀ w r w', m w = (Ok r, w') → proj w' = v.

Definition audit_policy_path : string := "/root/cdk/audit/audit-policy.yaml".
Definition audit_webhook_config_path : string :=
  "/root/cdk/audit/audit-webhook-config.yaml".

(** The file that [configure_apiserver] leaves for an audit option. *)
Definition audit_file (setting : option string) : option string :=
  if Py.truthy_opt setting
  then Some ("# Autogenerated by kubernetes-master charm"
             +:+ String Py.LF "" +:+ default "" setting)
  else None.

(** An environment with an audit policy and no audit webhook. *)
Definition env_audit : Env :=
  with_config {[ "allow-privileged" := "auto";
                 "authorization-mode" := "Node,RBAC";
                 "service-cidr" := "10.152.183.0/24";
                 "storage-backend" := "etcd3";
                 "audit-policy" := "apiVersion: audit.k8s.io/v1beta1";
                 "audit-webhook-config" := "" ]} env0.
(** * Properties *)

(** ** Text *)

Lemma append_cons c s t : String c s +:+ t = String c (s +:+ t).
Proof. reflexivity. Qed.

Lemma append_nil t : "" +:+ t = t.
Proof. reflexivity. Qed.

Lemma append_nil_r s : s +:+ "" = s.
Proof.
  induction s as [|a s IH]; [reflexivity|].
  rewrite append_cons. by rewrite IH.
Qed.

Lemma append_assoc s t u : (s +:+ t) +:+ u = s +:+ (t +:+ u).
Proof.
  induction s as [|a s IH]; [reflexivity|].
  rewrite !append_cons. by rewrite IH.
Qed.

Lemma ascii_eqb_refl c : Py.ascii_eqb c c = true.
Proof. unfold Py.ascii_eqb. by rewrite bool_decide_eq_true_2. Qed.

Lemma str_eqb_refl s : Py.str_eqb s s = true.
Proof. unfold Py.str_eqb. by rewrite bool_decide_eq_true_2. Qed.

Lemma str_eqb_eq s t : Py.str_eqb s t = true ↔ s = t.
Proof. unfold Py.str_eqb. by rewrite bool_decide_eq_true. Qed.

Lemma str_eqb_neq s t : Py.str_eqb s t = false ↔ s ≠ t.
Proof. unfold Py.str_eqb. by rewrite bool_decide_eq_false. Qed.

Lemma no_char_app c s t :
  no_char c (s +:+ t) = no_char c s && no_char c t.
Proof.
  induction s as [|a s IH]; [reflexivity|].
  rewrite append_cons. cbn [no_char]. rewrite IH. by rewrite andb_assoc.
Qed.

Lemma split_on_none sep s : no_char sep s = true → Py.split_on sep s = [s].
Proof.
  induction s as [|a s IH]; [reflexivity|].
  intros [Ha Hs]%andb_prop. apply negb_true_iff in Ha.
  cbn [Py.split_on]. rewrite Ha, (IH Hs). reflexivity.
Qed.

Lemma split_on_app sep s t :
  no_char sep s = true →
  Py.split_on sep (s +:+ String sep t) = s :: Py.split_on sep t.
Proof.
  induction s as [|a s IH].
  - intros _. rewrite append_nil. cbn [Py.split_on].
    by rewrite ascii_eqb_refl.
  - intros [Ha Hs]%andb_prop. apply negb_true_iff in Ha.
    rewrite append_cons. cbn [Py.split_on]. rewrite Ha, (IH Hs). reflexivity.
Qed.

Lemma split_on_nonempty sep s : Py.split_on sep s ≠ [].
Proof.
  destruct s as [|a s]; cbn [Py.split_on]; [done|].
  destruct (Py.ascii_eqb a sep); [done|].
  destruct (Py.split_on sep s); done.
Qed.

(** Joining the fields of a split text gives the text back. *)
Lemma join_split_on sep s :
  Py.join (String sep "") (Py.split_on sep s) = s.
Proof.
  induction s as [|a s IH]; [reflexivity|].
  cbn [Py.split_on]. destruct (Py.ascii_eqb a sep) eqn:Ha.
  - apply bool_decide_eq_true in Ha as ->.
    pose proof (split_on_nonempty sep s) as Hne.
    destruct (Py.split_on sep s) as [|w ws] eqn:Hs; [done|].
    cbn [Py.join]. cbn [Py.join] in IH.
    rewrite append_nil, append_cons, append_nil. by rewrite IH.
  - pose proof (split_on_nonempty sep s) as Hne.
    destruct (Py.split_on sep s) as [|w ws] eqn:Hs; [done|].
    destruct ws as [|w' ws].
    + cbn [Py.join] in *. by rewrite IH.
    + cbn [Py.join] in *. rewrite append_cons. by rewrite IH.
Qed.

(** ** The addresses of the service CIDR *)

Section ServiceCidr.

Import ipaddress.

Lemma network_address_nonneg i : 0 <= network_address i.
Proof.
  unfold network_address, netmask.
  apply Z.land_nonneg. right.
  apply Z.lxor_nonneg. split; intros _.
  - apply Z.shiftr_nonneg. unfold ALL_ONES. lia.
  - unfold ALL_ONES. lia.
Qed.

Lemma add_in_range a n :
  0 <= a + n → a + n <= ALL_ONES → add a n = Ok (a + n).
Proof.
  intros H1 H2. unfold add.
  destruct (Z.ltb_spec (a + n) 0); [lia|].
  destruct (Z.ltb_spec ALL_ONES (a + n)); [lia|]. reflexivity.
Qed.

Lemma add_overflow a n : ALL_ONES < a + n → add a n = Raise AddressValueError.
Proof.
  intros H. unfold add.
  destruct (Z.ltb_spec ALL_ONES (a + n)); [|lia].
  by rewrite orb_true_r.
Qed.

Lemma octets_ok : forallb octet_ok (seq 0 256) = true.
Proof. vm_compute. reflexivity. Qed.

Lemma octet_ok_spec n :
  0 <= n <= 255 →
  parse_octet (Py.str_of_nat (Z.to_nat n)) = Some n
  ∧ no_char "." (Py.str_of_nat (Z.to_nat n)) = true
  ∧ no_char "/" (Py.str_of_nat (Z.to_nat n)) = true.
Proof.
  intros Hn.
  assert (Hin : In (Z.to_nat n) (seq 0 256)) by (apply in_seq; lia).
  pose proof (proj1 (forallb_forall _ _) octets_ok _ Hin) as H.
  unfold octet_ok in H.
  apply andb_prop in H as [H H3]. apply andb_prop in H as [H1 H2].
  apply bool_decide_eq_true in H1. rewrite Z2Nat.id in H1 by lia. auto.
Qed.

Lemma prefixes_ok : forallb prefix_ok (seq 0 33) = true.
Proof. vm_compute. reflexivity. Qed.

Lemma prefix_ok_spec n :
  0 <= n <= 32 →
  parse_prefixlen (Py.str_of_nat (Z.to_nat n)) = Some n
  ∧ no_char "/" (Py.str_of_nat (Z.to_nat n)) = true.
Proof.
  intros Hn.
  assert (Hin : In (Z.to_nat n) (seq 0 33)) by (apply in_seq; lia).
  pose proof (proj1 (forallb_forall _ _) prefixes_ok _ Hin) as H.
  unfold prefix_ok in H. apply andb_prop in H as [H1 H2].
  apply bool_decide_eq_true in H1. rewrite Z2Nat.id in H1 by lia. auto.
Qed.

Lemma parse_address_dotted a b c d :
  0 <= a <= 255 → 0 <= b <= 255 → 0 <= c <= 255 → 0 <= d <= 255 →
  parse_address (dotted a b c d)
  = Some (Z.shiftl a 24 + Z.shiftl b 16 + Z.shiftl c 8 + d)
  ∧ no_char "/" (dotted a b c d) = true.
Proof.
  intros Ha Hb Hc Hd.
  destruct (octet_ok_spec a Ha) as (Pa & Da & Sa).
  destruct (octet_ok_spec b Hb) as (Pb & Db & Sb).
  destruct (octet_ok_spec c Hc) as (Pc & Dc & Sc).
  destruct (octet_ok_spec d Hd) as (Pd & Dd & Sd).
  unfold dotted. cbn [map Py.join].
  set (sa := Py.str_of_nat (Z.to_nat a)) in *.
  set (sb := Py.str_of_nat (Z.to_nat b)) in *.
  set (sc := Py.str_of_nat (Z.to_nat c)) in *.
  set (sd := Py.str_of_nat (Z.to_nat d)) in *.
  clearbody sa sb sc sd.
  rewrite !(append_cons "." "" _), !append_nil.
  split.
  - unfold parse_address.
    rewrite !split_on_app, split_on_none by assumption.
    rewrite Pa, Pb, Pc, Pd. reflexivity.
  - repeat (rewrite no_char_app; cbn [no_char]).
    rewrite Sa, Sb, Sc, Sd. reflexivity.
Qed.

(** The parser reads a CIDR written as four octets and a prefix length
    as those numbers. *)
Lemma parse_interface_cidr_text a b c d p :
  0 <= a <= 255 → 0 <= b <= 255 → 0 <= c <= 255 → 0 <= d <= 255 →
  0 <= p <= 32 →
  parse_interface (cidr_text a b c d p)
  = Some {| ip := Z.shiftl a 24 + Z.shiftl b 16 + Z.shiftl c 8 + d;
            prefixlen := p |}.
Proof.
  intros Ha Hb Hc Hd Hp.
  destruct (parse_address_dotted a b c d Ha Hb Hc Hd) as [PA SA].
  destruct (prefix_ok_spec p Hp) as [PP SP].
  unfold cidr_text, parse_interface, make_netmask.
  rewrite !(append_cons "/" "" _), !append_nil.
  rewrite split_on_app, split_on_none by assumption.
  rewrite PA, PP. reflexivity.
Qed.

Lemma masks_ok : forallb mask_ok (seq 0 33) = true.
Proof. vm_compute. reflexivity. Qed.

(** The parser reads the mask of a CIDR also when it is written as a
    dotted netmask or as a dotted hostmask. *)
Lemma parse_interface_mask_text a b c d p :
  0 <= a <= 255 → 0 <= b <= 255 → 0 <= c <= 255 → 0 <= d <= 255 →
  0 <= p <= 32 →
  parse_interface (dotted a b c d +:+ "/" +:+ quad (netmask p))
  = Some {| ip := Z.shiftl a 24 + Z.shiftl b 16 + Z.shiftl c 8 + d;
            prefixlen := p |}
  ∧ (0 < p < 32 →
     parse_interface (dotted a b c d +:+ "/" +:+ quad (hostmask p))
     = Some {| ip := Z.shiftl a 24 + Z.shiftl b 16 + Z.shiftl c 8 + d;
               prefixlen := p |}).
Proof.
  intros Ha Hb Hc Hd Hp.
  destruct (parse_address_dotted a b c d Ha Hb Hc Hd) as [PA SA].
  assert (Hin : In (Z.to_nat p) (seq 0 33)) by (apply in_seq; lia).
  pose proof (proj1 (forallb_forall _ _) masks_ok _ Hin) as H.
  unfold mask_ok in H. rewrite Z2Nat.id in H by lia.
  apply andb_prop in H as [H S2]. apply andb_prop in H as [H S1].
  apply andb_prop in H as [N1 N2].
  apply bool_decide_eq_true in N1, N2.
  unfold parse_interface.
  rewrite !(append_cons "/" "" _), !append_nil.
  split.
  - rewrite split_on_app, split_on_none by assumption.
    rewrite PA, N1. reflexivity.
  - intros Hne. rewrite split_on_app, split_on_none by assumption.
    rewrite PA, N2.
    destruct (Nat.eqb_spec (Z.to_nat p) 0); [lia|].
    destruct (Nat.eqb_spec (Z.to_nat p) 32); [lia|reflexivity].
Qed.

(** [service_cidr] prefers the frozen value of the durable store. *)
Lemma service_cidr_frozen e w c :
  kv w !! service_cidr_key = Some c → c ≠ "" → service_cidr e w = Some c.
Proof.
  intros Hk Hc. unfold service_cidr. rewrite Hk.
  unfold Py.truthy. apply str_eqb_neq in Hc. by rewrite Hc.
Qed.

Lemma service_cidr_config e w :
  default "" (kv w !! service_cidr_key) = "" →
  service_cidr e w = config e !! "service-cidr".
Proof.
  intros Hk. unfold service_cidr.
  destruct (kv w !! service_cidr_key) as [f|]; [|done].
  simpl in Hk. subst f. reflexivity.
Qed.

(** C10, as amended.  For a service CIDR that [IPv4Interface] accepts,
    whatever the spelling of its mask, [get_kubernetes_service_ip]
    returns the dotted quad of the network address plus 1 and
    [get_deprecated_dns_ip] that of the network address plus 10, each
    when its sum is still an IPv4 address; a sum beyond 255.255.255.255
    makes the function raise.  The CIDR is the frozen one of the durable
    store when there is one that is not empty, the configured one
    otherwise. *)
Theorem service_addresses_of_cidr e w cidr i :
  (kv w !! service_cidr_key = Some cidr ∧ cidr ≠ "")
  ∨ (default "" (kv w !! service_cidr_key) = ""
     ∧ config e !! "service-cidr" = Some cidr) →
  parse_interface cidr = Some i →
  (network_address i + 1 <= ALL_ONES →
   get_kubernetes_service_ip e w = Ok (exploded (network_address i + 1)))
  ∧ (network_address i + 10 <= ALL_ONES →
     get_deprecated_dns_ip e w = Ok (exploded (network_address i + 10)))
  ∧ (ALL_ONES < network_address i + 1 →
     get_kubernetes_service_ip e w = Raise AddressValueError)
  ∧ (ALL_ONES < network_address i + 10 →
     get_deprecated_dns_ip e w = Raise AddressValueError).
Proof.
  intros Hsrc Hparse.
  assert (Hc : service_cidr e w = Some cidr).
  { destruct Hsrc as [[Hk Hne]|[Hk Hcfg]].
    - by apply service_cidr_frozen.
    - by rewrite service_cidr_config. }
  pose proof (network_address_nonneg i) as Hnn.
  unfold get_kubernetes_service_ip, get_deprecated_dns_ip, service_interface.
  rewrite Hc, Hparse. cbn [mbind result_bind rbind].
  repeat split; intros Hfit.
  - by rewrite add_in_range by lia.
  - by rewrite add_in_range by lia.
  - by rewrite add_overflow.
  - by rewrite add_overflow.
Qed.

End ServiceCidr.

Lemma service_addresses_of_cidr_witness :
  get_kubernetes_service_ip (env_cidr "10.1.0.0/16")
    (world_frozen "10.152.183.77/255.255.255.0") = Ok "10.152.183.1"
  ∧ get_deprecated_dns_ip (env_cidr "10.1.0.0/16")
      (world_frozen "10.152.183.77/255.255.255.0") = Ok "10.152.183.10".
Proof.
  destruct (service_addresses_of_cidr (env_cidr "10.1.0.0/16")
              (world_frozen "10.152.183.77/255.255.255.0")
              "10.152.183.77/255.255.255.0"
              {| ipaddress.ip := 177780557; ipaddress.prefixlen := 24 |})
    as (Hip & Hdns & _).
  - left. split; [reflexivity | discriminate].
  - vm_compute. reflexivity.
  - split; [apply Hip|apply Hdns]; vm_compute; discriminate.
Defined.

(** C10 as stated fails where the address arithmetic leaves the IPv4
    range: "255.255.255.248/29" is a CIDR that [IPv4Interface] accepts,
    its network address plus 1 is returned, and adding 10 to its network
    address raises. *)
Lemma service_addresses_overflow :
  ipaddress.parse_interface "255.255.255.248/29"
  = Some {| ipaddress.ip := 4294967288; ipaddress.prefixlen := 29 |}
  ∧ service_cidr (env_cidr "255.255.255.248/29") world0
    = Some "255.255.255.248/29"
  ∧ get_kubernetes_service_ip (env_cidr "255.255.255.248/29") world0
    = Ok "255.255.255.249"
  ∧ get_deprecated_dns_ip (env_cidr "255.255.255.248/29") world0
    = Raise AddressValueError.
Proof. repeat split; vm_compute; reflexivity. Qed.

(** ** The certificate request *)

Lemma sorted_set_perm sans : sorted_set sans ≡ₚ elements (list_to_set sans : gset string).
Proof. apply merge_sort_Permutation. Qed.

Lemma sorted_set_elem sans x : x ∈ sorted_set sans ↔ x ∈ sans.
Proof.
  rewrite (sorted_set_perm sans), elem_of_elements, elem_of_list_to_set.
  done.
Qed.

Lemma sorted_set_NoDup sans : NoDup (sorted_set sans).
Proof. rewrite (sorted_set_perm sans). apply NoDup_elements. Qed.

Lemma sorted_set_sorted sans : StronglySorted String.le (sorted_set sans).
Proof. apply StronglySorted_merge_sort; apply _. Qed.

(** Two collections with the same names give the same list, whatever the
    order and the repetitions. *)
Lemma sorted_set_same_names sans sans' :
  (∀ x, x ∈ sans' ↔ x ∈ sans) → sorted_set sans' = sorted_set sans.
Proof.
  intros H. unfold sorted_set. f_equal. f_equal.
  apply set_eq. intros x. rewrite !elem_of_list_to_set. apply H.
Qed.

Lemma collect_sans_frame e w l :
  collect_sans e (set_cert_requests l w) = collect_sans e w.
Proof. reflexivity. Qed.

Lemma send_data_run e w sans :
  collect_sans e w = Ok sans →
  send_data e w =
    (Ok tt,
     set_cert_requests
       (cert_requests w ++ [ServerCert (unit_public_ip e) (sorted_set sans)]
        ++ [ClientCert "system:kube-apiserver"]) w).
Proof.
  intros H. unfold send_data, bind. rewrite H.
  unfold request_server_cert, request_client_cert, modify.
  cbn. by rewrite <- app_assoc.
Qed.

(** C6.  The SAN list of the server-certificate request is the collected
    names as a set in ascending order: it has no repetition, it is
    sorted, it holds exactly the collected names, it depends on the names
    only and not on the order they were collected in, and a second
    request on unchanged input repeats the first one exactly. *)
Theorem send_data_request_canonical e w sans :
  collect_sans e w = Ok sans →
  ∃ w1 w2,
    let request := [ServerCert (unit_public_ip e) (sorted_set sans);
                    ClientCert "system:kube-apiserver"] in
    send_data e w = (Ok tt, w1)
    ∧ cert_requests w1 = cert_requests w ++ request
    ∧ send_data e w1 = (Ok tt, w2)
    ∧ cert_requests w2 = cert_requests w1 ++ request
    ∧ StronglySorted String.le (sorted_set sans)
    ∧ NoDup (sorted_set sans)
    ∧ (∀ x, x ∈ sorted_set sans ↔ x ∈ sans)
    ∧ (∀ sans', sans' ≡ₚ sans → sorted_set sans' = sorted_set sans)
    ∧ (∀ sans', (∀ x, x ∈ sans' ↔ x ∈ sans) →
         sorted_set sans' = sorted_set sans).
Proof.
  intros H.
  pose proof (send_data_run e w sans H) as R1.
  set (w1 := set_cert_requests _ w) in R1.
  assert (H1 : collect_sans e w1 = Ok sans)
    by (rewrite <- H; apply collect_sans_frame).
  pose proof (send_data_run e w1 sans H1) as R2.
  exists w1, (snd (send_data e w1)). cbn zeta.
  split; [exact R1|]. split; [reflexivity|].
  split; [by rewrite R2|]. split; [by rewrite R2|].
  split; [apply sorted_set_sorted|]. split; [apply sorted_set_NoDup|].
  split; [apply sorted_set_elem|].
  split.
  - intros sans' Hp. apply sorted_set_same_names. intros x. by rewrite Hp.
  - apply sorted_set_same_names.
Qed.

Lemma send_data_request_canonical_witness :
  ∃ w1,
    send_data env_sans world0 = (Ok tt, w1)
    ∧ cert_requests w1 =
        [ServerCert "192.0.2.10"
           ["10.0.0.10"; "10.0.0.11"; "10.152.183.1"; "192.0.2.10"; "h3"; "h4";
            "kubernetes"; "kubernetes.cluster.local"; "kubernetes.default";
            "kubernetes.default.svc"; "kubernetes.default.svc.cluster.local";
            "master-0"; "master-0.example"];
         ClientCert "system:kube-apiserver"].
Proof.
  destruct (send_data_request_canonical env_sans world0
              ["192.0.2.10"; "10.0.0.10"; "master-0"; "master-0.example";
               "10.152.183.1"; "kubernetes"; "kubernetes.cluster.local";
               "kubernetes.default"; "kubernetes.default.svc";
               "kubernetes.default.svc.cluster.local";
               "10.0.0.10"; "10.0.0.11"; "h4"; "h3"; "h4"]
              eq_refl) as (w1 & w2 & R1 & L1 & _).
  exists w1. split; [exact R1|]. rewrite L1. vm_compute. reflexivity.
Defined.

(** The scenario of the specification: names h1, h2 and the extra names
    "h3 h4" give h1, h2, h3, h4, whatever the order of collection. *)
Example sorted_set_scenario :
  sorted_set (["h2"; "h1"] ++ Py.split_ws "h3 h4") = ["h1"; "h2"; "h3"; "h4"]
  ∧ sorted_set (Py.split_ws "h4 h3 h3" ++ ["h1"; "h2"; "h1"])
    = ["h1"; "h2"; "h3"; "h4"].
Proof. split; vm_compute; reflexivity. Qed.

(** ** The basic-auth table *)

Lemma index_Some {A} (l : list A) i x : l !! i = Some x → index l i = Ok x.
Proof. unfold index. by intros ->. Qed.

Lemma index_None {A} (l : list A) i :
  l !! i = None → index l i = Raise IndexError.
Proof. unfold index. by intros ->. Qed.

Lemma row_matches_hit row username uid :
  row_hit row username uid → row_matches row username uid = Ok true.
Proof.
  unfold row_hit, row_matches. intros [H1|H2].
  - rewrite (index_Some _ _ _ H1). cbn. by rewrite str_eqb_refl.
  - destruct (row !! 1%nat) as [r1|] eqn:E1.
    + rewrite (index_Some _ _ _ E1). cbn.
      destruct (Py.str_eqb r1 username); [done|].
      rewrite (index_Some _ _ _ H2). cbn. by rewrite str_eqb_refl.
    + apply lookup_ge_None in E1. apply lookup_lt_Some in H2. lia.
Qed.

Lemma row_matches_miss row username uid :
  (3 <= length row)%nat → ¬ row_hit row username uid →
  row_matches row username uid = Ok false.
Proof.
  unfold row_hit, row_matches. intros Hlen Hno.
  destruct (row !! 1%nat) as [r1|] eqn:E1;
    [|apply lookup_ge_None in E1; lia].
  destruct (row !! 2%nat) as [r2|] eqn:E2;
    [|apply lookup_ge_None in E2; lia].
  rewrite (index_Some _ _ _ E1). cbn.
  destruct (Py.str_eqb r1 username) eqn:Hu.
  { apply str_eqb_eq in Hu as ->. tauto. }
  rewrite (index_Some _ _ _ E2). cbn.
  destruct (Py.str_eqb r2 uid) eqn:Hi; [|done].
  apply str_eqb_eq in Hi as ->. tauto.
Qed.

Lemma update_rows_replace pre row post username uid new_row :
  Forall (fun r => (3 <= length r)%nat ∧ ¬ row_hit r username uid) pre →
  row_hit row username uid →
  update_rows (pre ++ row :: post) username uid new_row
  = Ok (pre ++ new_row :: post).
Proof.
  intros Hpre Hrow. induction Hpre as [|r pre [Hlen Hno] _ IH].
  - cbn. by rewrite (row_matches_hit _ _ _ Hrow).
  - cbn. rewrite (row_matches_miss _ _ _ Hlen Hno). cbn.
    by rewrite IH.
Qed.

Lemma update_rows_append rows username uid new_row :
  Forall (fun r => (3 <= length r)%nat ∧ ¬ row_hit r username uid) rows →
  update_rows rows username uid new_row = Ok (rows ++ [new_row]).
Proof.
  intros Hrows. induction Hrows as [|r rows [Hlen Hno] _ IH]; [done|].
  cbn. rewrite (row_matches_miss _ _ _ Hlen Hno). cbn. by rewrite IH.
Qed.

Arguments draw : simpl never.

Lemma draw_length e pos n : String.length (draw e pos n) = n.
Proof.
  revert pos. induction n as [|n IH]; intros pos; [done|].
  unfold draw; fold draw. cbn [String.length]. by rewrite IH.
Qed.

Lemma chosen_password_given e w p :
  p ≠ "" → chosen_password e w (Some p) = p.
Proof.
  intros Hp. unfold chosen_password, Py.truthy_opt, Py.truthy.
  apply str_eqb_neq in Hp. by rewrite Hp.
Qed.

Lemma chosen_password_fresh e w password :
  password = None ∨ password = Some "" →
  chosen_password e w password = draw e (rng_pos w) 32
  ∧ String.length (chosen_password e w password) = 32%nat.
Proof.
  intros [->| ->];
    (split; [reflexivity | exact (draw_length e (rng_pos w) 32)]).
Qed.

Section BasicAuth.

Variable csv_reader : list string → list (list string).
Variable csv_writerows : list (list string) → string.

Lemma setup_basic_auth_run e w password username uid groups rows' :
  update_rows (existing_rows csv_reader w) username uid
    (make_row (chosen_password e w password) username uid groups) = Ok rows' →
  ∃ w', setup_basic_auth csv_reader csv_writerows e password username uid
          groups w = (Ok tt, w')
        ∧ files w' = <[basic_auth := csv_writerows rows']> (files w)
        ∧ flags w' = flags w ∧ leader_data w' = leader_data w
        ∧ leader_log w' = leader_log w.
Proof.
  unfold existing_rows, chosen_password, setup_basic_auth, bind,
    token_generator, read_rows, lift, write_text, modify, ret.
  intros Hup.
  destruct password as [p|]; cbn [Py.truthy_opt default from_option id] in *;
    [destruct (Py.truthy p)|];
    cbv beta iota zeta; cbn [files set_rng_pos];
    destruct (files w !! basic_auth) eqn:Hf;
    cbv beta iota zeta; rewrite Hup; eexists; repeat split; reflexivity.
Qed.

(** C8, as amended.  On a table whose rows before the first matching
    one (all rows when none matches) have at least three fields,
    [setup_basic_auth] replaces in place exactly the first row whose
    second field is the user name or whose third field is the uid by the
    row (password, username, uid, groups when given), keeps every other
    row and the order, and appends the new row when no row matches; an
    empty or missing password is replaced by a fresh token of 32
    characters. *)
Theorem setup_basic_auth_table e w password username uid groups :
  let rows := existing_rows csv_reader w in
  let new_row := make_row (chosen_password e w password) username uid groups in
  let run := setup_basic_auth csv_reader csv_writerows e password username
               uid groups w in
  let miss := fun r => (3 <= length r)%nat ∧ ¬ row_hit r username uid in
  (∀ pre row post,
     rows = pre ++ row :: post → Forall miss pre → row_hit row username uid →
     fst run = Ok tt
     ∧ files (snd run)
       = <[basic_auth := csv_writerows (pre ++ new_row :: post)]> (files w))
  ∧ (Forall miss rows →
     fst run = Ok tt
     ∧ files (snd run)
       = <[basic_auth := csv_writerows (rows ++ [new_row])]> (files w))
  ∧ (∀ p, password = Some p → p ≠ "" → chosen_password e w password = p)
  ∧ (password = None ∨ password = Some "" →
     chosen_password e w password = draw e (rng_pos w) 32
     ∧ String.length (chosen_password e w password) = 32%nat).
Proof.
  cbn zeta. repeat split.
  - pose proof (update_rows_replace pre row post username uid
      (make_row (chosen_password e w password) username uid groups) H0 H1)
      as Hup.
    rewrite <- H in Hup.
    destruct (setup_basic_auth_run e w password username uid groups _ Hup)
      as (w' & -> & _). done.
  - pose proof (update_rows_replace pre row post username uid
      (make_row (chosen_password e w password) username uid groups) H0 H1)
      as Hup.
    rewrite <- H in Hup.
    destruct (setup_basic_auth_run e w password username uid groups _ Hup)
      as (w' & -> & Hf & _). done.
  - pose proof (update_rows_append (existing_rows csv_reader w) username uid
      (make_row (chosen_password e w password) username uid groups) H) as Hup.
    destruct (setup_basic_auth_run e w password username uid groups _ Hup)
      as (w' & -> & _). done.
  - pose proof (update_rows_append (existing_rows csv_reader w) username uid
      (make_row (chosen_password e w password) username uid groups) H) as Hup.
    destruct (setup_basic_auth_run e w password username uid groups _ Hup)
      as (w' & -> & Hf & _). done.
  - intros p -> Hp. by apply chosen_password_given.
  - by apply chosen_password_fresh.
  - by apply chosen_password_fresh.
Qed.

End BasicAuth.

Lemma setup_basic_auth_table_witness :
  files (snd (setup_basic_auth plain_csv_reader plain_csv_writerows env0
                (Some "s3cret") "admin" "admin" (Some "system:masters")
                world_basic_auth)) !! basic_auth
  = Some (plain_csv_writerows
            [["pw"; "bob"; "bob"];
             ["s3cret"; "admin"; "admin"; "system:masters"];
             ["pw2"; "eve"; "eve"]]).
Proof.
  pose proof (setup_basic_auth_table plain_csv_reader plain_csv_writerows
                env0 world_basic_auth (Some "s3cret") "admin" "admin"
                (Some "system:masters")) as (Hreplace & _).
  cbn zeta in Hreplace.
  destruct (Hreplace [["pw"; "bob"; "bob"]] ["old"; "admin"; "admin"]
              [["pw2"; "eve"; "eve"]]) as [_ Hfiles].
  - vm_compute. reflexivity.
  - repeat constructor; cbn; try lia.
    intros [H|H]; vm_compute in H; discriminate.
  - left. vm_compute. reflexivity.
  - rewrite Hfiles. rewrite lookup_insert_eq. reflexivity.
Defined.

(** C8 as stated fails on a table with a row of fewer than three fields
    ahead of any match, such as the empty row that [csv.reader] yields for
    a blank line: no row matches, and instead of appending the new row
    the comparison of the missing field raises. *)
Lemma setup_basic_auth_short_row :
  existing_rows plain_csv_reader world_blank_row = [["pw"; "bob"; "bob"]; []]
  ∧ ¬ row_hit ["pw"; "bob"; "bob"] "admin" "admin"
  ∧ ¬ row_hit [] "admin" "admin"
  ∧ fst (setup_basic_auth plain_csv_reader plain_csv_writerows env0
           (Some "s3cret") "admin" "admin" (Some "system:masters")
           world_blank_row) = Raise IndexError.
Proof.
  split; [vm_compute; reflexivity|].
  split; [intros [H|H]; vm_compute in H; discriminate|].
  split; [intros [H|H]; vm_compute in H; discriminate|].
  vm_compute. reflexivity.
Qed.

(** ** The known-tokens table *)

Lemma rewrite_token_line_short line :
  ¬ token_row line → rewrite_token_line line = Raise IndexError.
Proof.
  unfold token_row, token_record, rewrite_token_line. intros Hlen.
  rewrite (index_None _ 2%nat); [reflexivity|]. apply lookup_ge_None. lia.
Qed.

(** On a line with three fields or more the loop writes what the
    specification says. *)
Lemma rewrite_token_line_row line :
  token_row line →
  ∃ o, rewrite_token_line line = Ok o
       ∧ default "" o = expected_token_line line.
Proof.
  unfold token_row, token_record, rewrite_token_line, expected_token_line.
  intros Hlen.
  pose proof (join_split_on "," (Py.strip line)) as Hjoin.
  destruct (Py.split_on "," (Py.strip line)) as [|r0 [|r1 [|r2 rest]]];
    cbn [length] in Hlen; try lia.
  cbn [index lookup list_lookup mbind result_bind rbind default from_option id].
  destruct (Py.str_eqb r2 "admin") eqn:Hadmin.
  - apply str_eqb_eq in Hadmin as ->.
    destruct rest as [|r3 rest].
    + rewrite bool_decide_eq_true_2 by done.
      rewrite (bool_decide_eq_true_2 (_ ∧ _)) by done.
      cbn [andb]. eexists; split; [reflexivity|].
      cbn [default from_option id]. rewrite <- Hjoin. cbn [Py.join].
      by rewrite !append_assoc.
    + rewrite bool_decide_eq_false_2 by (cbn; lia).
      rewrite (bool_decide_eq_false_2 (_ ∧ _)) by (cbn; intros [_ ?]; lia).
      cbn [andb]. cbn.
      eexists; split; reflexivity.
  - cbn [andb]. apply str_eqb_neq in Hadmin.
    rewrite (bool_decide_eq_false_2 (_ ∧ _)) by (intros [? _]; congruence).
    destruct (Py.str_eqb r2 "kube_proxy") eqn:Hproxy.
    + apply str_eqb_eq in Hproxy as ->.
      rewrite bool_decide_eq_true_2 by done.
      eexists; split; reflexivity.
    + apply str_eqb_neq in Hproxy.
      rewrite bool_decide_eq_false_2 by congruence.
      destruct (Py.str_eqb r2 "kubelet") eqn:Hk.
      * apply str_eqb_eq in Hk as ->.
        destruct (Py.str_eqb r1 "kubelet") eqn:Hk1.
        -- apply str_eqb_eq in Hk1 as ->.
           rewrite bool_decide_eq_true_2 by done.
           eexists; split; reflexivity.
        -- apply str_eqb_neq in Hk1.
           rewrite bool_decide_eq_false_2 by (intros [_ ?]; congruence).
           eexists; split; reflexivity.
      * apply str_eqb_neq in Hk.
        rewrite bool_decide_eq_false_2 by (intros [? _]; congruence).
        eexists; split; reflexivity.
Qed.

Lemma append_text_run p t w acc :
  files w !! p = Some acc →
  append_text p t w
  = (Ok tt, set_files (<[p := acc +:+ t]> (files w)) w).
Proof. intros H. unfold append_text, modify. by rewrite H. Qed.

(** The loop on rows: everything is written. *)
Lemma rewrite_token_lines_rows lines w acc :
  files w !! known_tokens = Some acc →
  Forall token_row lines →
  fst (rewrite_token_lines lines w) = Ok tt
  ∧ files (snd (rewrite_token_lines lines w))
    = <[known_tokens := acc +:+ concat_text (map expected_token_line lines)]>
        (files w).
Proof.
  intros Hacc Hrows. revert w acc Hacc.
  induction Hrows as [|line lines Hrow _ IH]; intros w acc Hacc.
  - cbn. rewrite append_nil_r. split; [done|]. by rewrite insert_id.
  - destruct (rewrite_token_line_row line Hrow) as (o & Ho & Hexp).
    cbn [rewrite_token_lines map concat_text]. unfold bind, lift.
    rewrite Ho. rewrite <- Hexp.
    destruct o as [t|]; cbn [default from_option id].
    + rewrite (append_text_run _ _ _ _ Hacc).
      set (w1 := set_files _ w).
      assert (H1 : files w1 !! known_tokens = Some (acc +:+ t))
        by apply lookup_insert_eq.
      destruct (IH w1 _ H1) as [Hr Hf].
      destruct (rewrite_token_lines lines w1) as [r w2]; cbn in *.
      split; [done|]. rewrite Hf.
      unfold w1. cbn [files set_files].
      by rewrite insert_insert_eq, append_assoc.
    + unfold ret. rewrite append_nil. by apply IH.
Qed.

(** The loop up to a line that is no row: what came before is written,
    then the lookup of the third field raises. *)
Lemma rewrite_token_lines_short pre line post w acc :
  files w !! known_tokens = Some acc →
  Forall token_row pre → ¬ token_row line →
  fst (rewrite_token_lines (pre ++ line :: post) w) = Raise IndexError
  ∧ files (snd (rewrite_token_lines (pre ++ line :: post) w))
    = <[known_tokens := acc +:+ concat_text (map expected_token_line pre)]>
        (files w).
Proof.
  intros Hacc Hrows Hshort. revert w acc Hacc.
  induction Hrows as [|l pre Hrow _ IH]; intros w acc Hacc.
  - cbn [app rewrite_token_lines map concat_text]. unfold bind, lift.
    rewrite (rewrite_token_line_short _ Hshort). cbn.
    rewrite append_nil_r. split; [done|]. by rewrite insert_id.
  - destruct (rewrite_token_line_row l Hrow) as (o & Ho & Hexp).
    cbn [app rewrite_token_lines map concat_text]. unfold bind, lift.
    rewrite Ho. rewrite <- Hexp.
    destruct o as [t|]; cbn [default from_option id].
    + rewrite (append_text_run _ _ _ _ Hacc).
      set (w1 := set_files _ w).
      assert (H1 : files w1 !! known_tokens = Some (acc +:+ t))
        by apply lookup_insert_eq.
      destruct (IH w1 _ H1) as [Hr Hf].
      destruct (rewrite_token_lines (pre ++ line :: post) w1) as [r w2];
        cbn in *.
      split; [done|]. rewrite Hf.
      unfold w1. cbn [files set_files].
      by rewrite insert_insert_eq, append_assoc.
    + unfold ret. rewrite append_nil. by apply IH.
Qed.

Lemma add_rbac_roles_unfold w c :
  files w !! known_tokens = Some c →
  add_rbac_roles w
  = rewrite_token_lines (Py.readlines (Py.universal_newlines c))
      (set_files (<[known_tokens := ""]>
                    (<[known_tokens_backup := c]>
                       (delete known_tokens (files w)))) w).
Proof.
  intros Hc. unfold add_rbac_roles, bind, move, write_text, modify, read_text.
  rewrite Hc. cbn [files set_files].
  rewrite lookup_insert_ne by done. rewrite lookup_insert_eq. reflexivity.
Qed.

(** On a table of rows only, [add_rbac_roles] does what C9 says: the
    new file is the concatenation of what the specification expects for
    each line, and the old file is kept as the backup. *)
Lemma add_rbac_roles_rows w c :
  files w !! known_tokens = Some c →
  Forall token_row (token_lines w) →
  fst (add_rbac_roles w) = Ok tt
  ∧ files (snd (add_rbac_roles w))
    = <[known_tokens := concat_text (map expected_token_line (token_lines w))]>
        (<[known_tokens_backup := c]> (delete known_tokens (files w))).
Proof.
  intros Hc. unfold token_lines. rewrite Hc. intros Hrows.
  rewrite (add_rbac_roles_unfold w c Hc).
  set (w1 := set_files _ w).
  assert (H1 : files w1 !! known_tokens = Some "") by apply lookup_insert_eq.
  destruct (rewrite_token_lines_rows _ w1 "" H1 Hrows) as [Hr Hf].
  split; [done|]. rewrite Hf, append_nil. unfold w1. cbn [files set_files].
  by rewrite insert_insert_eq.
Qed.

(** C9, the defect.  When the table has a line with fewer than three
    comma-separated fields (a blank line is one), [add_rbac_roles] does
    not copy the line: after writing what precedes it, the lookup of the
    third field raises [IndexError], and the known-tokens file is left
    with the lines before that one only. *)
Theorem add_rbac_roles_short_line w c pre line post :
  files w !! known_tokens = Some c →
  token_lines w = pre ++ line :: post →
  Forall token_row pre → ¬ token_row line →
  fst (add_rbac_roles w) = Raise IndexError
  ∧ files (snd (add_rbac_roles w)) !! known_tokens
    = Some (concat_text (map expected_token_line pre)).
Proof.
  intros Hc. unfold token_lines. rewrite Hc. intros Hlines Hrows Hshort.
  rewrite (add_rbac_roles_unfold w c Hc). rewrite Hlines.
  set (w1 := set_files _ w).
  assert (H1 : files w1 !! known_tokens = Some "") by apply lookup_insert_eq.
  destruct (rewrite_token_lines_short pre line post w1 "" H1 Hrows Hshort)
    as [Hr Hf].
  split; [done|]. rewrite Hf, append_nil. apply lookup_insert_eq.
Qed.

(** ** Computations *)

Lemma bind_Ok {A B} (m : M A) (k : A → M B) w a w1 :
  m w = (Ok a, w1) → bind m k w = k a w1.
Proof. unfold bind. by intros ->. Qed.

Lemma bind_Raise {A B} (m : M A) (k : A → M B) w x w1 :
  m w = (Raise x, w1) → bind m k w = (Raise x, w1).
Proof. unfold bind. by intros ->. Qed.

Lemma bind_inv {A B} (m : M A) (k : A → M B) w b w' :
  bind m k w = (Ok b, w') →
  ∃ a w1, m w = (Ok a, w1) ∧ k a w1 = (Ok b, w').
Proof.
  unfold bind. destruct (m w) as [[a|x] w1]; [eauto|discriminate].
Qed.

Lemma world_eta w : set_files (files w) w = w.
Proof. by destruct w. Qed.

Lemma preserves_ret {A B} (proj : World → B) (a : A) : preserves proj (ret a).
Proof. by intros w. Qed.

Lemma preserves_raise {A B} (proj : World → B) x :
  preserves proj (raise (A:=A) x).
Proof. by intros w. Qed.

Lemma preserves_lift {A B} (proj : World → B) (r : result A) :
  preserves proj (lift r).
Proof. by intros w. Qed.

Lemma preserves_gets {A B} (proj : World → B) (f : World → A) :
  preserves proj (gets f).
Proof. by intros w. Qed.

Lemma preserves_bind {A B C} (proj : World → C) (m : M A) (k : A → M B) :
  preserves proj m → (∀ a, preserves proj (k a)) → preserves proj (bind m k).
Proof.
  intros Hm Hk w. unfold bind. specialize (Hm w).
  destruct (m w) as [[a|x] w1]; cbn in *; [|done].
  by rewrite Hk.
Qed.

Lemma preserves_if {A B} (proj : World → B) (b : bool) (m1 m2 : M A) :
  preserves proj m1 → preserves proj m2 →
  preserves proj (if b then m1 else m2).
Proof. by destruct b. Qed.

Lemma preserves_modify {B} (proj : World → B) (f : World → World) :
  (∀ w, proj (f w) = proj w) → preserves proj (modify f).
Proof. intros H w. apply H. Qed.

Create HintDb frame.
#[export] Hint Resolve preserves_ret preserves_raise preserves_lift
  preserves_gets preserves_bind preserves_if : frame.

Lemma preserves_is_state {B} (proj : World → B) f : preserves proj (is_state f).
Proof. apply preserves_gets. Qed.

Lemma preserves_path_exists {B} (proj : World → B) p :
  preserves proj (path_exists p).
Proof. apply preserves_gets. Qed.

Lemma preserves_leader_get {B} (proj : World → B) k :
  preserves proj (leader_get k).
Proof. apply preserves_gets. Qed.

Lemma preserves_read_text {B} (proj : World → B) p :
  preserves proj (read_text p).
Proof. intros w. unfold read_text. by destruct (files w !! p). Qed.

#[export] Hint Resolve preserves_is_state preserves_path_exists
  preserves_leader_get preserves_read_text : frame.

(** Writing files, setting flags, reporting a status and drawing a token
    publish nothing. *)
Lemma published_write_text p c : preserves published (write_text p c).
Proof. by intros w. Qed.

Lemma published_set_state f : preserves published (set_state f).
Proof. by intros w. Qed.

Lemma published_remove_state f : preserves published (remove_state f).
Proof. by intros w. Qed.

Lemma published_status_set s m : preserves published (status_set s m).
Proof. by intros w. Qed.

Lemma published_token_generator e n :
  preserves published (token_generator e n).
Proof. by intros w. Qed.

#[export] Hint Resolve published_write_text published_set_state
  published_remove_state published_status_set published_token_generator
  : frame.

Lemma published_touch f : preserves published (touch f).
Proof. unfold touch. auto with frame. Qed.

Lemma published_get_password f u : preserves published (get_password f u).
Proof. unfold get_password. auto 10 with frame. Qed.

#[export] Hint Resolve published_touch published_get_password : frame.

(** ** Fetching the keys *)

Lemma get_keys_overwrite ks w :
  get_keys_from_leader ks true w
  = (Ok (forallb (fun k => bool_decide (is_Some (leader_data w !! k))) ks),
     set_files (adopt ks (leader_data w) (files w)) w).
Proof.
  revert w. induction ks as [|k ks IH]; intros w.
  - cbn. by rewrite world_eta.
  - cbn [get_keys_from_leader adopt forallb].
    unfold bind at 1. unfold path_exists, gets. rewrite orb_true_r.
    unfold bind at 1. unfold leader_get, gets.
    destruct (leader_data w !! k) as [c|] eqn:Hk.
    + rewrite bool_decide_eq_true_2 by eauto. cbn [andb].
      unfold bind, write_text, modify. rewrite IH. reflexivity.
    + rewrite bool_decide_eq_false_2 by (by intros [? ?]). cbn [andb].
      unfold ret. by rewrite world_eta.
Qed.

Lemma get_keys_complete ks w :
  get_keys_from_leader ks false w
  = (Ok (completes ks (leader_data w) (files w)),
     set_files (complete ks (leader_data w) (files w)) w).
Proof.
  revert w. induction ks as [|k ks IH]; intros w.
  - cbn. by rewrite world_eta.
  - cbn [get_keys_from_leader complete completes].
    unfold bind at 1. unfold path_exists, gets. rewrite orb_false_r.
    destruct (files w !! k) as [c0|] eqn:Hf.
    + rewrite bool_decide_eq_true_2 by eauto. cbn [negb]. apply IH.
    + rewrite bool_decide_eq_false_2 by (by intros [? ?]). cbn [negb].
      unfold bind at 1. unfold leader_get, gets.
      destruct (leader_data w !! k) as [c|] eqn:Hk.
      * unfold bind, write_text, modify. rewrite IH. reflexivity.
      * unfold ret. by rewrite world_eta.
Qed.

(** A file that exists is never overwritten by [complete]. *)
Lemma complete_keeps ks d fs k c :
  fs !! k = Some c → complete ks d fs !! k = Some c.
Proof.
  revert fs. induction ks as [|k0 ks IH]; intros fs Hk; [done|].
  cbn. destruct (fs !! k0) eqn:H0; [by apply IH|].
  destruct (d !! k0); [|done].
  apply IH. rewrite lookup_insert_ne; [done|]. congruence.
Qed.

Lemma completes_files ks d fs :
  completes ks d fs = true →
  ∀ k, k ∈ ks → is_Some (complete ks d fs !! k).
Proof.
  revert fs. induction ks as [|k0 ks IH]; intros fs Hc k Hin.
  { by apply elem_of_nil in Hin. }
  cbn in *. apply elem_of_cons in Hin as [->|Hin].
  - destruct (fs !! k0) as [c0|] eqn:H0.
    + rewrite (complete_keeps _ _ _ _ _ H0). eauto.
    + destruct (d !! k0) as [c|]; [|done].
      erewrite complete_keeps; [eauto|]. apply lookup_insert_eq.
  - destruct (fs !! k0); [by apply IH|].
    destruct (d !! k0); [by apply IH|done].
Qed.

(** When every key has a file or a broadcast value, [complete] keeps
    the files there are and adopts the broadcast value for the others. *)
Lemma complete_all ks d fs :
  (∀ k, k ∈ ks → is_Some (fs !! k) ∨ is_Some (d !! k)) →
  completes ks d fs = true
  ∧ ∀ k, k ∈ ks →
      complete ks d fs !! k =
        match fs !! k with
        | Some c => Some c
        | None => (fun c => c +:+ String Py.LF "") <$> d !! k
        end.
Proof.
  revert fs. induction ks as [|k0 ks IH]; intros fs Hall.
  { split; [done|]. intros k Hin. by apply elem_of_nil in Hin. }
  cbn [completes complete].
  destruct (fs !! k0) as [c0|] eqn:H0.
  - destruct (IH fs) as [Hc Hl].
    { intros k Hin. apply Hall. by right. }
    split; [done|]. intros k Hin. apply elem_of_cons in Hin as [->|Hin].
    + rewrite H0. by apply complete_keeps.
    + by apply Hl.
  - destruct (Hall k0) as [[? Hx]|[c Hd]]; [by left|congruence|].
    rewrite Hd.
    destruct (IH (<[k0 := c +:+ String Py.LF ""]> fs)) as [Hc Hl].
    { intros k Hin. destruct (decide (k = k0)) as [->|Hne].
      - left. rewrite lookup_insert_eq. eauto.
      - rewrite lookup_insert_ne by done. apply Hall. by right. }
    split; [done|]. intros k Hin.
    destruct (decide (k = k0)) as [->|Hne].
    + rewrite H0, Hd. cbn. apply complete_keeps, lookup_insert_eq.
    + apply elem_of_cons in Hin as [?|Hin]; [done|].
      rewrite (Hl k Hin). by rewrite lookup_insert_ne.
Qed.

Lemma completes_false ks d fs :
  completes ks d fs = false → ∃ k, k ∈ ks ∧ d !! k = None.
Proof.
  revert fs. induction ks as [|k0 ks IH]; intros fs Hc; [done|].
  cbn in Hc. destruct (fs !! k0).
  - destruct (IH _ Hc) as (k & Hin & Hk). exists k. split; [by right|done].
  - destruct (d !! k0) eqn:Hd.
    + destruct (IH _ Hc) as (k & Hin & Hk). exists k. split; [by right|done].
    + exists k0. split; [by left|done].
Qed.

(** ** The leader's broadcast *)

Lemma broadcast_secrets_run w tokens auth key :
  files w !! known_tokens = Some tokens →
  files w !! basic_auth = Some auth →
  files w !! service_key = Some key →
  broadcast_secrets w
  = (Ok tt,
     let w1 := snd (leader_set (leader_dict tokens auth key) w) in
     set_flags ({[auth_flag]} ∪ (flags w1 ∖ {[started_flag]})) w1).
Proof.
  intros Ht Ha Hk.
  unfold broadcast_secrets, read_leader_data, bind, read_text.
  rewrite Ht, Ha, Hk. reflexivity.
Qed.

Lemma broadcast_secrets_missing w :
  files w !! known_tokens = None ∨ files w !! basic_auth = None
  ∨ files w !! service_key = None →
  broadcast_secrets w = (Raise FileNotFoundError, w).
Proof.
  intros H.
  unfold broadcast_secrets, read_leader_data, bind, read_text.
  destruct (files w !! known_tokens); [|done].
  destruct (files w !! basic_auth); [|done].
  destruct (files w !! service_key); [|done].
  destruct H as [?|[?|?]]; done.
Qed.

Lemma leader_dict_lookup tokens auth key :
  leader_dict tokens auth key !! service_key
    = Some (Py.universal_newlines key)
  ∧ leader_dict tokens auth key !! basic_auth
    = Some (Py.universal_newlines auth)
  ∧ leader_dict tokens auth key !! known_tokens
    = Some (Py.universal_newlines tokens).
Proof. unfold leader_dict. by simplify_map_eq. Qed.

Lemma leader_dict_dom tokens auth key :
  dom (leader_dict tokens auth key)
  = ({[service_key; basic_auth; known_tokens]} : gset string).
Proof.
  unfold leader_dict. rewrite !dom_insert_L, dom_empty_L. set_solver.
Qed.

Section Leader.

Variable csv_reader : list string → list (list string).
Variable csv_writerows : list (list string) → string.

Lemma published_read_rows : preserves published (read_rows csv_reader).
Proof. intros w. unfold read_rows. by destruct (files w !! basic_auth). Qed.

Lemma published_setup_basic_auth e p u i g :
  preserves published (setup_basic_auth csv_reader csv_writerows e p u i g).
Proof.
  unfold setup_basic_auth.
  apply preserves_bind; [|intros pw; apply preserves_bind;
    [apply published_read_rows|auto with frame]].
  destruct p as [p|]; [destruct (Py.truthy p)|]; auto with frame.
Qed.

Lemma published_generate e :
  preserves published
    (generate_missing_secrets csv_reader csv_writerows e).
Proof.
  unfold generate_missing_secrets.
  apply preserves_bind; [auto with frame|intros last_pass].
  apply preserves_bind; [apply published_setup_basic_auth|intros _].
  apply preserves_bind; [auto 8 with frame|intros _].
  apply preserves_bind; [auto 8 with frame|intros _].
  auto with frame.
Qed.

Lemma setup_basic_auth_writes e p u i g w w' :
  setup_basic_auth csv_reader csv_writerows e p u i g w = (Ok tt, w') →
  ∃ c, files w' = <[basic_auth := c]> (files w).
Proof.
  unfold setup_basic_auth. intros H.
  apply bind_inv in H as (pw & w1 & H1 & H).
  apply bind_inv in H as (rows & w2 & H2 & H).
  apply bind_inv in H as (rows' & w3 & H3 & H).
  unfold write_text, modify in H. injection H as <-.
  assert (files w1 = files w) as E1.
  { destruct p as [p|]; [destruct (Py.truthy p)|];
      unfold ret, token_generator in H1; cbv beta in H1;
      by injection H1 as _ <-. }
  assert (w2 = w1) as ->.
  { unfold read_rows in H2. destruct (files w1 !! basic_auth);
      cbv beta in H2; by injection H2 as _ <-. }
  assert (w3 = w1) as ->.
  { unfold lift in H3. cbv beta in H3. by injection H3 as _ <-. }
  eexists. cbn [files set_files]. by rewrite E1.
Qed.

Lemma get_password_world f u w r w' :
  get_password f u w = (r, w') → w' = w.
Proof.
  intros H. pose proof (published_get_password f u) as _.
  revert H. unfold get_password, bind, path_exists, gets, read_text, lift, ret.
  destruct (files w !! (root_cdk +:+ "/" +:+ f)) eqn:E.
  - rewrite bool_decide_eq_true_2 by eauto. cbn [negb]. rewrite E.
    by intros [= _ <-].
  - rewrite bool_decide_eq_false_2 by (by intros [? ?]). cbn [negb].
    by intros [= _ <-].
Qed.

(** After the generating branch has run through, the three files are
    there. *)
Lemma generate_files e w w' :
  generate_missing_secrets csv_reader csv_writerows e w = (Ok tt, w') →
  is_Some (files w' !! known_tokens)
  ∧ is_Some (files w' !! basic_auth)
  ∧ is_Some (files w' !! service_key).
Proof.
  unfold generate_missing_secrets. intros H.
  apply bind_inv in H as (last_pass & w1 & H1 & H).
  apply get_password_world in H1 as ->.
  apply bind_inv in H as ([] & w2 & H2 & H).
  apply setup_basic_auth_writes in H2 as (c & E2).
  apply bind_inv in H as ([] & w3 & H3 & H).
  apply bind_inv in H as ([] & w4 & H4 & H).
  unfold remove_state, modify in H. injection H as <-. cbn [files set_flags].
  assert (is_Some (files w2 !! basic_auth)) as Hb2.
  { rewrite E2, lookup_insert_eq. eauto. }
  assert (is_Some (files w3 !! known_tokens)
          ∧ is_Some (files w3 !! basic_auth)) as [Ht3 Hb3].
  { revert H3. unfold bind, path_exists, gets, touch, ret, write_text, modify.
    destruct (files w2 !! known_tokens) eqn:E; cbn.
    - intros [= <-]. rewrite E. eauto.
    - rewrite E. cbn. intros [= <-]. cbn [files set_files].
      rewrite lookup_insert_eq, lookup_insert_ne by done. eauto. }
  revert H4. unfold bind, path_exists, gets, ret, write_text, modify, lift.
  destruct (files w3 !! service_key) eqn:E; cbn.
  - intros [= <-]. rewrite E. eauto.
  - destruct (genrsa e); [|done]. intros [= <-]. cbn [files set_files].
    rewrite lookup_insert_eq, !lookup_insert_ne by done. eauto.
Qed.

Lemma setup_leader_authentication_unfold e w :
  setup_leader_authentication csv_reader csv_writerows e w
  = let w1 :=
      set_files (complete keys (leader_data w) (files w))
        (set_status_log
           (status_log w
            ++ [("maintenance", "Rendering authentication templates.")]) w) in
    if negb (completes keys (leader_data w) (files w))
       || bool_decide (reconfigure_flag ∈ flags w)
    then bind (generate_missing_secrets csv_reader csv_writerows e)
           (fun _ => broadcast_secrets) w1
    else broadcast_secrets w1.
Proof.
  unfold setup_leader_authentication.
  unfold bind at 1. unfold status_set, modify.
  unfold bind at 1. rewrite get_keys_complete.
  cbn [leader_data files set_status_log].
  unfold bind at 1. unfold is_state, gets. cbn [flags set_files set_status_log].
  cbv zeta.
  destruct (negb _ || _); reflexivity.
Qed.

Lemma keys_elem k :
  k ∈ keys ↔ k = service_key ∨ k = basic_auth ∨ k = known_tokens.
Proof.
  unfold keys. rewrite !elem_of_cons, elem_of_nil. tauto.
Qed.

Lemma broadcast_after_files w :
  (∀ k, k ∈ keys → is_Some (files w !! k)) →
  ∃ tokens auth key,
    files w !! known_tokens = Some tokens
    ∧ files w !! basic_auth = Some auth
    ∧ files w !! service_key = Some key
    ∧ broadcast_secrets w
      = (Ok tt,
         let w1 := snd (leader_set (leader_dict tokens auth key) w) in
         set_flags ({[auth_flag]} ∪ (flags w1 ∖ {[started_flag]})) w1).
Proof.
  intros H.
  destruct (H known_tokens) as [t Ht]; [apply keys_elem; auto|].
  destruct (H basic_auth) as [a Ha]; [apply keys_elem; auto|].
  destruct (H service_key) as [k Hk]; [apply keys_elem; auto|].
  exists t, a, k. repeat split; try done.
  by apply broadcast_secrets_run.
Qed.

(** Either the handler runs through and publishes once, the three keys
    together, or it fails and has published nothing. *)
Lemma setup_leader_authentication_outcome e w :
  let run := setup_leader_authentication csv_reader csv_writerows e w in
  (fst run = Ok tt
   ∧ ∃ tokens auth key,
       files (snd run) !! known_tokens = Some tokens
       ∧ files (snd run) !! basic_auth = Some auth
       ∧ files (snd run) !! service_key = Some key
       ∧ leader_log (snd run)
         = leader_log w ++ [leader_dict tokens auth key]
       ∧ leader_data (snd run)
         = leader_dict tokens auth key ∪ leader_data w)
  ∨ (fst run ≠ Ok tt ∧ published (snd run) = published w).
Proof.
  cbv zeta. rewrite setup_leader_authentication_unfold. cbv zeta.
  set (w1 := set_files _ _).
  assert (Hp1 : published w1 = published w) by reflexivity.
  destruct (negb _ || _) eqn:Hbranch.
  - unfold bind.
    pose proof (published_generate e w1) as Hpg.
    destruct (generate_missing_secrets csv_reader csv_writerows e w1)
      as [[[]|x] w2] eqn:Hg; cbn [snd] in Hpg.
    + apply generate_files in Hg as (Ht & Ha & Hk).
      destruct (broadcast_after_files w2) as (t & a & k & Et & Ea & Ek & ->).
      { intros k' [->|[->| ->]]%keys_elem; done. }
      left. split; [done|]. exists t, a, k. cbn.
      injection Hpg as Hd Hl. rewrite Hd, Hl. done.
    + right. split; [done|]. cbn. by rewrite Hpg.
  - apply orb_false_iff in Hbranch as [Hc _].
    apply negb_false_iff in Hc.
    destruct (broadcast_after_files w1) as (t & a & k & Et & Ea & Ek & ->).
    { intros k' Hin. by apply completes_files. }
    left. split; [done|]. exists t, a, k. cbn. done.
Qed.


End Leader.



(** ** The follower *)

Lemma world_eta_kv w : set_kv (kv w) w = w.
Proof. by destruct w. Qed.

Lemma any_file_changed_frame file_hash fs w :
  ∃ b kv', any_file_changed file_hash fs w = (Ok b, set_kv kv' w).
Proof.
  revert w. induction fs as [|f fs IH]; intros w.
  - exists false, (kv w). cbn. unfold ret. by rewrite world_eta_kv.
  - cbn [any_file_changed]. unfold bind, gets, ret, modify. cbv beta iota.
    destruct (bool_decide (kv w !! files_changed_key f
                           = file_hash <$> files w !! f));
      cbv beta iota;
      match goal with |- context [any_file_changed _ _ ?w1] =>
        destruct (IH w1) as (b & kv' & ->) end;
      cbv beta iota; eexists _, kv'; reflexivity.
Qed.

Lemma adopt_untouched ks d fs k :
  d !! k = None → adopt ks d fs !! k = fs !! k.
Proof.
  revert fs. induction ks as [|k0 ks IH]; intros fs Hk; [done|].
  cbn. destruct (d !! k0) eqn:H0; [|done].
  rewrite IH by done. apply lookup_insert_ne. congruence.
Qed.

Lemma adopt_first_missing k ks d fs :
  d !! k = None → adopt (k :: ks) d fs = fs.
Proof. intros H. cbn. by rewrite H. Qed.

Lemma adopt_all d fs key auth tokens :
  d !! service_key = Some key → d !! basic_auth = Some auth →
  d !! known_tokens = Some tokens →
  adopt keys d fs
  = <[known_tokens := tokens +:+ String Py.LF ""]>
      (<[basic_auth := auth +:+ String Py.LF ""]>
         (<[service_key := key +:+ String Py.LF ""]> fs)).
Proof. intros Hk Ha Ht. unfold keys. cbn. by rewrite Hk, Ha, Ht. Qed.

Lemma setup_non_leader_authentication_not_ready file_hash w :
  (∃ k, k ∈ keys ∧ leader_data w !! k = None) →
  setup_non_leader_authentication file_hash w
  = (Ok tt, set_files (adopt keys (leader_data w) (files w)) w).
Proof.
  intros (k & Hin & Hk).
  unfold setup_non_leader_authentication, bind. rewrite get_keys_overwrite.
  assert (forallb (fun k => bool_decide (is_Some (leader_data w !! k))) keys
          = false) as ->; [|done].
  apply not_true_iff_false. intros Hall.
  rewrite forallb_forall in Hall.
  specialize (Hall k). rewrite <- list_elem_of_In in Hall.
  specialize (Hall Hin). apply bool_decide_eq_true in Hall.
  rewrite Hk in Hall. by destruct Hall.
Qed.

(** C2, as amended.  When the channel lacks the value of a key, the
    follower's handler returns without touching a flag, and no file of a
    key that has no value is written; but the keys are fetched in the
    order service key, basic-auth table, known-tokens table, and the
    files of the keys that precede the first missing one have been
    overwritten by then.  In particular nothing is overwritten when the
    service key itself is missing, as before the leader's first
    broadcast. *)
Theorem follower_not_ready file_hash w :
  (∃ k, k ∈ keys ∧ leader_data w !! k = None) →
  let run := setup_non_leader_authentication file_hash w in
  fst run = Ok tt
  ∧ flags (snd run) = flags w
  ∧ status_log (snd run) = status_log w
  ∧ kv (snd run) = kv w
  ∧ files (snd run) = adopt keys (leader_data w) (files w)
  ∧ (∀ k, leader_data w !! k = None → files (snd run) !! k = files w !! k)
  ∧ (leader_data w !! service_key = None → files (snd run) = files w)
  ∧ (∀ key, leader_data w !! service_key = Some key →
       leader_data w !! basic_auth = None →
       files (snd run)
       = <[service_key := key +:+ String Py.LF ""]> (files w))
  ∧ (∀ key auth, leader_data w !! service_key = Some key →
       leader_data w !! basic_auth = Some auth →
       files (snd run)
       = <[basic_auth := auth +:+ String Py.LF ""]>
           (<[service_key := key +:+ String Py.LF ""]> (files w))).
Proof.
  intros Hmiss. cbv zeta.
  pose proof Hmiss as (k0 & Hin0 & Hk0).
  rewrite (setup_non_leader_authentication_not_ready _ _ Hmiss).
  cbn [fst snd flags status_log kv files set_files].
  repeat split.
  - intros k Hk. by apply adopt_untouched.
  - intros Hs. by apply adopt_first_missing.
  - intros key Hs Ha. unfold keys. cbn. by rewrite Hs, Ha.
  - intros key auth Hs Ha. unfold keys. cbn. rewrite Hs, Ha.
    apply keys_elem in Hin0 as [->|[->| ->]]; [congruence..|].
    by rewrite Hk0.
Qed.

Lemma follower_not_ready_witness :
  fst (setup_non_leader_authentication plain_hash world0) = Ok tt
  ∧ files (snd (setup_non_leader_authentication plain_hash world0))
    = files world0.
Proof.
  assert (Hmiss : ∃ k, k ∈ keys ∧ leader_data world0 !! k = None).
  { exists service_key. split; [apply keys_elem; auto|reflexivity]. }
  destruct (follower_not_ready plain_hash world0 Hmiss)
    as (Hok & _ & _ & _ & _ & _ & Hnone & _).
  split; [exact Hok|]. apply Hnone. reflexivity.
Defined.

(** C2 as stated fails when the channel holds some of the keys only:
    the basic-auth table and the known-tokens table have no value, the
    handler returns without setting [authentication.setup], and yet the
    local service key has been overwritten. *)
Lemma follower_partial_overwrite :
  leader_data world_partial !! basic_auth = None
  ∧ fst (setup_non_leader_authentication plain_hash world_partial) = Ok tt
  ∧ (auth_flag ∉ flags (snd (setup_non_leader_authentication plain_hash
                               world_partial)))
  ∧ files world_partial !! service_key = Some "OLD KEY"
  ∧ (files (snd (setup_non_leader_authentication plain_hash world_partial))
       !! service_key) = Some ("NEW KEY" +:+ String Py.LF "").
Proof.
  split; [reflexivity|]. split; [reflexivity|].
  split; [|split; reflexivity].
  apply (bool_decide_eq_false_1
           (auth_flag ∈ flags (snd (setup_non_leader_authentication plain_hash
                                      world_partial)))).
  vm_compute. reflexivity.
Qed.

Lemma setup_non_leader_authentication_ready file_hash w key auth tokens :
  leader_data w !! service_key = Some key →
  leader_data w !! basic_auth = Some auth →
  leader_data w !! known_tokens = Some tokens →
  let run := setup_non_leader_authentication file_hash w in
  fst run = Ok tt
  ∧ files (snd run)
    = <[known_tokens := tokens +:+ String Py.LF ""]>
        (<[basic_auth := auth +:+ String Py.LF ""]>
           (<[service_key := key +:+ String Py.LF ""]> (files w)))
  ∧ auth_flag ∈ flags (snd run).
Proof.
  intros Hk Ha Ht. cbv zeta.
  assert (∃ w', setup_non_leader_authentication file_hash w = (Ok tt, w')
                ∧ files w'
                  = <[known_tokens := tokens +:+ String Py.LF ""]>
                      (<[basic_auth := auth +:+ String Py.LF ""]>
                         (<[service_key := key +:+ String Py.LF ""]>
                            (files w)))
                ∧ auth_flag ∈ flags w') as (w' & -> & Hf & Hin); [|done].
  unfold setup_non_leader_authentication. unfold bind at 1.
  rewrite get_keys_overwrite.
  assert (forallb (fun k => bool_decide (is_Some (leader_data w !! k))) keys
          = true) as ->.
  { unfold keys. cbn [forallb]. rewrite Hk, Ha, Ht.
    rewrite !bool_decide_eq_true_2 by eauto. reflexivity. }
  cbn [negb]. rewrite (adopt_all _ _ _ _ _ Hk Ha Ht).
  set (w1 := set_files _ w).
  unfold bind at 1.
  destruct (any_file_changed_frame file_hash keys w1) as (b & kv' & ->).
  unfold bind at 1. unfold is_state, gets. cbn [flags set_kv].
  destruct (negb b && bool_decide (auth_flag ∈ flags w1)) eqn:Hskip.
  - unfold ret. eexists. split; [reflexivity|].
    cbn [fst snd files flags set_kv set_files set_flags set_status_log].
    split; [reflexivity|].
    apply andb_prop in Hskip as [_ Hf]. by apply bool_decide_eq_true in Hf.
  - unfold bind, status_set, remove_state, set_state, modify.
    eexists. split; [reflexivity|].
    cbn [fst snd files flags set_kv set_files set_flags set_status_log].
    split; [reflexivity|]. set_solver.
Qed.

Lemma universal_newlines_extra s :
  Py.universal_newlines s +:+ String Py.LF "" ≠ s.
Proof.
  induction s as [|c s IH]; [done|].
  cbn [Py.universal_newlines]. destruct (Py.ascii_eqb c Py.CR) eqn:Hc.
  - apply bool_decide_eq_true in Hc. subst c.
    destruct s as [|c' s']; [done|].
    destruct (Py.ascii_eqb c' Py.LF); done.
  - rewrite append_cons. intros [= H]. by apply IH.
Qed.



Lemma add_rbac_roles_short_line_witness :
  files world_synced !! known_tokens
  = Some ("tok,admin,admin" +:+ String Py.LF "" +:+ String Py.LF "")
  ∧ fst (add_rbac_roles world_synced) = Raise IndexError
  ∧ files (snd (add_rbac_roles world_synced)) !! known_tokens
    = Some ("tok,admin,admin," +:+ String Py.DQ "system:masters"
            +:+ String Py.DQ "" +:+ String Py.LF "").
Proof.
  split; [vm_compute; reflexivity|].
  destruct (add_rbac_roles_short_line world_synced
              ("tok,admin,admin" +:+ String Py.LF "" +:+ String Py.LF "")
              ["tok,admin,admin" +:+ String Py.LF ""] (String Py.LF "") [])
    as [Hraise Hfile].
  - vm_compute. reflexivity.
  - vm_compute. reflexivity.
  - repeat constructor.
  - unfold token_row. vm_compute. lia.
  - split; [exact Hraise|]. rewrite Hfile. vm_compute. reflexivity.
Defined.

(** ** The final status *)

Lemma world_eta_leader w : set_leader (leader_data w) (leader_log w) w = w.
Proof. by destruct w. Qed.

(** [get_dns_provider] refuses the configured value, or finds no
    value, or returns a provider, which the leader publishes. *)
Lemma get_dns_provider_cases e w :
  get_dns_provider e w = (Raise (InvalidDnsProvider (dns_rule_value e)), w)
  ∨ get_dns_provider e w = (Raise AttributeError, w)
  ∨ ∃ p, get_dns_provider e w
         = (Ok p, if bool_decide (leader_flag ∈ flags w)
                  then snd (leader_set {[ "auto_dns_provider" := p ]} w)
                  else w).
Proof.
  unfold get_dns_provider, dns_rule_value.
  destruct (config e !! "dns-provider") as [raw|] eqn:Hc;
    cbn [default from_option id].
  2: { right; left; reflexivity. }
  destruct (bool_decide (str_lower e raw ∈ valid_dns_providers e)) eqn:Hv;
    cbn [negb].
  2: { left. reflexivity. }
  right; right.
  unfold bind at 1.
  set (choose := if Py.str_eqb (str_lower e raw) "auto" then _ else _).
  assert (∃ q, choose w = (Ok q, w)) as (q & Hch).
  { unfold choose. destruct (Py.str_eqb _ "auto"); [|by eexists].
    unfold bind, leader_get, gets. destruct (negb _); by eexists. }
  rewrite Hch. exists q. unfold bind, is_state, gets.
  destruct (bool_decide (leader_flag ∈ flags w)); reflexivity.
Qed.

(** Whether the DNS provider rule matches depends on the configuration
    and the version only. *)
Lemma dns_rule_cond_config e w :
  dns_rule_cond e w =
    match config e !! "dns-provider" with
    | Some raw =>
        Ok (negb (bool_decide (str_lower e raw ∈ valid_dns_providers e)))
    | None => Raise AttributeError
    end.
Proof.
  unfold dns_rule_cond, get_dns_provider.
  destruct (config e !! "dns-provider") as [raw|]; [|reflexivity].
  destruct (bool_decide (str_lower e raw ∈ valid_dns_providers e));
    cbn [negb]; [|reflexivity].
  unfold bind at 1.
  set (choose := if Py.str_eqb (str_lower e raw) "auto" then _ else _).
  assert (∃ q, choose w = (Ok q, w)) as (q & ->).
  { unfold choose. destruct (Py.str_eqb _ "auto"); [|by eexists].
    unfold bind, leader_get, gets. destruct (negb _); by eexists. }
  unfold bind, is_state, gets.
  destruct (bool_decide (leader_flag ∈ flags w)); reflexivity.
Qed.

Lemma pods_cases e w :
  ∃ r, get_kube_system_pods_not_running e w = (r, w)
       ∧ ∀ u, r = Ok u → u = unready_pods e.
Proof.
  unfold get_kube_system_pods_not_running, unready_pods.
  destruct (kube_system_pods e) as [items|]; cbn [default from_option id].
  2: { eexists; split; [reflexivity|]. intros u [=]. }
  unfold bind, is_state, gets, lift, ret.
  destruct (bool_decide _ && _).
  - destruct (poke_network_unavailable e) as [[]|x].
    + eexists; split; [reflexivity|]. by intros u [= <-].
    + eexists; split; [reflexivity|]. intros u [=].
  - eexists; split; [reflexivity|]. by intros u [= <-].
Qed.

Lemma service_cidr_None e w :
  service_cidr e w = None → config e !! "service-cidr" = None.
Proof.
  unfold service_cidr. destruct (kv w !! service_cidr_key) as [f|]; [|done].
  by destruct (Py.truthy f).
Qed.

Ltac status_step :=
  cbv beta;
  lazymatch goal with
  | |- (if ?b then _ else _) _ = _ =>
      destruct b eqn:?; cbn [negb andb orb]; [reflexivity|]
  end.

(** The nested conditionals of [set_final_status] are the first-match
    evaluation of the table. *)
Lemma set_final_status_refines e w :
  set_final_status e w = run_rules status_rules e w.
Proof.
  unfold set_final_status, status_rules, is_flag_set.
  cbn [run_rules cond report effect fst snd].
  unfold flag, is_state, bind, gets, no_effect, relation_missing_status.
  cbv beta.
  do 9 status_step.
  unfold dns_rule_cond.
  destruct (get_dns_provider_cases e w) as [->|[->|(p & ->)]];
    cbn [fst snd]; [reflexivity..|].
  set (w1 := if bool_decide (leader_flag ∈ flags w) then _ else w).
  clearbody w1.
  status_step.
  cbv beta.
  lazymatch goal with
  | |- (if ?b then _ else _) _ = _ =>
      destruct b eqn:?; cbn [negb andb orb]
  end.
  { destruct (bool_decide ("cni.available" ∈ flags w1)); reflexivity. }
  do 2 status_step.
  unfold pods_rule_cond.
  destruct (pods_cases e w1) as (r & -> & Hr).
  cbn [fst snd].
  destruct r as [u|x].
  2: { destruct x; reflexivity. }
  rewrite (Hr u eq_refl).
  status_step.
  unfold gets. cbv beta.
  lazymatch goal with
  | |- (if ?b then _ else _) _ = _ =>
      destruct b eqn:Hcidr; cbn [negb andb orb]
  end.
  { destruct (service_cidr e w1) as [c|] eqn:Hc; [reflexivity|].
    apply service_cidr_None in Hc. apply negb_true_iff in Hcidr.
    apply bool_decide_eq_false in Hcidr. congruence. }
  do 2 status_step.
  reflexivity.
Qed.

(** *** States that differ in the leadership settings only *)

Lemma same_refl w : same_but_leadership w w.
Proof. by repeat split. Qed.

Lemma same_trans w1 w2 w3 :
  same_but_leadership w1 w2 → same_but_leadership w2 w3 →
  same_but_leadership w1 w3.
Proof.
  intros (F1 & P1 & S1 & R1 & C1 & N1 & G1 & K1)
         (F2 & P2 & S2 & R2 & C2 & N2 & G2 & K2).
  repeat split; try congruence.
  - intros f Hf. by rewrite G2, G1.
  - intros k Hk. by rewrite K2, K1.
Qed.

Lemma dns_flag_names f :
  dns_leadership_flag f = false →
  f ≠ leadership_set_flag "auto_dns_provider"
  ∧ f ≠ leadership_changed_flag "auto_dns_provider"
  ∧ f ≠ "leadership.changed".
Proof.
  unfold dns_leadership_flag. intros H.
  apply orb_false_iff in H as [H H3]. apply orb_false_iff in H as [H1 H2].
  apply str_eqb_neq in H1, H2, H3. done.
Qed.

Lemma leadership_flags_mono previous k v (F : gset string) f :
  f ∈ F → f ∈ leadership_flags previous k v F.
Proof.
  intros Hf. unfold leadership_flags.
  destruct (bool_decide (previous !! _ = Some v));
    rewrite !elem_of_union; tauto.
Qed.

(** [leader_set] clears no flag. *)
Lemma leader_set_flags_mono d w f :
  f ∈ flags w → f ∈ flags (snd (leader_set d w)).
Proof.
  intros Hf. unfold leader_set, modify. cbn [snd flags set_kv set_flags].
  apply (map_fold_weak_ind (fun F _ => f ∈ F)); [done|].
  intros k v m F _ HF. by apply leadership_flags_mono.
Qed.

(** What [leader_set] does for the DNS provider. *)
Lemma leader_set_dns p w :
  snd (leader_set {[ "auto_dns_provider" := p ]} w)
  = set_kv (<[dns_setting_key := p]> (kv w))
      (set_flags (leadership_flags (kv w) "auto_dns_provider" p (flags w))
         (set_leader ({[ "auto_dns_provider" := p ]} ∪ leader_data w)
            (leader_log w ++ [{[ "auto_dns_provider" := p ]}]) w)).
Proof.
  unfold leader_set, modify. cbn [snd]. by rewrite !map_fold_singleton.
Qed.

Lemma leader_set_dns_same p w :
  same_but_leadership w (snd (leader_set {[ "auto_dns_provider" := p ]} w)).
Proof.
  rewrite leader_set_dns. repeat split.
  - intros f Hf. destruct (dns_flag_names f Hf) as (H1 & H2 & H3).
    unfold flag, leadership_flags. cbn [flags set_kv set_flags].
    apply bool_decide_ext.
    destruct (bool_decide (kv w !! _ = Some p));
      rewrite !elem_of_union, !elem_of_singleton; tauto.
  - intros k Hk. cbn [kv set_kv]. by apply lookup_insert_ne.
Qed.

Lemma get_dns_provider_same e w :
  same_but_leadership w (snd (get_dns_provider e w)).
Proof.
  destruct (get_dns_provider_cases e w) as [->|[->|(p & ->)]];
    [apply same_refl..|].
  cbn [snd]. destruct (bool_decide (leader_flag ∈ flags w));
    [apply leader_set_dns_same|apply same_refl].
Qed.

Lemma service_cidr_same e w w' :
  same_but_leadership w w' → service_cidr e w' = service_cidr e w.
Proof.
  intros (_ & _ & _ & _ & _ & _ & _ & Hkv). unfold service_cidr.
  by rewrite Hkv.
Qed.

(** In a table of rules that do not look at the leadership settings,
    the first rule that matches the snapshot decides, and nothing after
    it is evaluated: the state is the one left by the rules before it. *)
Lemma run_rules_first rules e :
  Forall (leader_blind e) rules →
  ∀ i r w w',
    same_but_leadership w w' →
    rules !! i = Some r →
    (∀ k r', (k < i)%nat → rules !! k = Some r' → cond r' e w = Ok false) →
    cond r e w = Ok true →
    run_rules rules e w'
    = status_set (fst (report r e w)) (snd (report r e w))
        (after_rules rules i e w').
Proof.
  intros Hblind. induction Hblind as [|r0 rules H0 _ IH];
    intros i r w w' Hs Hi Hbefore Hcond.
  { by rewrite lookup_nil in Hi. }
  destruct (H0 w w' Hs) as (Hc0 & Hr0 & He0).
  destruct i as [|i].
  - injection Hi as ->. cbn [run_rules].
    rewrite Hc0, Hcond, Hr0. reflexivity.
  - cbn in Hi. cbn [run_rules].
    rewrite Hc0, (Hbefore 0%nat r0) by (lia || done).
    unfold after_rules. cbn [take foldl].
    apply (IH i r w _ He0 Hi); [|done].
    intros k r' Hk Hr'. apply (Hbefore (S k) r'); [lia|done].
Qed.

Lemma pods_rule_cond_blind e w w' :
  same_but_leadership w w' → pods_rule_cond e w' = pods_rule_cond e w.
Proof.
  intros (_ & _ & _ & _ & _ & _ & Hflag & _).
  unfold pods_rule_cond, get_kube_system_pods_not_running.
  destruct (kube_system_pods e) as [items|]; [|reflexivity].
  unfold bind, is_state, gets, lift, ret.
  change (bool_decide ("endpoint.gcp.ready" ∈ flags w'))
    with (flag "endpoint.gcp.ready" w').
  rewrite Hflag by reflexivity. unfold flag.
  destruct (bool_decide _ && _); [|reflexivity].
  by destruct (poke_network_unavailable e) as [[]|x].
Qed.

Lemma status_rules_blind e : Forall (leader_blind e) status_rules.
Proof.
  unfold status_rules.
  repeat (apply Forall_cons; split;
          [intros w w' Hs; cbn [cond report effect]; unfold no_effect;
           pose proof Hs as (_ & _ & _ & _ & _ & _ & Hflag & _);
           rewrite ?Hflag by reflexivity;
           rewrite ?(service_cidr_same e w w' Hs);
           split; [|split; [reflexivity|try exact Hs]]|]);
    try apply Forall_nil; try reflexivity.
  - by rewrite !dns_rule_cond_config.
  - apply (same_trans _ _ _ Hs), get_dns_provider_same.
  - by apply pods_rule_cond_blind.
Qed.

(** Up to the DNS provider rule the evaluation of the rules changes
    nothing. *)
Lemma after_rules_before_dns i e w :
  (i <= dns_rule_index)%nat → after_rules status_rules i e w = w.
Proof.
  unfold dns_rule_index. intros Hi.
  do 10 (destruct i as [|i]; [reflexivity|]). lia.
Qed.

Lemma after_rules_same rules e :
  Forall (leader_blind e) rules →
  ∀ j w w', same_but_leadership w w' →
            same_but_leadership w (after_rules rules j e w').
Proof.
  intros Hb j w w' Hs. unfold after_rules.
  assert (Ht : Forall (leader_blind e) (take j rules)) by by apply Forall_take.
  revert w' Hs. induction Ht as [|r1 rs H1 _ IH]; intros w' Hs; [done|].
  cbn [foldl]. apply IH. by destruct (H1 w w' Hs) as (_ & _ & ?).
Qed.

Lemma after_rules_status_log rules e :
  Forall (leader_blind e) rules →
  ∀ j w, status_log (after_rules rules j e w) = status_log w.
Proof.
  intros Hb j w.
  by destruct (after_rules_same rules e Hb j w w (same_refl w))
    as (_ & _ & ? & _).
Qed.

Lemma status_rule_decides e w i r :
  status_rules !! i = Some r →
  cond r e w = Ok true →
  (∀ k r', (k < i)%nat → status_rules !! k = Some r' →
           cond r' e w = Ok false) →
  set_final_status e w
  = (Ok tt,
     set_status_log (status_log w ++ [report r e w])
       (after_rules status_rules i e w)).
Proof.
  intros Hi Hcond Hbefore.
  rewrite set_final_status_refines.
  rewrite (run_rules_first status_rules e (status_rules_blind e) i r w w
             (same_refl w) Hi Hbefore Hcond).
  unfold status_set, modify.
  rewrite (after_rules_status_log _ _ (status_rules_blind e)).
  by destruct (report r e w).
Qed.

(** C4.  [set_final_status] is the first-match evaluation of the fixed
    table [status_rules]: whatever the snapshot, the status it reports
    is the one of the first rule of the table that matches, exactly one
    status is reported, a rule [j] behind that one plays no part, and no
    rule behind it is evaluated (the state is the one that the rules
    before the match leave, which is the snapshot itself up to the DNS
    provider rule). *)
Theorem set_final_status_first_match e w :
  set_final_status e w = run_rules status_rules e w
  ∧ map rule_name status_rules
    = ["encryption storage failed"; "encryption config unavailable";
       "vsphere needs a newer version"; "azure needs a newer version";
       "cloud integration pending"; "kube-api-endpoint relation missing";
       "kube-control relation missing"; "keystone v2";
       "manual upgrade required"; "dns provider invalid";
       "services stopped"; "components not started";
       "waiting on leader credentials"; "waiting on addons";
       "pod status unavailable"; "pods not running";
       "service-cidr changed"; "gpu available but disabled";
       "waiting on ceph key"; "running"]
  ∧ ∀ i j ri rj,
      (i < j)%nat →
      status_rules !! i = Some ri → status_rules !! j = Some rj →
      cond ri e w = Ok true → cond rj e w = Ok true →
      (∀ k r', (k < i)%nat → status_rules !! k = Some r' →
               cond r' e w = Ok false) →
      fst (set_final_status e w) = Ok tt
      ∧ status_log (snd (set_final_status e w))
        = status_log w ++ [report ri e w]
      ∧ snd (set_final_status e w)
        = set_status_log (status_log w ++ [report ri e w])
            (after_rules status_rules i e w)
      ∧ ((i <= dns_rule_index)%nat →
         snd (set_final_status e w)
         = set_status_log (status_log w ++ [report ri e w]) w).
Proof.
  split; [apply set_final_status_refines|]. split; [reflexivity|].
  intros i j ri rj Hij Hi Hj Hci Hcj Hbefore.
  rewrite (status_rule_decides e w i ri Hi Hci Hbefore).
  cbn [fst snd status_log set_status_log].
  repeat split. intros Hdns. by rewrite after_rules_before_dns.
Qed.

Lemma set_final_status_first_match_witness :
  status_log (snd (set_final_status env0 world0))
  = [("blocked", "Waiting for kube-api-endpoint relation")].
Proof.
  destruct (set_final_status_first_match env0 world0) as (_ & _ & Hfirst).
  edestruct (Hfirst 5%nat 6%nat) as (_ & Hlog & _).
  - lia.
  - reflexivity.
  - reflexivity.
  - reflexivity.
  - reflexivity.
  - intros k r' Hk Hr.
    do 5 (destruct k as [|k]; [injection Hr as <-; reflexivity|]). lia.
  - rewrite Hlog. reflexivity.
Defined.

(** ** The DNS provider *)

Lemma get_dns_provider_invalid e w raw :
  config e !! "dns-provider" = Some raw →
  str_lower e raw ∉ valid_dns_providers e →
  get_dns_provider e w = (Raise (InvalidDnsProvider (str_lower e raw)), w).
Proof.
  intros Hc Hv. unfold get_dns_provider. rewrite Hc.
  by rewrite bool_decide_eq_false_2.
Qed.

Lemma dns_message_names value :
  dns_message value
  = "dns-provider=" +:+ value
    +:+ (if Py.str_eqb value "core-dns" then " requires k8s 1.14+"
         else " is invalid").
Proof.
  unfold dns_message. destruct (Py.str_eqb value "core-dns") eqn:E; [|done].
  by apply str_eqb_eq in E as ->.
Qed.

(** C7, as amended.  The configured value is compared in lower case:
    when its lower-case form is outside the supported set,
    [get_dns_provider] raises [InvalidDnsProvider] with that lower-case
    form and changes nothing, in particular it publishes no provider;
    and when no rule of higher priority matches, the final status is
    blocked with a message that names that value. *)
Theorem invalid_dns_provider_blocks e w raw :
  config e !! "dns-provider" = Some raw →
  str_lower e raw ∉ valid_dns_providers e →
  get_dns_provider e w = (Raise (InvalidDnsProvider (str_lower e raw)), w)
  ∧ ((∀ k r', (k < dns_rule_index)%nat → status_rules !! k = Some r' →
              cond r' e w = Ok false) →
     set_final_status e w
     = (Ok tt,
        set_status_log
          (status_log w ++ [("blocked", dns_message (str_lower e raw))]) w)
     ∧ dns_message (str_lower e raw)
       = "dns-provider=" +:+ str_lower e raw
         +:+ (if Py.str_eqb (str_lower e raw) "core-dns"
              then " requires k8s 1.14+" else " is invalid")).
Proof.
  intros Hc Hv. split; [by apply get_dns_provider_invalid|].
  intros Hbefore. split; [|apply dns_message_names].
  assert (Hi : status_rules !! dns_rule_index
               = Some {| rule_name := "dns provider invalid";
                         cond := dns_rule_cond;
                         report := fun e w =>
                           ("blocked", dns_message (dns_rule_value e));
                         effect := fun e w => snd (get_dns_provider e w) |})
    by reflexivity.
  rewrite (status_rule_decides e w _ _ Hi).
  - cbn [report]. unfold dns_rule_value. rewrite Hc. cbn [default from_option id].
    by rewrite after_rules_before_dns.
  - cbn [cond]. rewrite dns_rule_cond_config, Hc.
    by rewrite bool_decide_eq_false_2.
  - exact Hbefore.
Qed.

Lemma invalid_dns_provider_blocks_witness :
  fst (get_dns_provider (env_dns "Bogus") world_started)
  = Raise (InvalidDnsProvider "bogus")
  ∧ status_log (snd (set_final_status (env_dns "Bogus") world_started))
    = [("blocked", "dns-provider=bogus is invalid")].
Proof.
  destruct (invalid_dns_provider_blocks (env_dns "Bogus") world_started
              "Bogus") as [Hraise Hstatus].
  - reflexivity.
  - apply (bool_decide_eq_false_1
             (str_lower (env_dns "Bogus") "Bogus" ∈ valid_dns_providers (env_dns "Bogus"))).
    vm_compute. reflexivity.
  - split; [by rewrite Hraise|].
    destruct Hstatus as [-> _]; [|reflexivity].
    intros k r' Hk Hr. unfold dns_rule_index in Hk.
    do 9 (destruct k as [|k]; [injection Hr as <-; vm_compute; reflexivity|]).
    lia.
Defined.

(** C7 as stated fails in two ways.  "AUTO" is not one of the four
    supported spellings, yet it is accepted (as "auto") and a provider is
    chosen and published; and an invalid value is not reported at all
    while a rule of higher priority matches, such as the missing
    kube-api-endpoint relation. *)
Lemma dns_provider_upper_case_accepted :
  ("AUTO" ∉ ["auto"; "core-dns"; "kube-dns"; "none"])
  ∧ fst (get_dns_provider (env_dns "AUTO") world_leader) = Ok "core-dns"
  ∧ leader_log (snd (get_dns_provider (env_dns "AUTO") world_leader))
    = [{[ "auto_dns_provider" := "core-dns" ]}]
  ∧ fst (get_dns_provider (env_dns "bogus") world0)
    = Raise (InvalidDnsProvider "bogus")
  ∧ status_log
      (snd (set_final_status
              (with_goal_state (Some ["kube-api-endpoint"]) (env_dns "bogus"))
              world0))
    = [("waiting", "Waiting for kube-api-endpoint relation")].
Proof.
  split.
  { apply (bool_decide_eq_false_1
             ("AUTO" ∈ ["auto"; "core-dns"; "kube-dns"; "none"])).
    vm_compute. reflexivity. }
  split; [vm_compute; reflexivity|].
  split; [vm_compute; reflexivity|].
  split; vm_compute; reflexivity.
Qed.

(** ** Applying options and restarting *)

Lemma restart_log_set_state f : preserves restart_log (set_state f).
Proof. by intros w. Qed.

Lemma restart_log_remove_state f : preserves restart_log (remove_state f).
Proof. by intros w. Qed.

Lemma restart_log_write_text p c : preserves restart_log (write_text p c).
Proof. by intros w. Qed.

Lemma restart_log_remove_if_exists p :
  preserves restart_log (remove_if_exists p).
Proof. by intros w. Qed.

Lemma restart_log_configure e key service args extra :
  preserves restart_log (configure_kubernetes_service e key service args extra).
Proof. by intros w. Qed.

#[export] Hint Resolve restart_log_set_state restart_log_remove_state
  restart_log_write_text restart_log_remove_if_exists
  restart_log_configure : frame.

Lemma restart_log_is_privileged e : preserves restart_log (is_privileged e).
Proof.
  unfold is_privileged. destruct (config e !! "allow-privileged");
    [|auto with frame].
  destruct (Py.str_eqb _ _); auto 8 with frame.
Qed.

Lemma restart_log_getStorageBackend e :
  preserves restart_log (getStorageBackend e).
Proof. unfold getStorageBackend. auto with frame. Qed.

Lemma restart_log_cloud_opts e c o : preserves restart_log (cloud_opts e c o).
Proof.
  unfold cloud_opts.
  repeat (apply preserves_bind; [auto with frame|intros ?]).
  repeat (apply preserves_if; [auto with frame|]). auto with frame.
Qed.

Lemma restart_log_header p c :
  preserves restart_log (write_file_with_autogenerated_header p c).
Proof. unfold write_file_with_autogenerated_header. auto with frame. Qed.

#[export] Hint Resolve restart_log_is_privileged restart_log_getStorageBackend
  restart_log_cloud_opts restart_log_header : frame.

Lemma restarts_once_raise s x : restarts_once s (raise x).
Proof. intros w. right. by split. Qed.

Lemma restarts_once_bind {A} s (m : M A) (k : A → M unit) :
  preserves restart_log m → (∀ a, restarts_once s (k a)) →
  restarts_once s (bind m k).
Proof.
  intros Hm Hk w. unfold bind. specialize (Hm w).
  destruct (m w) as [[a|x] w1]; cbn [snd] in Hm.
  - rewrite <- Hm. apply Hk.
  - right. by split.
Qed.

(** The last two statements of every configure handler: apply the
    options, then restart, whatever the collaborator reports. *)
Lemma restarts_once_apply e key service args extra s :
  restarts_once s
    (bind (configure_kubernetes_service e key service args extra)
       (fun _ => service_restart s)).
Proof. intros w. left. by split. Qed.

Lemma configure_scheduler_restarts e :
  restarts_once "snap.kube-scheduler.daemon" (configure_scheduler e).
Proof. apply restarts_once_apply. Qed.

Lemma configure_controller_manager_restarts e :
  restarts_once "snap.kube-controller-manager.daemon"
    (configure_controller_manager e).
Proof.
  unfold configure_controller_manager.
  apply restarts_once_bind; [auto with frame|intros opts].
  apply restarts_once_apply.
Qed.

Lemma configure_apiserver_restarts e etcd :
  restarts_once "snap.kube-apiserver.daemon" (configure_apiserver e etcd).
Proof.
  unfold configure_apiserver.
  apply restarts_once_bind; [auto with frame|intros privileged].
  apply restarts_once_bind; [auto with frame|intros _].
  apply restarts_once_bind; [auto with frame|intros cidr].
  apply restarts_once_bind; [auto with frame|intros storage_backend].
  destruct (config e !! "authorization-mode") as [auth_mode|];
    [|apply restarts_once_raise].
  apply restarts_once_bind; [auto 8 with frame|intros opts_and_mode].
  apply restarts_once_bind; [auto with frame|intros api_opts].
  apply restarts_once_bind; [auto with frame|intros _].
  apply restarts_once_bind; [auto with frame|intros _].
  apply restarts_once_bind; [auto with frame|intros secure].
  apply restarts_once_apply.
Qed.



(** * Further properties *)

(** ** Lines of a text *)

Lemma string_ind2 (P : string → Prop) :
  P "" → (∀ c, P (String c "")) →
  (∀ c c' s, P s → P (String c' s) → P (String c (String c' s))) →
  ∀ s, P s.
Proof.
  intros H0 H1 H2 s.
  assert (H : P s ∧ ∀ c, P (String c s)); [|by destruct H].
  induction s as [|c' s [IH1 IH2]]; [by split|].
  split; [apply IH2|]. intros c. by apply H2.
Qed.

Lemma whole_lines_cons c s :
  whole_lines (String c s)
  = match s with
    | EmptyString => Py.ascii_eqb c Py.LF
    | String _ _ => whole_lines s
    end.
Proof. reflexivity. Qed.

Lemma whole_lines_tail c s :
  whole_lines (String c s) = true → whole_lines s = true.
Proof. rewrite whole_lines_cons. by destruct s. Qed.

Lemma universal_newlines_nonempty c s :
  Py.universal_newlines (String c s) ≠ "".
Proof.
  cbn [Py.universal_newlines].
  destruct (Py.ascii_eqb c Py.CR); [|done].
  destruct s as [|c' s]; [done|]. by destruct (Py.ascii_eqb c' Py.LF).
Qed.

Lemma universal_newlines_whole s :
  whole_lines s = true → whole_lines (Py.universal_newlines s) = true.
Proof.
  induction s as [|c|c c' s IH1 IH2] using string_ind2; [done|..].
  - cbn. intros Hc. apply bool_decide_eq_true in Hc as ->. reflexivity.
  - intros Hw. apply whole_lines_tail in Hw as Hw2.
    apply whole_lines_tail in Hw2 as Hw1.
    pose proof (universal_newlines_nonempty c' s) as Hne.
    specialize (IH1 Hw1). specialize (IH2 Hw2).
    change (Py.universal_newlines (String c (String c' s)))
      with (if Py.ascii_eqb c Py.CR then
              if Py.ascii_eqb c' Py.LF
              then String Py.LF (Py.universal_newlines s)
              else String Py.LF (Py.universal_newlines (String c' s))
            else String c (Py.universal_newlines (String c' s))).
    destruct (Py.ascii_eqb c Py.CR); [destruct (Py.ascii_eqb c' Py.LF)|];
      rewrite whole_lines_cons.
    + by destruct (Py.universal_newlines s).
    + by destruct (Py.universal_newlines (String c' s)).
    + by destruct (Py.universal_newlines (String c' s)).
Qed.

(** Reading a text to which more was appended: when the text ended with
    a line feed, the old part reads as before. *)
Lemma universal_newlines_app a b :
  whole_lines a = true →
  Py.universal_newlines (a +:+ b)
  = Py.universal_newlines a +:+ Py.universal_newlines b.
Proof.
  induction a as [|c|c c' s IH1 IH2] using string_ind2; [done|..].
  - cbn [whole_lines]. intros Hc. apply bool_decide_eq_true in Hc as ->.
    reflexivity.
  - intros Hw. apply whole_lines_tail in Hw as Hw2.
    apply whole_lines_tail in Hw2 as Hw1.
    specialize (IH1 Hw1). specialize (IH2 Hw2).
    rewrite !append_cons. rewrite append_cons in IH2.
    change (Py.universal_newlines (String c (String c' (s +:+ b))))
      with (if Py.ascii_eqb c Py.CR then
              if Py.ascii_eqb c' Py.LF
              then String Py.LF (Py.universal_newlines (s +:+ b))
              else String Py.LF (Py.universal_newlines (String c' (s +:+ b)))
            else String c (Py.universal_newlines (String c' (s +:+ b)))).
    change (Py.universal_newlines (String c (String c' s)))
      with (if Py.ascii_eqb c Py.CR then
              if Py.ascii_eqb c' Py.LF
              then String Py.LF (Py.universal_newlines s)
              else String Py.LF (Py.universal_newlines (String c' s))
            else String c (Py.universal_newlines (String c' s))).
    destruct (Py.ascii_eqb c Py.CR); [destruct (Py.ascii_eqb c' Py.LF)|];
      rewrite append_cons; by rewrite ?IH1, ?IH2.
Qed.

Lemma universal_newlines_plain a b :
  no_char Py.CR a = true →
  Py.universal_newlines (a +:+ b) = a +:+ Py.universal_newlines b.
Proof.
  induction a as [|c a IH]; [done|].
  intros [Hc Ha]%andb_prop. apply negb_true_iff in Hc.
  rewrite !append_cons. cbn [Py.universal_newlines].
  rewrite Hc. by rewrite IH.
Qed.

Lemma readlines_nonempty c s : Py.readlines (String c s) ≠ [].
Proof.
  cbn [Py.readlines]. destruct (Py.ascii_eqb c Py.LF); [done|].
  by destruct (Py.readlines s).
Qed.

Lemma readlines_app a b :
  whole_lines a = true →
  Py.readlines (a +:+ b) = Py.readlines a ++ Py.readlines b.
Proof.
  induction a as [|c a IH]; [done|].
  intros Hw. rewrite append_cons. cbn [Py.readlines].
  destruct (Py.ascii_eqb c Py.LF) eqn:Hc.
  - apply whole_lines_tail in Hw. by rewrite (IH Hw).
  - rewrite whole_lines_cons in Hw. destruct a as [|c' a]; [congruence|].
    rewrite (IH Hw). pose proof (readlines_nonempty c' a) as Hne.
    by destruct (Py.readlines (String c' a)).
Qed.

(** The first line of a text starts with what the text starts with, up
    to the first line feed. *)
Lemma readlines_first a s :
  no_char Py.LF a = true → a ≠ "" →
  ∃ l ls, Py.readlines (a +:+ s) = (a +:+ l) :: ls.
Proof.
  induction a as [|c a IH]; [done|].
  intros [Hc Ha]%andb_prop _. apply negb_true_iff in Hc.
  rewrite append_cons. cbn [Py.readlines]. rewrite Hc.
  destruct a as [|c' a].
  - rewrite append_nil. destruct (Py.readlines s) as [|l ls].
    + by exists "", [].
    + by exists l, ls.
  - destruct (IH Ha) as (l & ls & ->); [done|]. by exists l, ls.
Qed.

(** ** Looking a user up in a table *)

Lemma get_password_run f u w :
  get_password f u w
  = (match files w !! (root_cdk +:+ "/" +:+ f) with
     | Some c =>
         find_password (Py.readlines (Py.universal_newlines c)) u
     | None => Ok None
     end, w).
Proof.
  unfold get_password, bind, path_exists, gets, read_text, lift, ret.
  destruct (files w !! (root_cdk +:+ "/" +:+ f)) eqn:E.
  - rewrite bool_decide_eq_true_2 by eauto. cbn [negb]. by rewrite E.
  - by rewrite bool_decide_eq_false_2 by (by intros [? ?]).
Qed.

Lemma find_password_app_None l1 l2 u :
  find_password l1 u = Ok None →
  find_password (l1 ++ l2) u = find_password l2 u.
Proof.
  induction l1 as [|line l1 IH]; [done|].
  cbn [find_password app].
  destruct (index (Py.split_on "," line) 1) as [r1|x]; cbn; [|done].
  destruct (Py.str_eqb r1 u); [|done].
  by destruct (index (Py.split_on "," line) 0).
Qed.

Lemma find_password_app_decided l1 l2 u :
  find_password l1 u ≠ Ok None →
  find_password (l1 ++ l2) u = find_password l1 u.
Proof.
  induction l1 as [|line l1 IH]; [done|].
  cbn [find_password app].
  destruct (index (Py.split_on "," line) 1) as [r1|x]; cbn; [|done].
  by destruct (Py.str_eqb r1 u).
Qed.

Lemma find_password_hit line rest u p fields :
  Py.split_on "," line = p :: u :: fields →
  find_password (line :: rest) u = Ok (Some p).
Proof.
  intros H. cbn [find_password]. rewrite H. cbn.
  by rewrite str_eqb_refl.
Qed.

Lemma find_password_found lines u p :
  find_password lines u = Ok (Some p) →
  ∃ pre line post fields,
    lines = pre ++ line :: post
    ∧ Py.split_on "," line = p :: u :: fields
    ∧ find_password pre u = Ok None.
Proof.
  induction lines as [|line lines IH]; [done|].
  cbn [find_password].
  destruct (Py.split_on "," line) as [|r0 [|r1 fields]] eqn:Hs; cbn; [done..|].
  destruct (Py.str_eqb r1 u) eqn:Hu.
  - apply str_eqb_eq in Hu as ->. intros [= ->].
    by exists [], line, lines, fields.
  - intros H. destruct (IH H) as (pre & l & post & fs & -> & Hl & Hpre).
    exists (line :: pre), l, post, fs. split; [done|]. split; [done|].
    cbn [find_password]. rewrite Hs. cbn. by rewrite Hu.
Qed.

Lemma find_password_None lines u :
  find_password lines u = Ok None →
  Forall (fun line => ∃ r0 r1 fields,
            Py.split_on "," line = r0 :: r1 :: fields ∧ r1 ≠ u) lines.
Proof.
  induction lines as [|line lines IH]; [by constructor|].
  cbn [find_password].
  destruct (Py.split_on "," line) as [|r0 [|r1 fields]] eqn:Hs; cbn; [done..|].
  destruct (Py.str_eqb r1 u) eqn:Hu; [done|].
  intros H. constructor; [|by apply IH].
  apply str_eqb_neq in Hu. by exists r0, r1, fields.
Qed.

Lemma find_password_miss pre rest u :
  Forall (fun line => ∃ r0 r1 fields,
            Py.split_on "," line = r0 :: r1 :: fields ∧ r1 ≠ u) pre →
  find_password (pre ++ rest) u = find_password rest u.
Proof.
  intros H. apply find_password_app_None.
  induction H as [|line pre (r0 & r1 & fs & Hs & Hne) _ IH]; [done|].
  cbn [find_password]. rewrite Hs. cbn.
  apply str_eqb_neq in Hne. by rewrite Hne.
Qed.

(** X1.  A password that [get_password] returns is in the file: it is
    the first field of a line whose second field is the user, and no line
    before that one has the user as its second field.  The lookup changes
    nothing. *)
Theorem get_password_first_record f u w p w' :
  get_password f u w = (Ok (Some p), w') →
  w' = w
  ∧ ∃ c pre line post fields,
      files w !! (root_cdk +:+ "/" +:+ f) = Some c
      ∧ Py.readlines (Py.universal_newlines c) = pre ++ line :: post
      ∧ password_record line = p :: u :: fields
      ∧ Forall (fun l => ∃ r0 r1 fs,
                  password_record l = r0 :: r1 :: fs ∧ r1 ≠ u) pre.
Proof.
  rewrite get_password_run. intros [= H <-]. split; [done|].
  destruct (files w !! (root_cdk +:+ "/" +:+ f)) as [c|]; [|done].
  destruct (find_password_found _ _ _ H) as (pre & l & post & fs & E & Hl & Hp).
  exists c, pre, l, post, fs. repeat split; [done..|].
  by apply find_password_None.
Qed.

Lemma get_password_first_record_witness :
  ∃ line, password_record line = ["tok"; "bob"; "bob" +:+ String Py.LF ""].
Proof.
  destruct (get_password_first_record "known_tokens.csv" "bob" world_tokens
              "tok" world_tokens eq_refl)
    as (_ & c & pre & line & post & fields & Hc & Hl & Hr & Hpre).
  exists line.
  injection Hc as <-. vm_compute in Hl.
  destruct pre as [|l0 pre]; [|by destruct pre].
  injection Hl as <- <-. reflexivity.
Defined.

(** X2.  A line without a comma stops the lookup: when no line before it
    has the user as its second field, [get_password] raises
    [IndexError] instead of looking further or returning [None], and
    leaves the unit as it was. *)
Theorem get_password_short_line f u w c pre line post :
  files w !! (root_cdk +:+ "/" +:+ f) = Some c →
  Py.readlines (Py.universal_newlines c) = pre ++ line :: post →
  Forall (fun l => ∃ r0 r1 fs,
            password_record l = r0 :: r1 :: fs ∧ r1 ≠ u) pre →
  no_char "," line = true →
  get_password f u w = (Raise IndexError, w).
Proof.
  intros Hc Hl Hpre Hline. rewrite get_password_run, Hc, Hl.
  rewrite (find_password_miss _ _ _ Hpre).
  cbn [find_password]. by rewrite (split_on_none _ _ Hline).
Qed.

Lemma get_password_short_line_witness :
  files world_tokens_blank !! known_tokens
  = Some ("tok,bob,bob" +:+ String Py.LF (String Py.LF ""))
  ∧ get_token "eve" world_tokens_blank
    = (Raise IndexError, world_tokens_blank).
Proof.
  split; [reflexivity|].
  apply (get_password_short_line "known_tokens.csv" "eve"
           world_tokens_blank
           ("tok,bob,bob" +:+ String Py.LF (String Py.LF ""))
           ["tok,bob,bob" +:+ String Py.LF ""] (String Py.LF "") []).
  - reflexivity.
  - reflexivity.
  - constructor; [|constructor].
    exists "tok", "bob", ["bob" +:+ String Py.LF ""]. by split.
  - reflexivity.
Defined.

(** ** Drawing a token *)

Lemma choice_alpha e pos : choice e pos ∈ chars alpha.
Proof.
  unfold choice, chars. apply list_elem_of_In, nth_In.
  change (length (list_ascii_of_string alpha)) with 62%nat.
  apply Nat.mod_upper_bound. done.
Qed.

Lemma draw_alpha e pos n : Forall (fun c => c ∈ chars alpha) (chars (draw e pos n)).
Proof.
  revert pos. induction n as [|n IH]; intros pos; [constructor|].
  unfold draw; fold draw. constructor; [apply choice_alpha|apply IH].
Qed.

Lemma no_char_alpha c s :
  c ∉ chars alpha → Forall (fun a => a ∈ chars alpha) (chars s) →
  no_char c s = true.
Proof.
  intros Hc. induction s as [|a s IH]; [done|].
  intros [Ha Hs]%Forall_cons. cbn [no_char]. rewrite (IH Hs), andb_true_r.
  apply negb_true_iff, bool_decide_eq_false. congruence.
Qed.

Lemma draw_no_char e pos n c :
  c ∉ chars alpha → no_char c (draw e pos n) = true.
Proof. intros Hc. by apply no_char_alpha, draw_alpha. Qed.

Lemma draw_plain e pos n : plain_field (draw e pos n) = true.
Proof.
  unfold plain_field. rewrite !draw_no_char; [done|..];
    apply (bool_decide_eq_false_1 (_ ∈ chars alpha)); vm_compute; reflexivity.
Qed.

(** X3.  [token_generator] always returns: the token has exactly the
    length asked for, every character of it is an ASCII letter or digit,
    so it holds no comma, quote or line end, and the call changes nothing
    but the position in the entropy source, which advances by the
    length. *)
Theorem token_generator_alphanumeric e n w :
  ∃ t,
    token_generator e n w = (Ok t, set_rng_pos (rng_pos w + n) w)
    ∧ String.length t = n
    ∧ Forall (fun c => c ∈ chars alpha) (chars t)
    ∧ plain_field t = true ∧ no_char Py.DQ t = true.
Proof.
  exists (draw e (rng_pos w) n). split; [reflexivity|].
  split; [apply draw_length|]. split; [apply draw_alpha|].
  split; [apply draw_plain|].
  apply draw_no_char.
  apply (bool_decide_eq_false_1 (_ ∈ chars alpha)). vm_compute. reflexivity.
Qed.

(** ** Adding a user to the token table *)

Lemma chosen_token_run e token w :
  (match token with
   | Some t => if Py.truthy t then ret t else token_generator e 32
   | None => token_generator e 32
   end) w
  = (Ok (chosen_password e w token),
     if Py.truthy_opt token then w else set_rng_pos (rng_pos w + 32) w).
Proof.
  unfold chosen_password. destruct token as [t|]; [|reflexivity].
  cbn [Py.truthy_opt default from_option id]. by destruct (Py.truthy t).
Qed.

Lemma setup_tokens_run e token username user groups w :
  ∃ w',
    setup_tokens e token username user groups w = (Ok tt, w')
    ∧ files w'
      = <[known_tokens :=
            default "" (files w !! known_tokens)
            +:+ token_line (chosen_password e w token) username user groups]>
          (files w)
    ∧ flags w' = flags w ∧ restart_log w' = restart_log w
    ∧ leader_data w' = leader_data w ∧ leader_log w' = leader_log w
    ∧ kv w' = kv w.
Proof.
  unfold setup_tokens, bind. rewrite chosen_token_run.
  unfold append_text, modify. eexists. split; [reflexivity|].
  by destruct (Py.truthy_opt token).
Qed.

Lemma chosen_password_plain e w token :
  plain_field (default "" token) = true →
  plain_field (chosen_password e w token) = true.
Proof.
  unfold chosen_password. destruct (Py.truthy_opt token); [done|].
  intros _. apply draw_plain.
Qed.

Lemma chosen_password_nonempty e w token : chosen_password e w token ≠ "".
Proof.
  unfold chosen_password. destruct token as [t|]; cbn.
  - unfold Py.truthy. destruct (Py.str_eqb t "") eqn:Ht; cbn.
    + intros H. pose proof (draw_length e (rng_pos w) 32) as Hl.
      rewrite H in Hl. done.
    + by apply str_eqb_neq in Ht.
  - intros H. pose proof (draw_length e (rng_pos w) 32) as Hl.
    rewrite H in Hl. done.
Qed.

Lemma token_line_fields token username user groups :
  ∃ tail, token_line token username user groups
          = token +:+ "," +:+ username +:+ "," +:+ tail.
Proof.
  unfold token_line. destruct (Py.truthy_opt groups); eexists; reflexivity.
Qed.

Lemma plain_field_parts s :
  plain_field s = true →
  no_char "," s = true ∧ no_char Py.LF s = true ∧ no_char Py.CR s = true.
Proof.
  unfold plain_field. intros [[H1 H2]%andb_prop H3]%andb_prop. done.
Qed.

Lemma fields_prefix t u tail :
  t +:+ "," +:+ u +:+ "," +:+ tail = (t +:+ "," +:+ u +:+ ",") +:+ tail.
Proof. rewrite !append_assoc. reflexivity. Qed.

Lemma no_char_prefix c t u :
  c ≠ ","%char → no_char c t = true → no_char c u = true →
  no_char c (t +:+ "," +:+ u +:+ ",") = true.
Proof.
  intros Hc Ht Hu. rewrite no_char_app, Ht.
  change ("," +:+ u +:+ ",") with (String "," (u +:+ ",")).
  cbn [no_char andb]. rewrite no_char_app, Hu. cbn [no_char andb].
  rewrite andb_true_r.
  assert (Py.ascii_eqb "," c = false) as ->; [|done].
  apply bool_decide_eq_false. congruence.
Qed.

(** The line that [setup_tokens] writes, read back as the last part of
    the table. *)
Lemma token_line_found token username tail :
  plain_field token = true → plain_field username = true →
  find_password
    (Py.readlines
       (Py.universal_newlines (token +:+ "," +:+ username +:+ "," +:+ tail)))
    username
  = Ok (Some token).
Proof.
  intros (Ht1 & Ht2 & Ht3)%plain_field_parts
         (Hu1 & Hu2 & Hu3)%plain_field_parts.
  rewrite fields_prefix.
  rewrite universal_newlines_plain by (by apply no_char_prefix).
  destruct (readlines_first (token +:+ "," +:+ username +:+ ",")
              (Py.universal_newlines tail)) as (l & ls & ->).
  { by apply no_char_prefix. }
  { by destruct token. }
  apply (find_password_hit _ _ _ _ (Py.split_on "," l)).
  rewrite <- fields_prefix.
  change (token +:+ "," +:+ username +:+ "," +:+ l)
    with (token +:+ String "," (username +:+ String "," l)).
  by rewrite !split_on_app.
Qed.

Lemma known_tokens_path : root_cdk +:+ "/" +:+ "known_tokens.csv" = known_tokens.
Proof. reflexivity. Qed.

Lemma get_token_run u w :
  get_token u w
  = (find_password
       (Py.readlines
          (Py.universal_newlines (default "" (files w !! known_tokens)))) u,
     w).
Proof.
  unfold get_token. rewrite get_password_run, known_tokens_path.
  by destruct (files w !! known_tokens).
Qed.

Lemma get_token_appended u w w' line :
  whole_lines (default "" (files w !! known_tokens)) = true →
  files w' !! known_tokens
  = Some (default "" (files w !! known_tokens) +:+ line) →
  fst (get_token u w')
  = match fst (get_token u w) with
    | Ok None =>
        find_password (Py.readlines (Py.universal_newlines line)) u
    | r => r
    end.
Proof.
  intros Hw Hf. rewrite !get_token_run. cbn [fst]. rewrite Hf.
  cbn [default from_option id].
  rewrite universal_newlines_app by done.
  rewrite readlines_app by (by apply universal_newlines_whole).
  set (old := Py.readlines _).
  destruct (find_password old u) as [[p|]|x] eqn:Hold.
  - rewrite find_password_app_decided; [done|]. by rewrite Hold.
  - by apply find_password_app_None.
  - rewrite find_password_app_decided; [done|]. by rewrite Hold.
Qed.

(** X4.  What [setup_tokens] adds can be read back: on a table of whole
    lines that has no record of the user yet, and for a user name and a
    token that hold no comma and no line end, [get_token] of the user
    returns, after [setup_tokens], the token that was given, or the one
    that was drawn when none was given. *)
Theorem setup_tokens_get_token e w token username user groups :
  whole_lines (default "" (files w !! known_tokens)) = true →
  fst (get_token username w) = Ok None →
  plain_field (default "" token) = true →
  plain_field username = true →
  fst (get_token username
         (snd (setup_tokens e token username user groups w)))
  = Ok (Some (chosen_password e w token)).
Proof.
  intros Hw Hnone Ht Hu.
  destruct (setup_tokens_run e token username user groups w)
    as (w' & -> & Hf & _).
  cbn [snd].
  rewrite (get_token_appended username w w'
             (token_line (chosen_password e w token) username user groups) Hw).
  2: { rewrite Hf. apply lookup_insert_eq. }
  rewrite Hnone.
  destruct (token_line_fields (chosen_password e w token) username user groups)
    as (tail & ->).
  apply token_line_found; [|done]. by apply chosen_password_plain.
Qed.

Lemma setup_tokens_get_token_witness :
  fst (get_token "system:kube-proxy"
         (snd (setup_tokens env0 None "system:kube-proxy" "kube-proxy" None
                 world_tokens)))
  = Ok (Some (draw env0 0 32)).
Proof.
  apply (setup_tokens_get_token env0 world_tokens None "system:kube-proxy"
           "kube-proxy" None); reflexivity.
Defined.

(** X5.  [setup_tokens] never replaces a token: on a table of whole
    lines, whatever [get_token] returned for a user before, a token or an
    exception, it returns after any [setup_tokens]; only a user that had
    no record can get one. *)
Theorem setup_tokens_keeps_first e w token username user groups u :
  whole_lines (default "" (files w !! known_tokens)) = true →
  fst (get_token u w) ≠ Ok None →
  fst (get_token u (snd (setup_tokens e token username user groups w)))
  = fst (get_token u w).
Proof.
  intros Hw Hsome.
  destruct (setup_tokens_run e token username user groups w)
    as (w' & -> & Hf & _).
  cbn [snd].
  rewrite (get_token_appended u w w'
             (token_line (chosen_password e w token) username user groups) Hw).
  2: { rewrite Hf. apply lookup_insert_eq. }
  by destruct (fst (get_token u w)) as [[p|]|x].
Qed.

Lemma setup_tokens_keeps_first_witness :
  fst (get_token "bob"
         (snd (setup_tokens env0 (Some "new") "bob" "bob" None world_tokens)))
  = Ok (Some "tok").
Proof.
  rewrite (setup_tokens_keeps_first env0 world_tokens (Some "new") "bob" "bob"
             None "bob"); [reflexivity|reflexivity|].
  vm_compute. discriminate.
Defined.

(** ** Tokens for the workers *)

Lemma string_length_app s t :
  String.length (s +:+ t) = (String.length s + String.length t)%nat.
Proof.
  induction s as [|c s IH]; [done|].
  rewrite append_cons. cbn [String.length]. by rewrite IH.
Qed.

Lemma token_line_length token username user groups :
  (0 < String.length (token_line token username user groups))%nat.
Proof.
  destruct (token_line_fields token username user groups) as (tail & ->).
  rewrite string_length_app.
  change ("," +:+ username +:+ "," +:+ tail)
    with (String "," (username +:+ "," +:+ tail)).
  cbn [String.length]. lia.
Qed.

Lemma setup_tokens_grows e token username user groups w :
  ∃ w',
    setup_tokens e token username user groups w = (Ok tt, w')
    ∧ (tokens_size w < tokens_size w')%nat
    ∧ flags w' = flags w ∧ restart_log w' = restart_log w.
Proof.
  destruct (setup_tokens_run e token username user groups w)
    as (w' & R & Hf & Hfl & Hrl & _).
  exists w'. split; [done|]. split; [|done].
  unfold tokens_size. rewrite Hf, lookup_insert_eq.
  cbn [default from_option id]. rewrite string_length_app.
  pose proof (token_line_length (chosen_password e w token) username user
                groups).
  lia.
Qed.

Lemma token_outcome_trans sr w b1 w1 b2 w2 :
  token_outcome sr w b1 w1 → token_outcome b1 w1 b2 w2 →
  token_outcome sr w b2 w2.
Proof.
  unfold token_outcome.
  intros [[-> ->]|(H1 & -> & Hf1 & Hr1)] [[-> ->]|(H2 & -> & Hf2 & Hr2)].
  - by left.
  - right. done.
  - right. done.
  - right. repeat split; [lia|congruence..].
Qed.

Lemma add_token_outcome e username user groups sr tok w t b w' :
  add_token e username user groups sr tok w = (Ok (t, b), w') →
  token_outcome sr w b w'.
Proof.
  unfold add_token.
  destruct (negb (Py.truthy_opt tok)).
  - unfold bind at 1.
    destruct (setup_tokens_grows e None username user groups w)
      as (w1 & -> & Hs & Hfl & Hrl).
    unfold bind. rewrite get_token_run.
    destruct (find_password _ username) as [tok'|x]; [|done].
    intros [= _ <- <-]. by right.
  - intros [= _ <- <-]. by left.
Qed.

Lemma add_token_frame e username user groups sr tok w r w' :
  add_token e username user groups sr tok w = (r, w') →
  flags w' = flags w ∧ restart_log w' = restart_log w.
Proof.
  unfold add_token.
  destruct (negb (Py.truthy_opt tok)); [|by intros [= _ <-]].
  unfold bind at 1.
  destruct (setup_tokens_grows e None username user groups w)
    as (w1 & -> & Hs & Hfl & Hrl).
  unfold bind. rewrite get_token_run.
  by destruct (find_password _ username) as [tok'|x]; intros [= _ <-].
Qed.

(** One turn of the loop, with the step named. *)
Lemma sign_requests_cons e request rest p c sr :
  sign_requests e (request :: rest) p c sr
  = if negb (Py.truthy_opt (request_user request))
       || negb (Py.truthy_opt (request_group request))
    then sign_requests e rest p c sr
    else
      let username := default "" (request_user request) in
      kubelet_token <- get_token username ;;
      signed <-
        (if negb (Py.truthy_opt kubelet_token) then
           unit_number <-
             lift (index (Py.split_on "/" (request_unit request)) 1) ;;
           setup_tokens e None username ("kubelet-" +:+ unit_number)
             (request_group request) ;;;
           kubelet_token <- get_token username ;;
           ret (kubelet_token, true)
         else ret (kubelet_token, sr)) ;;
      others <- sign_requests e rest p c (snd signed) ;;
      ret (fst others,
           {| reply_unit := request_unit request;
              reply_user := username;
              reply_kubelet_token := fst signed;
              reply_proxy_token := p;
              reply_client_token := c |} :: snd others).
Proof. reflexivity. Qed.

Lemma sign_requests_outcome e requests p c :
  ∀ sr w b l w',
    sign_requests e requests p c sr w = (Ok (b, l), w') →
    token_outcome sr w b w'.
Proof.
  induction requests as [|request rest IH]; intros sr w b l w'.
  { intros [= <- _ <-]. by left. }
  rewrite sign_requests_cons.
  destruct (negb _ || negb _); [apply IH|].
  cbv zeta. unfold bind at 1. rewrite get_token_run.
  destruct (find_password _ _) as [tok|x]; [|done].
  destruct (negb (Py.truthy_opt tok)).
  - unfold bind at 1. unfold bind at 1. unfold lift at 1.
    destruct (index _ 1) as [n|x]; [|done].
    unfold bind at 1.
    destruct (setup_tokens_grows e None (default "" (request_user request))
                ("kubelet-" +:+ n) (request_group request) w)
      as (w1 & -> & Hs & Hfl & Hrl).
    unfold bind at 1. rewrite get_token_run.
    destruct (find_password _ _) as [tok'|x]; [|done].
    unfold ret at 1. cbn [fst snd]. unfold bind.
    destruct (sign_requests e rest p c true w1) as [[[b' l']|x] w2] eqn:Hrest;
      [|done].
    intros [= <- _ <-]. cbn [fst].
    apply (token_outcome_trans sr w true w1); [by right|].
    by apply (IH true w1 b' l' w2).
  - unfold bind at 1, ret at 1. cbn [fst snd]. unfold bind.
    destruct (sign_requests e rest p c sr w) as [[[b' l']|x] w2] eqn:Hrest;
      [|done].
    intros [= <- _ <-]. cbn [fst]. by apply (IH sr w b' l' w2).
Qed.

Lemma sign_requests_frame e requests p c :
  ∀ sr w r w',
    sign_requests e requests p c sr w = (r, w') →
    flags w' = flags w ∧ restart_log w' = restart_log w.
Proof.
  induction requests as [|request rest IH]; intros sr w r w'.
  { by intros [= _ <-]. }
  rewrite sign_requests_cons.
  destruct (negb _ || negb _); [apply IH|].
  cbv zeta. unfold bind at 1. rewrite get_token_run.
  destruct (find_password _ _) as [tok|x]; [|by intros [= _ <-]].
  destruct (negb (Py.truthy_opt tok)).
  - unfold bind at 1. unfold bind at 1. unfold lift at 1.
    destruct (index _ 1) as [n|x]; [|by intros [= _ <-]].
    unfold bind at 1.
    destruct (setup_tokens_grows e None (default "" (request_user request))
                ("kubelet-" +:+ n) (request_group request) w)
      as (w1 & -> & Hs & Hfl & Hrl).
    unfold bind at 1. rewrite get_token_run.
    destruct (find_password _ _) as [tok'|x];
      [|intros [= _ <-]; split; congruence].
    unfold ret at 1. cbn [fst snd]. unfold bind.
    destruct (sign_requests e rest p c true w1) as [[[b' l']|x] w2] eqn:Hrest;
      intros [= _ <-]; destruct (IH _ _ _ _ Hrest); split; congruence.
  - unfold bind at 1, ret at 1. cbn [fst snd]. unfold bind.
    destruct (sign_requests e rest p c sr w) as [[[b' l']|x] w2] eqn:Hrest;
      intros [= _ <-]; by destruct (IH _ _ _ _ Hrest).
Qed.

Lemma create_service_configs_unfold e requests :
  create_service_configs e requests
  = (proxy_token <- get_token "system:kube-proxy" ;;
     proxy <- add_token e "system:kube-proxy" "kube-proxy" None false
                proxy_token ;;
     client_token <- get_token "admin" ;;
     client <- add_token e "admin" "admin" (Some "system:masters")
                 (snd proxy) client_token ;;
     signed <- sign_requests e requests (fst proxy) (fst client)
                 (snd client) ;;
     (if fst signed then
        service_restart apiserver_daemon ;;;
        remove_state auth_flag
      else ret tt) ;;;
     ret (snd signed)).
Proof. reflexivity. Qed.

(** X6.  [create_service_configs] restarts the API server exactly when
    it has added a token: a run that completes either leaves files,
    flags and restarts as they were, or it has made the token table
    longer, restarted [kube-apiserver] once and cleared
    [authentication.setup]; a run that raises has restarted nothing and
    changed no flag, whatever it had written before. *)
Theorem create_service_configs_restart e requests w :
  match create_service_configs e requests w with
  | (Ok _, w') =>
      (files w' = files w ∧ restart_log w' = restart_log w
       ∧ flags w' = flags w)
      ∨ ((tokens_size w < tokens_size w')%nat
         ∧ restart_log w' = restart_log w ++ [apiserver_daemon]
         ∧ flags w' = flags w ∖ {[auth_flag]})
  | (Raise _, w') => restart_log w' = restart_log w ∧ flags w' = flags w
  end.
Proof.
  rewrite create_service_configs_unfold.
  unfold bind at 1. rewrite get_token_run.
  destruct (find_password _ _) as [tok1|x]; [|done].
  unfold bind at 1.
  destruct (add_token e "system:kube-proxy" "kube-proxy" None false tok1 w)
    as [[[pt b1]|x] w1] eqn:E1; cbn [snd fst].
  2: { by apply add_token_frame in E1 as [? ?]. }
  apply add_token_frame in E1 as F1. destruct F1 as [Hf1 Hr1].
  apply add_token_outcome in E1.
  unfold bind at 1. rewrite get_token_run.
  destruct (find_password _ _) as [tok2|x]; [|done].
  unfold bind at 1.
  destruct (add_token e "admin" "admin" (Some "system:masters") b1 tok2 w1)
    as [[[ct b2]|x] w2] eqn:E2; cbn [snd fst].
  2: { apply add_token_frame in E2 as [? ?]. split; congruence. }
  apply add_token_frame in E2 as F2. destruct F2 as [Hf2 Hr2].
  apply add_token_outcome in E2.
  unfold bind at 1.
  destruct (sign_requests e requests pt ct b2 w2)
    as [[[b3 l]|x] w3] eqn:E3; cbn [snd fst].
  2: { apply sign_requests_frame in E3 as [? ?]. split; congruence. }
  apply sign_requests_outcome in E3.
  pose proof (token_outcome_trans _ _ _ _ _ _
                (token_outcome_trans _ _ _ _ _ _ E1 E2) E3) as Hall.
  destruct Hall as [[-> ->]|(Hs & -> & Hfl & Hrl)].
  - left. done.
  - right. cbn. rewrite Hfl, Hrl. done.
Qed.

Lemma has_token_run w u :
  has_token w u →
  ∃ t, get_token u w = (Ok (Some t), w)
       ∧ negb (Py.truthy_opt (Some t)) = false
       ∧ token_of w u = Some t.
Proof.
  intros (t & Ht & Hne). exists t. unfold token_of. rewrite Ht.
  rewrite get_token_run in Ht |- *. cbn [fst] in Ht. rewrite Ht.
  split; [done|]. split; [|done].
  cbn. unfold Py.truthy. apply str_eqb_neq in Hne. by rewrite Hne.
Qed.

Lemma sign_requests_steady e requests p c sr w :
  Forall (fun request =>
            request_valid request = true →
            has_token w (default "" (request_user request))) requests →
  sign_requests e requests p c sr w
  = (Ok (sr,
         map (fun request =>
                {| reply_unit := request_unit request;
                   reply_user := default "" (request_user request);
                   reply_kubelet_token :=
                     token_of w (default "" (request_user request));
                   reply_proxy_token := p;
                   reply_client_token := c |})
             (List.filter request_valid requests)), w).
Proof.
  induction 1 as [|request rest Hreq _ IH]; [done|].
  rewrite sign_requests_cons. cbn [List.filter]. unfold request_valid in *.
  rewrite <- negb_andb.
  destruct (Py.truthy_opt (request_user request)
            && Py.truthy_opt (request_group request)); cbn [negb]; [|done].
  destruct (has_token_run _ _ (Hreq eq_refl)) as (t & Hrun & Ht & Htok).
  cbv zeta. unfold bind at 1. rewrite Hrun, Ht.
  unfold bind at 1, ret at 1. cbn [fst snd]. unfold bind. rewrite IH.
  unfold ret. cbn [fst snd map]. by rewrite Htok.
Qed.

(** X7.  When the proxy, the administrator and the user of every
    request that names a user and a group have a token in the table,
    [create_service_configs] changes nothing at all, restarts nothing,
    and signs exactly those requests, in their order, each with the
    token of its user and the tokens of the proxy and the
    administrator; requests without a user or a group get no reply. *)
Theorem create_service_configs_steady e requests w :
  has_token w "system:kube-proxy" → has_token w "admin" →
  Forall (fun request =>
            request_valid request = true →
            has_token w (default "" (request_user request))) requests →
  create_service_configs e requests w
  = (Ok (map (reply_of w) (List.filter request_valid requests)), w).
Proof.
  intros Hp Ha Hreqs. rewrite create_service_configs_unfold.
  destruct (has_token_run _ _ Hp) as (pt & Hprun & Hpt & Hptok).
  destruct (has_token_run _ _ Ha) as (ct & Harun & Hct & Hctok).
  unfold bind at 1. rewrite Hprun.
  unfold bind at 1, add_token at 1. rewrite Hpt. unfold ret at 1.
  cbn [fst snd].
  unfold bind at 1. rewrite Harun.
  unfold bind at 1, add_token at 1. rewrite Hct. unfold ret at 1.
  cbn [fst snd].
  unfold bind at 1. rewrite (sign_requests_steady _ _ _ _ _ _ Hreqs).
  cbn [fst snd]. unfold bind, ret. unfold reply_of.
  by rewrite Hptok, Hctok.
Qed.

Lemma create_service_configs_steady_witness :
  create_service_configs env0
    [request_w0; {| request_unit := "kubernetes-worker/1";
                    request_user := None; request_group := None |}]
    world_tokens_all
  = (Ok [{| reply_unit := "kubernetes-worker/0";
            reply_user := "system:node:w0";
            reply_kubelet_token := Some "t3";
            reply_proxy_token := Some "t1";
            reply_client_token := Some "t2" |}], world_tokens_all).
Proof.
  rewrite (create_service_configs_steady env0 _ world_tokens_all).
  - reflexivity.
  - exists "t1". split; [reflexivity|done].
  - exists "t2". split; [reflexivity|done].
  - repeat constructor.
    + intros _. exists "t3". split; [reflexivity|done].
    + intros H. vm_compute in H. discriminate.
Defined.

(** ** The frozen service CIDR *)

Lemma freeze_service_cidr_run e w c :
  service_cidr e w = Some c →
  freeze_service_cidr e w
  = (Ok tt, set_kv (<[service_cidr_key := c]> (kv w)) w).
Proof. intros H. unfold freeze_service_cidr, modify. by rewrite H. Qed.

Lemma service_cidr_kv e w c :
  kv w !! service_cidr_key = Some c → c ≠ "" → service_cidr e w = Some c.
Proof.
  intros Hk Hc. unfold service_cidr. rewrite Hk.
  unfold Py.truthy. apply str_eqb_neq in Hc. by rewrite Hc.
Qed.

(** X8.  Once [freeze_service_cidr] has run on a unit whose service CIDR
    is a non-empty text, the configuration no longer decides: whatever
    the operator sets [service-cidr] to afterwards, [service_cidr]
    returns the frozen value, and the service address and the DNS
    address derived from it stay what they were. *)
Theorem freeze_service_cidr_sticky e e' w c :
  service_cidr e w = Some c → c ≠ "" →
  fst (freeze_service_cidr e w) = Ok tt
  ∧ service_cidr e' (snd (freeze_service_cidr e w)) = Some c
  ∧ get_kubernetes_service_ip e' (snd (freeze_service_cidr e w))
    = get_kubernetes_service_ip e w
  ∧ get_deprecated_dns_ip e' (snd (freeze_service_cidr e w))
    = get_deprecated_dns_ip e w.
Proof.
  intros Hc Hne. rewrite (freeze_service_cidr_run e w c Hc). cbn [fst snd].
  assert (Hs : service_cidr e'
                 (set_kv (<[service_cidr_key := c]> (kv w)) w) = Some c).
  { apply service_cidr_kv; [|done]. cbn [kv set_kv]. apply lookup_insert_eq. }
  split; [done|]. split; [done|].
  unfold get_kubernetes_service_ip, get_deprecated_dns_ip, service_interface.
  by rewrite Hs, Hc.
Qed.

Lemma freeze_service_cidr_sticky_witness :
  get_kubernetes_service_ip (env_cidr "10.2.0.0/16")
    (snd (freeze_service_cidr (env_cidr "10.1.0.0/16") world0))
  = Ok "10.1.0.1".
Proof.
  destruct (freeze_service_cidr_sticky (env_cidr "10.1.0.0/16")
              (env_cidr "10.2.0.0/16") world0 "10.1.0.0/16")
    as (_ & _ & -> & _).
  - reflexivity.
  - done.
  - vm_compute. reflexivity.
Defined.

(** ** What a reported status tells *)

(** The rule that decided: when [run_rules] returns, either a rule
    matched and all rules before it did not, or no rule matched. *)
Lemma run_rules_decided rules e :
  Forall (leader_blind e) rules →
  ∀ w w1 w',
    same_but_leadership w w1 →
    run_rules rules e w1 = (Ok tt, w') →
    (∃ i r, rules !! i = Some r ∧ cond r e w = Ok true
            ∧ ∀ k r', (k < i)%nat → rules !! k = Some r' →
                      cond r' e w = Ok false)
    ∨ (∀ k r', rules !! k = Some r' → cond r' e w = Ok false).
Proof.
  intros Hblind. induction Hblind as [|r0 rules H0 _ IH];
    intros w w1 w' Hs Hrun.
  { right. intros k r'. by rewrite lookup_nil. }
  cbn [run_rules] in Hrun.
  destruct (H0 w w1 Hs) as (Hc0 & _ & He0). rewrite Hc0 in Hrun.
  destruct (cond r0 e w) as [[|]|x] eqn:Hc; [| |done].
  - left. exists 0%nat, r0. split; [done|]. split; [done|]. intros; lia.
  - destruct (IH _ _ _ He0 Hrun) as [(i & r & Hi & Hci & Hbefore)|Hnone].
    + left. exists (S i), r. split; [done|]. split; [done|].
      intros [|k] r' Hk Hr'.
      * by injection Hr' as <-.
      * apply (Hbefore k); [lia|done].
    + right. intros [|k] r' Hr'.
      * by injection Hr' as <-.
      * by apply (Hnone k).
Qed.

Lemma set_final_status_decided e w w' :
  set_final_status e w = (Ok tt, w') →
  ∃ i r,
    status_rules !! i = Some r ∧ cond r e w = Ok true
    ∧ (∀ k r', (k < i)%nat → status_rules !! k = Some r' →
               cond r' e w = Ok false)
    ∧ w' = set_status_log (status_log w ++ [report r e w])
             (after_rules status_rules i e w).
Proof.
  intros Hrun. pose proof Hrun as Hrun'.
  rewrite set_final_status_refines in Hrun'.
  destruct (run_rules_decided _ _ (status_rules_blind e) _ _ _
              (same_refl w) Hrun')
    as [(i & r & Hi & Hc & Hbefore)|Hnone].
  - exists i, r. split; [done|]. split; [done|]. split; [done|].
    rewrite (status_rule_decides e w i r Hi Hc Hbefore) in Hrun.
    by injection Hrun as <-.
  - by specialize (Hnone 19%nat _ eq_refl).
Qed.

Lemma reported_rule e w i r w' status :
  w' = set_status_log (status_log w ++ [report r e w])
         (after_rules status_rules i e w) →
  reported w w' status → report r e w = status.
Proof.
  intros -> Hrep. unfold reported in Hrep. cbn [status_log set_status_log] in Hrep.
  by apply app_inj_tail in Hrep as [_ ->].
Qed.

Ltac not_active H :=
  cbn [report] in H;
  try (unfold relation_missing_status in H;
       destruct (in_goal_state _ _));
  try match type of H with
      | context [if ?b then _ else _] => destruct b
      end;
  discriminate.

(** Only the rules from the service CIDR warning on report [active]. *)
Lemma active_rule_index e w i r message :
  status_rules !! i = Some r → report r e w = ("active", message) →
  (16 <= i)%nat.
Proof.
  intros Hi Hr.
  do 16 (destruct i as [|i]; [injection Hi as <-; not_active Hr|]). lia.
Qed.

(** X9.  An [active] status is never reported on a unit that is not up:
    when [set_final_status] reports [active], with whatever message, the
    components are started, none of the four services is down, both
    relations are there, no cloud integration is pending, the DNS
    provider is a valid one, and no kube-system pod is reported as not
    running. *)
Theorem active_status_sound e w w' message :
  set_final_status e w = (Ok tt, w') →
  reported w w' ("active", message) →
  started_flag ∈ flags w
  ∧ master_services_down e = []
  ∧ "kube-api-endpoint.available" ∈ flags w
  ∧ "kube-control.connected" ∈ flags w
  ∧ ("kubernetes-master.cloud.pending" ∉ flags w)
  ∧ (∃ raw, config e !! "dns-provider" = Some raw
            ∧ str_lower e raw ∈ valid_dns_providers e)
  ∧ unready_pods e = [].
Proof.
  intros Hrun Hrep.
  destruct (set_final_status_decided e w w' Hrun)
    as (i & r & Hi & Hc & Hbefore & Hw').
  pose proof (reported_rule e w i r w' _ Hw' Hrep) as Hr.
  pose proof (active_rule_index e w i r message Hi Hr) as Hge.
  pose proof (Hbefore 4%nat _ ltac:(lia) eq_refl) as H4.
  pose proof (Hbefore 5%nat _ ltac:(lia) eq_refl) as H5.
  pose proof (Hbefore 6%nat _ ltac:(lia) eq_refl) as H6.
  pose proof (Hbefore 9%nat _ ltac:(lia) eq_refl) as H9.
  pose proof (Hbefore 10%nat _ ltac:(lia) eq_refl) as H10.
  pose proof (Hbefore 11%nat _ ltac:(lia) eq_refl) as H11.
  pose proof (Hbefore 15%nat _ ltac:(lia) eq_refl) as H15.
  cbn [cond] in H4, H5, H6, H9, H10, H11, H15. unfold flag in *.
  injection H4 as H4. injection H5 as H5. injection H6 as H6.
  injection H10 as H10. injection H11 as H11. injection H15 as H15.
  apply negb_false_iff, bool_decide_eq_true in H5, H6, H11, H15.
  apply bool_decide_eq_false in H4.
  rewrite bool_decide_eq_true_2 in H10 by done. cbn [andb] in H10.
  apply negb_false_iff, bool_decide_eq_true in H10.
  repeat split; try done.
  rewrite dns_rule_cond_config in H9.
  destruct (config e !! "dns-provider") as [raw|]; [|done].
  exists raw. split; [done|]. injection H9 as H9.
  by apply negb_false_iff, bool_decide_eq_true in H9.
Qed.

Lemma active_status_sound_witness :
  started_flag ∈ flags world_started
  ∧ master_services_down (env_running "10.152.183.0/24") = [].
Proof.
  destruct (active_status_sound (env_running "10.152.183.0/24") world_started
              (snd (set_final_status (env_running "10.152.183.0/24")
                      world_started))
              "Kubernetes master running.") as (H1 & H2 & _).
  - reflexivity.
  - reflexivity.
  - split; assumption.
Defined.

(** Where the evaluation of a table ends: in the state that some of the
    rules leave, with or without a status added. *)
Lemma run_rules_world (rules : list Rule) e w :
  ∃ j, snd (run_rules rules e w) = after_rules rules j e w
       ∨ ∃ status,
           snd (run_rules rules e w)
           = set_status_log
               (status_log (after_rules rules j e w) ++ [status])
               (after_rules rules j e w).
Proof.
  revert w. induction rules as [|r rules IH]; intros w.
  { exists 0%nat. by left. }
  cbn [run_rules]. destruct (cond r e w) as [[|]|x].
  - exists 0%nat. right. by eexists.
  - destruct (IH (effect r e w)) as (j & Hj). by exists (S j).
  - exists 1%nat. by left.
Qed.

(** On a unit that is not the leader no rule leaves a trace. *)
Lemma after_rules_follower j e w :
  leader_flag ∉ flags w → after_rules status_rules j e w = w.
Proof.
  intros Hl. unfold after_rules.
  assert (Hq : Forall (fun r => effect r e w = w) status_rules).
  { unfold status_rules.
    repeat (apply Forall_cons; split; [try reflexivity|]);
      try apply Forall_nil; try exact I.
    cbn [effect].
    destruct (get_dns_provider_cases e w) as [->|[->|(p & ->)]];
      [done..|].
    by rewrite bool_decide_eq_false_2. }
  assert (Ht : Forall (fun r => effect r e w = w) (take j status_rules))
    by by apply Forall_take.
  induction Ht as [|r rs Hr _ IH]; [done|].
  cbn [foldl]. by rewrite Hr.
Qed.



(** ** Upgrades *)

Lemma mem_union_ne f u (F : gset string) :
  f ≠ u → bool_decide (f ∈ {[u]} ∪ F) = bool_decide (f ∈ F).
Proof.
  intros Hne. apply bool_decide_ext.
  rewrite elem_of_union, elem_of_singleton. split; [by intros [?|?]|by right].
Qed.

Lemma mem_union_eq u (F : gset string) : bool_decide (u ∈ {[u]} ∪ F) = true.
Proof.
  apply bool_decide_eq_true, elem_of_union. left. by apply elem_of_singleton.
Qed.

Lemma mem_difference_ne f u (F : gset string) :
  f ≠ u → bool_decide (f ∈ F ∖ {[u]}) = bool_decide (f ∈ F).
Proof.
  intros Hne. apply bool_decide_ext.
  rewrite elem_of_difference, elem_of_singleton. split; [by intros [? ?]|done].
Qed.

Lemma mem_difference_eq u (F : gset string) :
  bool_decide (u ∈ F ∖ {[u]}) = false.
Proof.
  apply bool_decide_eq_false.
  rewrite elem_of_difference, elem_of_singleton. by intros [? ?].
Qed.

Lemma flag_union_ne f u F w :
  f ≠ u → flag f (set_flags ({[u]} ∪ F) w) = bool_decide (f ∈ F).
Proof. intros Hne. unfold flag. cbn [flags set_flags]. by apply mem_union_ne. Qed.

Lemma flag_union_eq u F w : flag u (set_flags ({[u]} ∪ F) w) = true.
Proof. unfold flag. cbn [flags set_flags]. apply mem_union_eq. Qed.

(** X11.  A change of channel blocks the unit until the operator runs
    the upgrade action: when the channel had a value before, manual
    upgrades are required, the upgrade is not forced and none was
    specified yet, then after [set_upgrade_needed] the final status is
    [blocked] with the request to run the upgrade action, provided none
    of the eight rules that rank higher matches. *)
Theorem manual_upgrade_blocks e previous w :
  is_Some previous →
  config_bool e !! "require-manual-upgrade" = Some true →
  "kubernetes-master.upgrade-specified" ∉ flags w →
  (∀ k r', (k < 8)%nat → status_rules !! k = Some r' →
           cond r' e w = Ok false) →
  ∃ w1 w2,
    set_upgrade_needed e previous false w = (Ok tt, w1)
    ∧ set_final_status e w1 = (Ok tt, w2)
    ∧ reported w w2
        ("blocked", "Needs manual upgrade, run the upgrade action").
Proof.
  intros [c ->] Hman Hspec Hquiet.
  unfold set_upgrade_needed. rewrite Hman. cbn [default from_option id negb orb].
  rewrite bool_decide_eq_false_2 by done. cbn [orb].
  unfold bind, set_state, modify, ret.
  eexists _, _. split; [reflexivity|].
  set (w1 := set_flags _ w).
  assert (Hr : set_final_status e w1
               = (Ok tt,
                  set_status_log
                    (status_log w1
                     ++ [("blocked",
                          "Needs manual upgrade, run the upgrade action")])
                    (after_rules status_rules 8 e w1))).
  { apply (status_rule_decides e w1 8
             {| rule_name := "manual upgrade required";
                cond := fun e w =>
                  Ok (flag "kubernetes-master.upgrade-needed" w
                      && negb (flag "kubernetes-master.upgrade-specified" w));
                report := fun e w => ("blocked",
                  "Needs manual upgrade, run the upgrade action");
                effect := no_effect |}).
    - reflexivity.
    - cbn [cond]. unfold w1. rewrite flag_union_eq, flag_union_ne by done.
      by rewrite bool_decide_eq_false_2.
    - intros k r' Hk Hr'. specialize (Hquiet k r' Hk Hr').
      do 8 (destruct k as [|k];
            [injection Hr' as <-; cbn [cond] in *; unfold w1;
             rewrite ?flag_union_ne by done; exact Hquiet|]).
      lia. }
  split; [exact Hr|]. unfold reported. reflexivity.
Qed.

Lemma manual_upgrade_blocks_witness :
  ∃ w2,
    reported
      (world_flags {[ "kube-api-endpoint.available"; "kube-control.connected" ]})
      w2 ("blocked", "Needs manual upgrade, run the upgrade action").
Proof.
  destruct (manual_upgrade_blocks
              (with_config_bool {[ "require-manual-upgrade" := true ]} env0)
              (Some "1.14/stable")
              (world_flags {[ "kube-api-endpoint.available";
                              "kube-control.connected" ]}))
    as (w1 & w2 & _ & _ & Hrep).
  - by eexists.
  - reflexivity.
  - vm_compute. apply (bool_decide_eq_false_1 (_ ∈ _)). reflexivity.
  - intros k r' Hk Hr'.
    do 8 (destruct k as [|k]; [injection Hr' as <-; reflexivity|]). lia.
  - by exists w2.
Defined.

(** ** Cloud integration *)

Lemma tuple_lt_1_11_12 v :
  Py.tuple_lt v [1; 11] = true → Py.tuple_lt v [1; 12] = true.
Proof.
  destruct v as [|x [|y [|z v]]]; cbn [Py.tuple_lt]; try done;
    destruct (x <? 1), (x =? 1); cbn [andb orb]; try done;
    rewrite ?andb_false_r, ?orb_false_r; intros H%Z.ltb_lt;
    apply Z.ltb_lt; lia.
Qed.

(** X12.  After [set_cloud_pending] the final status tells what the
    unit waits for, and it tells it truthfully: when neither of the two
    encryption rules matches, the status is the vSphere version
    requirement exactly when the vSphere endpoint is joined and the API
    server is older than 1.12, else the Azure version requirement
    exactly when the Azure endpoint is joined and the API server is
    older than 1.11, and else [waiting] for the cloud integration. *)
Theorem cloud_pending_status e w :
  "kubernetes-master.secure-storage.failed" ∉ flags w →
  ("kubernetes-master.secure-storage.created" ∈ flags w →
   encryption_config_exists e = true) →
  ∃ w1 w2,
    set_cloud_pending e w = (Ok tt, w1)
    ∧ set_final_status e w1 = (Ok tt, w2)
    ∧ reported w w2
        (if bool_decide ("endpoint.vsphere.joined" ∈ flags w)
            && Py.tuple_lt (kube_apiserver_version e) [1; 12]
         then ("blocked", "vSphere integration requires K8s 1.12 or greater")
         else if bool_decide ("endpoint.azure.joined" ∈ flags w)
                 && Py.tuple_lt (kube_apiserver_version e) [1; 11]
         then ("blocked", "Azure integration requires K8s 1.11 or greater")
         else ("waiting", "Waiting for cloud integration")).
Proof.
  intros Hfail Hcreated.
  assert (Hc : bool_decide ("kubernetes-master.secure-storage.created" ∈ flags w)
               && negb (encryption_config_exists e) = false).
  { destruct (bool_decide _) eqn:Hb; [|done].
    apply bool_decide_eq_true in Hb. by rewrite (Hcreated Hb). }
  pose proof (tuple_lt_1_11_12 (kube_apiserver_version e)) as Hmono.
  unfold set_cloud_pending. cbv zeta. unfold Py.tuple_ge.
  rewrite !negb_involutive.
  unfold bind, is_state, gets, set_state, remove_state, modify.
  destruct (bool_decide ("endpoint.vsphere.joined" ∈ flags w)) eqn:HV;
    destruct (bool_decide ("endpoint.azure.joined" ∈ flags w)) eqn:HA;
    destruct (Py.tuple_lt (kube_apiserver_version e) [1; 12]) eqn:H12;
    destruct (Py.tuple_lt (kube_apiserver_version e) [1; 11]) eqn:H11;
    try (by specialize (Hmono eq_refl));
    cbn [andb orb];
    (eexists _, _; split; [reflexivity|];
     rewrite set_final_status_refines; unfold status_rules;
     cbn [run_rules cond effect report fst snd]; unfold flag, no_effect;
     cbn [flags set_flags];
     rewrite ?mem_union_eq, ?mem_difference_eq,
       ?mem_union_ne, ?mem_difference_ne by done;
     rewrite ?mem_union_eq, ?mem_difference_eq,
       ?mem_union_ne, ?mem_difference_ne by done;
     rewrite (bool_decide_eq_false_2 _ Hfail), Hc, ?HV, ?HA;
     cbn [andb orb]; split; reflexivity).
Qed.

Lemma cloud_pending_status_witness :
  ∃ w2,
    reported (world_flags {[ "endpoint.vsphere.joined" ]}) w2
      ("blocked", "vSphere integration requires K8s 1.12 or greater").
Proof.
  destruct (cloud_pending_status (with_version [1; 11; 3] env0)
              (world_flags {[ "endpoint.vsphere.joined" ]}))
    as (w1 & w2 & _ & _ & Hrep).
  - apply (bool_decide_eq_false_1 (_ ∈ _)). reflexivity.
  - intros _. reflexivity.
  - exists w2. exact Hrep.
Defined.

(** ** The DNS provider that was chosen *)

Lemma auto_valid e : "auto" ∈ valid_dns_providers e.
Proof.
  unfold valid_dns_providers.
  destruct (Py.tuple_lt _ _); apply (bool_decide_eq_true_1 (_ ∈ _));
    reflexivity.
Qed.

Lemma valid_nonempty e p : p ∈ valid_dns_providers e → p ≠ "".
Proof.
  unfold valid_dns_providers. intros Hp ->.
  destruct (Py.tuple_lt _ _);
    by apply (bool_decide_eq_false_1 (_ ∈ _)) in Hp.
Qed.

Lemma union_singleton_id (k v : string) (m : gmap string string) :
  m !! k = Some v → {[k := v]} ∪ m = m.
Proof.
  intros H. rewrite <- insert_union_singleton_l. by apply insert_id.
Qed.

(** What a call that returns has done: the provider is not the empty
    text; a leader has published it, a follower has changed nothing. *)
Lemma get_dns_provider_returns e w p w' :
  get_dns_provider e w = (Ok p, w') →
  p ≠ ""
  ∧ w' = (if bool_decide (leader_flag ∈ flags w)
          then snd (leader_set {[ "auto_dns_provider" := p ]} w)
          else w).
Proof.
  unfold get_dns_provider.
  destruct (config e !! "dns-provider") as [raw|]; [|done].
  destruct (bool_decide (str_lower e raw ∈ valid_dns_providers e)) eqn:Hv;
    cbn [negb]; [|done].
  apply bool_decide_eq_true in Hv.
  unfold bind at 1.
  set (choose := if Py.str_eqb (str_lower e raw) "auto" then _ else _).
  assert (∃ q, choose w = (Ok q, w) ∧ q ≠ "") as (q & Hch & Hq).
  { unfold choose. destruct (Py.str_eqb (str_lower e raw) "auto").
    - unfold bind, leader_get, gets.
      destruct (leader_data w !! "auto_dns_provider") as [a|]; cbn.
      + unfold Py.truthy. destruct (Py.str_eqb a "") eqn:Ha; cbn.
        * eexists. split; [reflexivity|]. by destruct (bool_decide _).
        * eexists. split; [reflexivity|]. by apply str_eqb_neq in Ha.
      + eexists. split; [reflexivity|]. by destruct (bool_decide _).
    - eexists. split; [reflexivity|]. by apply (valid_nonempty e). }
  rewrite Hch. clearbody choose.
  unfold bind, is_state, gets.
  destruct (bool_decide (leader_flag ∈ flags w)).
  - unfold leader_set, modify, ret. by intros [= <- <-].
  - unfold ret. by intros [= <- <-].
Qed.

(** X13.  The DNS provider is chosen once: after a call of
    [get_dns_provider] on the leader has returned a provider, every later
    call under [dns-provider=auto] returns that provider, whatever the
    version of the API server has become and even when the provider was
    an explicit setting that the operator has since replaced by [auto];
    the later call publishes nothing new. *)
Theorem dns_provider_sticky e e' w p w' raw :
  leader_flag ∈ flags w →
  get_dns_provider e w = (Ok p, w') →
  config e' !! "dns-provider" = Some raw → str_lower e' raw = "auto" →
  ∃ w'',
    get_dns_provider e' w' = (Ok p, w'')
    ∧ leader_data w'' = leader_data w'
    ∧ leader_data w' !! "auto_dns_provider" = Some p.
Proof.
  intros Hl Hrun Hraw Hauto.
  destruct (get_dns_provider_returns e w p w' Hrun) as (Hp & ->).
  rewrite bool_decide_eq_true_2 by done.
  rewrite leader_set_dns.
  set (w1 := set_kv _ _).
  assert (Hget : leader_data w1 !! "auto_dns_provider" = Some p).
  { unfold w1. cbn [leader_data set_kv set_flags set_leader].
    apply lookup_union_Some_l, lookup_singleton_eq. }
  assert (Hl1 : leader_flag ∈ flags w1).
  { unfold w1. cbn [flags set_kv set_flags].
    by apply leadership_flags_mono. }
  unfold get_dns_provider. cbv zeta. rewrite Hraw, Hauto.
  rewrite bool_decide_eq_true_2 by apply auto_valid. cbn [negb].
  rewrite str_eqb_refl.
  unfold bind, leader_get, is_state, gets. rewrite Hget.
  cbn [Py.truthy_opt]. unfold Py.truthy.
  apply str_eqb_neq in Hp. rewrite Hp. cbn [negb default from_option id].
  unfold ret. rewrite (bool_decide_eq_true_2 _ Hl1).
  unfold leader_set, modify. eexists. split; [reflexivity|].
  cbn [leader_data set_kv set_flags set_leader]. split; [|done].
  by apply union_singleton_id.
Qed.

Lemma dns_provider_sticky_witness :
  ∃ w' w'',
    get_dns_provider (env_dns "auto") world_started = (Ok "core-dns", w')
    ∧ get_dns_provider (with_version [1; 13; 0] (env_dns "AUTO")) w'
      = (Ok "core-dns", w'').
Proof.
  destruct (dns_provider_sticky (env_dns "auto")
              (with_version [1; 13; 0] (env_dns "AUTO")) world_started
              "core-dns" (snd (get_dns_provider (env_dns "auto") world_started))
              "AUTO") as (w'' & Hrun & _).
  - apply (bool_decide_eq_true_1 (_ ∈ _)). reflexivity.
  - reflexivity.
  - reflexivity.
  - reflexivity.
  - exists (snd (get_dns_provider (env_dns "auto") world_started)), w''.
    split; [reflexivity|exact Hrun].
Defined.

(** X14.  A follower never writes to the leadership channel when it
    looks the DNS provider up, and a leader publishes exactly the
    provider it returns: a call that returns on a unit that is not the
    leader leaves the unit as it was, and on the leader it makes one
    [leader_set] call, of [auto_dns_provider] alone, with the returned
    value, and changes the unit in no other way than that call does; a
    call that raises changes nothing on either. *)
Theorem get_dns_provider_publishes e w :
  match get_dns_provider e w with
  | (Ok p, w') =>
      if bool_decide (leader_flag ∈ flags w) then
        w' = snd (leader_set {[ "auto_dns_provider" := p ]} w)
        ∧ leader_log w' = leader_log w ++ [{[ "auto_dns_provider" := p ]}]
        ∧ leader_data w' !! "auto_dns_provider" = Some p
        ∧ (∀ k, k ≠ "auto_dns_provider" →
                leader_data w' !! k = leader_data w !! k)
      else w' = w
  | (Raise _, w') => w' = w
  end.
Proof.
  destruct (get_dns_provider e w) as [[p|x] w'] eqn:Hrun.
  - destruct (get_dns_provider_returns e w p w' Hrun) as (_ & ->).
    destruct (bool_decide (leader_flag ∈ flags w)); [|done].
    split; [done|]. rewrite leader_set_dns.
    cbn [leader_log leader_data set_kv set_flags set_leader]. split; [done|].
    split; [apply lookup_union_Some_l, lookup_singleton_eq|].
    intros k Hk.
    rewrite lookup_union_r; [done|]. by apply lookup_singleton_ne.
  - destruct (get_dns_provider_cases e w) as [H|[H|(p & H)]];
      rewrite H in Hrun; [by injection Hrun as _ <-..|done].
Qed.

(** ** Fetching the keys without overwriting *)

Lemma complete_outside ks d fs p :
  p ∉ ks → complete ks d fs !! p = fs !! p.
Proof.
  revert fs. induction ks as [|k ks IH]; intros fs Hp; [done|].
  apply not_elem_of_cons in Hp as [Hne Hp].
  cbn [complete]. destruct (fs !! k); [by apply IH|].
  destruct (d !! k); [|done].
  rewrite IH by done. by apply lookup_insert_ne.
Qed.

Lemma completes_false_missing ks d fs :
  completes ks d fs = false →
  ∃ k, k ∈ ks ∧ fs !! k = None ∧ d !! k = None.
Proof.
  revert fs. induction ks as [|k0 ks IH]; intros fs Hc; [done|].
  cbn [completes] in Hc. destruct (fs !! k0) eqn:Hf.
  - destruct (IH _ Hc) as (k & Hin & Hk & Hd).
    exists k. split; [by right|done].
  - destruct (d !! k0) eqn:Hd.
    + destruct (IH _ Hc) as (k & Hin & Hk & Hdk).
      exists k. split; [by right|]. split; [|done].
      destruct (decide (k = k0)) as [->|Hne].
      * by rewrite lookup_insert_eq in Hk.
      * by rewrite lookup_insert_ne in Hk.
    + exists k0. split; [by left|done].
Qed.

(** X15.  [get_keys_from_leader] without [overwrite_local] only fills
    gaps: it always returns, it never changes or removes a file that
    exists, it touches no path outside the keys it was asked for, and it
    publishes nothing and changes no flag.  When it returns [True] every
    key has a file; when it returns [False] some key has neither a file
    nor a value on the channel. *)
Theorem get_keys_from_leader_fills_gaps ks w :
  ∃ b w',
    get_keys_from_leader ks false w = (Ok b, w')
    ∧ (∀ p c, files w !! p = Some c → files w' !! p = Some c)
    ∧ (∀ p, p ∉ ks → files w' !! p = files w !! p)
    ∧ published w' = published w ∧ flags w' = flags w ∧ kv w' = kv w
    ∧ (b = true → ∀ k, k ∈ ks → is_Some (files w' !! k))
    ∧ (b = false →
       ∃ k, k ∈ ks ∧ files w !! k = None ∧ leader_data w !! k = None).
Proof.
  rewrite get_keys_complete. eexists _, _. split; [reflexivity|].
  cbn [files set_files].
  split; [intros p c; apply complete_keeps|].
  split; [intros p; apply complete_outside|].
  repeat split; [apply completes_files|apply completes_false_missing].
Qed.

(** ** The advertised addresses and the certificate *)

Lemma sans_of_collect e w sans :
  collect_sans e w = Ok sans →
  unit_public_ip e ∈ sans
  ∧ ∃ forced,
      config_split e "loadbalancer-ips" = Ok forced
      ∧ (forced ≠ [] → ∀ x, x ∈ forced → x ∈ sans)
      ∧ (forced = [] → ha_endpoint e = true →
         ∃ vips,
           config_split e "ha-cluster-vip" = Ok vips
           ∧ (vips ≠ [] → ∀ x, x ∈ vips → x ∈ sans)
           ∧ (vips = [] → ∀ d, config e !! "ha-cluster-dns" = Some d →
              Py.truthy d = true → d ∈ sans)).
Proof.
  unfold collect_sans.
  destruct (get_kubernetes_service_ip e w) as [ip|x]; [|done].
  cbn [mbind result_bind rbind]. cbv zeta.
  set (base := [unit_public_ip e; _; _; _; _; _; _; _; _; _]).
  assert (Hbase : unit_public_ip e ∈ base) by by left.
  clearbody base.
  destruct (config_split e "loadbalancer-ips") as [forced|x]; [|done].
  cbn [mbind result_bind rbind].
  set (chain := if negb (bool_decide (forced = [])) then _ else _).
  assert (Hchain : ∀ s, chain = Ok s →
            unit_public_ip e ∈ s
            ∧ (forced ≠ [] → ∀ x, x ∈ forced → x ∈ s)
            ∧ (forced = [] → ha_endpoint e = true →
               ∃ vips,
                 config_split e "ha-cluster-vip" = Ok vips
                 ∧ (vips ≠ [] → ∀ x, x ∈ vips → x ∈ s)
                 ∧ (vips = [] → ∀ d, config e !! "ha-cluster-dns" = Some d →
                    Py.truthy d = true → d ∈ s))).
  { intros s. unfold chain.
    destruct (bool_decide (forced = [])) eqn:Hf; cbn [negb].
    - apply bool_decide_eq_true in Hf as ->.
      destruct (ha_endpoint e).
      + destruct (config_split e "ha-cluster-vip") as [vips|x]; [|done].
        cbn [mbind result_bind rbind]. cbv zeta.
        destruct (bool_decide (vips = [])) eqn:Hv; cbn [negb].
        * apply bool_decide_eq_true in Hv as ->.
          destruct (config e !! "ha-cluster-dns") as [d|] eqn:Hd;
            cbn [Py.truthy_opt].
          -- destruct (Py.truthy d) eqn:Ht; intros [= <-].
             ++ split; [apply elem_of_app; by left|]. split; [done|].
                intros _ _. exists []. split; [done|]. split; [done|].
                intros _ d' [= <-] _. apply elem_of_app. right. by left.
             ++ split; [done|]. split; [done|].
                intros _ _. exists []. split; [done|]. split; [done|].
                intros _ d' [= <-] Ht'. congruence.
          -- intros [= <-]. split; [done|]. split; [done|].
             intros _ _. exists []. split; [done|]. split; [done|].
             intros _ d' [=].
        * apply bool_decide_eq_false in Hv. intros [= <-].
          split; [apply elem_of_app; by left|]. split; [done|].
          intros _ _. exists vips. split; [done|].
          split; [|done]. intros _ x Hx. apply elem_of_app. by right.
      + intros Hs. split.
        * destruct (loadbalancer_endpoint e); injection Hs as <-;
            [apply elem_of_app; by left|done].
        * split; [done|]. intros _ [=].
    - apply bool_decide_eq_false in Hf. intros [= <-].
      split; [apply elem_of_app; by left|].
      split; [|done]. intros _ x Hx. apply elem_of_app. by right. }
  clearbody chain.
  destruct chain as [s|x]; [|done]. cbn [mbind result_bind rbind].
  destruct (Hchain s eq_refl) as (H1 & H2 & H3).
  destruct (_ && _); intros [= <-].
  - split; [apply elem_of_app; by left|]. exists forced. split; [done|].
    split.
    + intros Hne x Hx. apply elem_of_app. left. by apply H2.
    + intros Hf Hha. destruct (H3 Hf Hha) as (vips & Hv & H4 & H5).
      exists vips. split; [done|]. split.
      * intros Hne x Hx. apply elem_of_app. left. by apply H4.
      * intros Hve d Hd Ht. apply elem_of_app. left. by apply (H5 Hve).
  - split; [done|]. by exists forced.
Qed.

Lemma send_data_sans e w w' :
  send_data e w = (Ok tt, w') →
  ∃ sans,
    collect_sans e w = Ok sans
    ∧ cert_requests w'
      = cert_requests w ++ [ServerCert (unit_public_ip e) (sorted_set sans);
                            ClientCert "system:kube-apiserver"].
Proof.
  destruct (collect_sans e w) as [sans|x] eqn:Hc.
  - rewrite (send_data_run e w sans Hc). intros [= <-]. by exists sans.
  - unfold send_data, bind. by rewrite Hc.
Qed.

(** X16.  Every address that [push_service_data] advertises on the
    kube-api-endpoint relation is a name of the server certificate that
    [send_data] requests in the same configuration: the load-balancer
    addresses that the operator forces, else the virtual addresses of
    the HA cluster, else its DNS record, are all among the SANs. *)
Theorem advertised_addresses_in_sans e w w' endpoint address :
  push_service_data e = Ok endpoint →
  endpoint_public_address endpoint = Some address →
  send_data e w = (Ok tt, w') →
  ∃ sans,
    cert_requests w'
    = cert_requests w ++ [ServerCert (unit_public_ip e) sans;
                          ClientCert "system:kube-apiserver"]
    ∧ ∀ x, x ∈ address_names address → x ∈ sans.
Proof.
  intros Hpush Haddr Hsend.
  destruct (send_data_sans e w w' Hsend) as (sans & Hc & Hreq).
  exists (sorted_set sans). split; [done|].
  intros x Hx. apply sorted_set_elem.
  destruct (sans_of_collect e w sans Hc) as (_ & forced & Hf & H2 & H3).
  revert Hpush. unfold push_service_data. rewrite Hf.
  cbn [mbind result_bind rbind].
  destruct (bool_decide (forced = [])) eqn:Hfe; cbn [negb].
  - apply bool_decide_eq_true in Hfe.
    destruct (ha_endpoint e) eqn:Hha.
    + destruct (H3 Hfe eq_refl) as (vips & Hv & H4 & H5). rewrite Hv.
      cbn [mbind result_bind rbind]. cbv zeta.
      destruct (bool_decide (vips = [])) eqn:Hve; cbn [negb].
      * apply bool_decide_eq_true in Hve.
        destruct (config e !! "ha-cluster-dns") as [d|] eqn:Hd;
          cbn [Py.truthy_opt fmap option_fmap option_map].
        -- destruct (Py.truthy d) eqn:Ht;
             cbn [mbind result_bind rbind address_truthy].
           ++ rewrite Ht. intros [= <-]. cbn in Haddr.
              injection Haddr as <-. cbn in Hx.
              apply list_elem_of_singleton in Hx as ->. by apply (H5 Hve).
           ++ intros [= <-]. done.
        -- cbn [mbind result_bind rbind address_truthy]. intros [= <-]. done.
      * cbn [mbind result_bind rbind address_truthy]. rewrite Hve.
        cbn [negb]. intros [= <-]. cbn in Haddr. injection Haddr as <-.
        apply bool_decide_eq_false in Hve. by apply H4.
    + cbn [mbind result_bind rbind address_truthy]. intros [= <-]. done.
  - cbn [mbind result_bind rbind address_truthy]. rewrite Hfe. cbn [negb].
    intros [= <-]. cbn in Haddr. injection Haddr as <-.
    apply bool_decide_eq_false in Hfe. by apply H2.
Qed.

Lemma advertised_addresses_in_sans_witness :
  ∃ sans,
    cert_requests (snd (send_data env_ha world0))
    = [ServerCert "192.0.2.10" sans; ClientCert "system:kube-apiserver"]
    ∧ "10.0.0.20" ∈ sans ∧ "10.0.0.21" ∈ sans.
Proof.
  destruct (advertised_addresses_in_sans env_ha world0
              (snd (send_data env_ha world0))
              {| endpoint_port := 6443;
                 endpoint_private_address :=
                   Some (AddressList ["10.0.0.20"; "10.0.0.21"]);
                 endpoint_public_address :=
                   Some (AddressList ["10.0.0.20"; "10.0.0.21"]) |}
              (AddressList ["10.0.0.20"; "10.0.0.21"]))
    as (sans & Hreq & Hin).
  - vm_compute. reflexivity.
  - reflexivity.
  - vm_compute. reflexivity.
  - exists sans. split; [exact Hreq|].
    split; apply Hin; cbn [address_names].
    + by left.
    + right. by left.
Defined.

Lemma index_elem {A} (l : list A) i x : index l i = Ok x → x ∈ l.
Proof.
  unfold index. destruct (l !! i) eqn:H; [|done].
  intros [= <-]. by apply list_elem_of_lookup_2 in H.
Qed.

(** X17.  The server that [create_self_config] writes into the
    kubeconfig is covered by the certificate: whichever address it picks
    for the unit, a forced load-balancer address, a virtual address or
    the DNS record of the HA cluster, or the public address of the unit,
    that address is among the SANs of the server certificate that
    [send_data] requests in the same configuration. *)
Theorem self_config_server_in_sans e unit_number w w' address url :
  self_config_server e unit_number = Ok (address, url) →
  send_data e w = (Ok tt, w') →
  url = "https://" +:+ address +:+ ":6443"
  ∧ ∃ sans,
      cert_requests w'
      = cert_requests w ++ [ServerCert (unit_public_ip e) sans;
                            ClientCert "system:kube-apiserver"]
      ∧ address ∈ sans.
Proof.
  intros Hself Hsend.
  destruct (send_data_sans e w w' Hsend) as (sans & Hc & Hreq).
  destruct (sans_of_collect e w sans Hc) as (Hpub & forced & Hf & H2 & H3).
  revert Hself. unfold self_config_server. rewrite Hf.
  cbn [mbind result_bind rbind].
  assert (Hgoal : address ∈ sans →
            url = "https://" +:+ address +:+ ":6443" →
            url = "https://" +:+ address +:+ ":6443"
            ∧ ∃ sans0,
                cert_requests w'
                = cert_requests w ++ [ServerCert (unit_public_ip e) sans0;
                                      ClientCert "system:kube-apiserver"]
                ∧ address ∈ sans0).
  { intros Ha Hu. split; [done|]. exists (sorted_set sans).
    split; [done|]. by apply sorted_set_elem. }
  destruct (bool_decide (forced = [])) eqn:Hfe; cbn [negb].
  - apply bool_decide_eq_true in Hfe.
    unfold get_hacluster_ip_or_hostname.
    destruct (ha_endpoint e) eqn:Hha.
    + destruct (H3 Hfe eq_refl) as (vips & Hv & H4 & H5). rewrite Hv.
      cbn [mbind result_bind rbind]. cbv zeta.
      destruct (bool_decide (vips = [])) eqn:Hve; cbn [negb].
      * apply bool_decide_eq_true in Hve.
        destruct (config e !! "ha-cluster-dns") as [d|] eqn:Hd;
          cbn [Py.truthy_opt].
        -- destruct (Py.truthy d) eqn:Ht;
             cbn [mbind result_bind rbind Py.truthy_opt].
           ++ rewrite Ht. cbn [default from_option id].
              intros [= <- <-]. apply Hgoal; [|done]. by apply (H5 Hve).
           ++ intros [= <- <-]. by apply Hgoal.
        -- cbn [mbind result_bind rbind Py.truthy_opt].
           intros [= <- <-]. by apply Hgoal.
      * apply bool_decide_eq_false in Hve.
        destruct (index vips _) as [vip|x] eqn:Hi;
          cbn [mbind result_bind rbind]; [|done].
        apply index_elem in Hi.
        destruct (Py.truthy_opt (Some vip)); cbn [default from_option id];
          intros [= <- <-]; apply Hgoal; try done. by apply H4.
    + cbn [mbind result_bind rbind Py.truthy_opt].
      intros [= <- <-]. by apply Hgoal.
  - apply bool_decide_eq_false in Hfe.
    destruct (index forced _) as [a|x] eqn:Hi;
      cbn [mbind result_bind rbind]; [|done].
    apply index_elem in Hi. intros [= <- <-]. apply Hgoal; [|done].
    by apply H2.
Qed.

Lemma self_config_server_in_sans_witness :
  self_config_server env_ha 3 = Ok ("10.0.0.21", "https://10.0.0.21:6443")
  ∧ ∃ sans,
      cert_requests (snd (send_data env_ha world0))
      = [ServerCert "192.0.2.10" sans; ClientCert "system:kube-apiserver"]
      ∧ "10.0.0.21" ∈ sans.
Proof.
  split; [vm_compute; reflexivity|].
  destruct (self_config_server_in_sans env_ha 3 world0
              (snd (send_data env_ha world0))
              "10.0.0.21" "https://10.0.0.21:6443") as (_ & sans & Hreq & Hin).
  - vm_compute. reflexivity.
  - vm_compute. reflexivity.
  - exists sans. split; [exact Hreq|exact Hin].
Defined.

(** ** Setting a password twice *)

Lemma make_row_matches p u i g : row_matches (make_row p u i g) u i = Ok true.
Proof. unfold row_matches, make_row. cbn. by rewrite str_eqb_refl. Qed.

Lemma update_rows_idempotent rows u i new_row rows' :
  row_matches new_row u i = Ok true →
  update_rows rows u i new_row = Ok rows' →
  update_rows rows' u i new_row = Ok rows'.
Proof.
  intros Hnew. revert rows'. induction rows as [|row rows IH]; intros rows'.
  - intros [= <-]. cbn. by rewrite Hnew.
  - cbn [update_rows].
    destruct (row_matches row u i) as [[|]|x] eqn:Hrow; cbn; [| |done].
    + intros [= <-]. cbn. by rewrite Hnew.
    + destruct (update_rows rows u i new_row) as [rest|x]; cbn; [|done].
      intros [= <-]. cbn. rewrite Hrow. cbn. by rewrite (IH rest).
Qed.

Section SetupTwice.

Variable csv_reader : list string → list (list string).
Variable csv_writerows : list (list string) → string.

Lemma setup_basic_auth_given e w p u i g rows' :
  p ≠ "" →
  update_rows (existing_rows csv_reader w) u i (make_row p u i g) = Ok rows' →
  setup_basic_auth csv_reader csv_writerows e (Some p) u i g w
  = (Ok tt, set_files (<[basic_auth := csv_writerows rows']> (files w)) w).
Proof.
  intros Hp Hup. unfold setup_basic_auth. unfold Py.truthy.
  apply str_eqb_neq in Hp. rewrite Hp. cbn [negb].
  unfold bind at 1. unfold ret at 1.
  unfold bind at 1. unfold read_rows at 1.
  assert ((match files w !! basic_auth with
           | Some c =>
               (Ok (csv_reader (Py.readlines (Py.universal_newlines c))), w)
           | None => (Ok [], w)
           end) = (Ok (existing_rows csv_reader w), w)) as ->.
  { unfold existing_rows. by destruct (files w !! basic_auth). }
  unfold bind, lift. by rewrite Hup.
Qed.

(** X18.  Setting the same password twice is setting it once: for a
    password that is given, when the table that the first
    [setup_basic_auth] writes is read back by the CSV reader as the rows
    that were written, a second call with the same arguments returns
    and leaves [basic_auth.csv], and the whole unit, exactly as the first
    one left it. *)
Theorem setup_basic_auth_idempotent e w p u i g rows' :
  p ≠ "" →
  update_rows (existing_rows csv_reader w) u i (make_row p u i g) = Ok rows' →
  csv_reader (Py.readlines (Py.universal_newlines (csv_writerows rows')))
  = rows' →
  ∃ w1,
    setup_basic_auth csv_reader csv_writerows e (Some p) u i g w = (Ok tt, w1)
    ∧ files w1 !! basic_auth = Some (csv_writerows rows')
    ∧ setup_basic_auth csv_reader csv_writerows e (Some p) u i g w1
      = (Ok tt, w1).
Proof.
  intros Hp Hup Hround.
  rewrite (setup_basic_auth_given e w p u i g rows' Hp Hup).
  eexists. split; [reflexivity|].
  set (w1 := set_files _ w).
  assert (Hf : files w1 !! basic_auth = Some (csv_writerows rows')).
  { unfold w1. cbn [files set_files]. apply lookup_insert_eq. }
  split; [done|].
  rewrite (setup_basic_auth_given e w1 p u i g rows' Hp).
  - rewrite insert_id by done. by rewrite world_eta.
  - unfold existing_rows. rewrite Hf, Hround.
    by apply (update_rows_idempotent _ _ _ _ _ (make_row_matches p u i g) Hup).
Qed.

End SetupTwice.

Lemma setup_basic_auth_idempotent_witness :
  ∃ w1,
    setup_basic_auth plain_csv_reader plain_csv_writerows env0 (Some "new")
      "admin" "admin" (Some "system:masters") world_basic_auth = (Ok tt, w1)
    ∧ setup_basic_auth plain_csv_reader plain_csv_writerows env0 (Some "new")
        "admin" "admin" (Some "system:masters") w1 = (Ok tt, w1).
Proof.
  destruct (setup_basic_auth_idempotent plain_csv_reader plain_csv_writerows
              env0 world_basic_auth "new" "admin" "admin"
              (Some "system:masters")
              [["pw"; "bob"; "bob"];
               ["new"; "admin"; "admin"; "system:masters"];
               ["pw2"; "eve"; "eve"]])
    as (w1 & H1 & _ & H2).
  - done.
  - vm_compute. reflexivity.
  - vm_compute. reflexivity.
  - by exists w1.
Defined.

(** ** A service CIDR that was changed after it was frozen *)

(** X19.  A service CIDR that the operator changes after it was frozen
    is never passed over in silence: on a unit with a frozen, non-empty
    CIDR and a [service-cidr] option that differs from it, every [active]
    status that [set_final_status] reports is the warning that the CIDR
    cannot be changed, and the warning names the frozen value that is
    still in use. *)
Theorem frozen_cidr_warns e w w' c message :
  kv w !! service_cidr_key = Some c → c ≠ "" →
  config e !! "service-cidr" ≠ Some c →
  set_final_status e w = (Ok tt, w') →
  reported w w' ("active", message) →
  message = "WARN: cannot change service-cidr, still using " +:+ c.
Proof.
  intros Hk Hc Hcfg Hrun Hrep.
  destruct (set_final_status_decided e w w' Hrun)
    as (i & r & Hi & Hcond & Hbefore & Hw').
  pose proof (reported_rule e w i r w' _ Hw' Hrep) as Hr.
  pose proof (active_rule_index e w i r message Hi Hr) as Hge.
  pose proof (service_cidr_kv e w c Hk Hc) as Hs.
  destruct (decide (i = 16%nat)) as [->|Hne].
  - injection Hi as <-. cbn [report] in Hr. rewrite Hs in Hr.
    by injection Hr as <-.
  - pose proof (Hbefore 16%nat _ ltac:(lia) eq_refl) as H16.
    cbn [cond] in H16. rewrite Hs in H16. injection H16 as H16.
    apply negb_false_iff, bool_decide_eq_true in H16. congruence.
Qed.

Lemma frozen_cidr_warns_witness :
  reported (set_kv {[ service_cidr_key := "10.1.0.0/16" ]} world_started)
    (snd (set_final_status (env_running "10.2.0.0/16")
            (set_kv {[ service_cidr_key := "10.1.0.0/16" ]} world_started)))
    ("active", "WARN: cannot change service-cidr, still using 10.1.0.0/16").
Proof.
  pose proof (frozen_cidr_warns (env_running "10.2.0.0/16")
                (set_kv {[ service_cidr_key := "10.1.0.0/16" ]} world_started)
                (snd (set_final_status (env_running "10.2.0.0/16")
                        (set_kv {[ service_cidr_key := "10.1.0.0/16" ]}
                           world_started)))
                "10.1.0.0/16"
                "WARN: cannot change service-cidr, still using 10.1.0.0/16"
                eq_refl ltac:(done) ltac:(done) eq_refl eq_refl) as H.
  reflexivity.
Defined.

(** ** The secrets that the leader keeps *)

Lemma keeps_ret {A} p (a : A) : keeps_file p (ret a).
Proof. by intros w c. Qed.

Lemma keeps_raise {A} p x : keeps_file p (raise (A:=A) x).
Proof. by intros w c. Qed.

Lemma keeps_lift {A} p (r : result A) : keeps_file p (lift r).
Proof. by intros w c. Qed.

Lemma keeps_gets {A} p (f : World → A) : keeps_file p (gets f).
Proof. by intros w c. Qed.

Lemma keeps_bind {A B} p (m : M A) (k : A → M B) :
  keeps_file p m → (∀ a, keeps_file p (k a)) → keeps_file p (bind m k).
Proof.
  intros Hm Hk w c Hc. unfold bind. specialize (Hm w c Hc).
  destruct (m w) as [[a|x] w1]; cbn [snd] in *; [|done].
  by apply Hk.
Qed.

Lemma keeps_if {A} p (b : bool) (m1 m2 : M A) :
  keeps_file p m1 → keeps_file p m2 → keeps_file p (if b then m1 else m2).
Proof. by destruct b. Qed.

Lemma keeps_preserves {A} p (m : M A) : preserves files m → keeps_file p m.
Proof. intros H w c Hc. by rewrite H. Qed.

Lemma keeps_write_text p q c : p ≠ q → keeps_file p (write_text q c).
Proof.
  intros Hne w c0 Hc. unfold write_text, modify. cbn [snd files set_files].
  by rewrite lookup_insert_ne.
Qed.

(** Writing a file only when it is missing keeps it when it is there. *)
Lemma keeps_unless_exists p q (m : M unit) :
  (p ≠ q → keeps_file p m) →
  keeps_file p (isfile <- path_exists q ;; if negb isfile then m else ret tt).
Proof.
  intros Hm w c Hc. unfold bind, path_exists, gets.
  destruct (decide (p = q)) as [<-|Hne].
  - rewrite bool_decide_eq_true_2 by eauto. done.
  - destruct (bool_decide _); cbn [negb]; [done|]. by apply Hm.
Qed.

Lemma keeps_touch p q : keeps_file p (touch q).
Proof.
  intros w c Hc. unfold touch, bind, path_exists, gets.
  destruct (decide (p = q)) as [<-|Hne].
  - rewrite bool_decide_eq_true_2 by eauto. done.
  - destruct (bool_decide _); [done|]. by apply keeps_write_text.
Qed.

Lemma keeps_get_password p f u : keeps_file p (get_password f u).
Proof. intros w c Hc. by rewrite get_password_run. Qed.

Lemma keeps_get_keys p ks : keeps_file p (get_keys_from_leader ks false).
Proof.
  intros w c Hc. rewrite get_keys_complete. cbn [snd files set_files].
  by apply complete_keeps.
Qed.

Section LeaderKeeps.

Variable csv_reader : list string → list (list string).
Variable csv_writerows : list (list string) → string.

Lemma keeps_setup_basic_auth p e pw u i g :
  p ≠ basic_auth →
  keeps_file p (setup_basic_auth csv_reader csv_writerows e pw u i g).
Proof.
  intros Hne. unfold setup_basic_auth.
  apply keeps_bind.
  { apply keeps_preserves. intros w.
    by destruct pw as [pw|]; [destruct (Py.truthy pw)|]. }
  intros password. apply keeps_bind.
  { apply keeps_preserves. intros w. unfold read_rows.
    by destruct (files w !! basic_auth). }
  intros rows. apply keeps_bind; [apply keeps_lift|].
  intros rows'. by apply keeps_write_text.
Qed.

Lemma keeps_generate p e :
  p ≠ basic_auth →
  keeps_file p (generate_missing_secrets csv_reader csv_writerows e).
Proof.
  intros Hne. unfold generate_missing_secrets.
  apply keeps_bind; [apply keeps_get_password|intros last_pass].
  apply keeps_bind; [by apply keeps_setup_basic_auth|intros _].
  apply keeps_bind.
  { apply keeps_unless_exists. intros _. apply keeps_touch. }
  intros _. apply keeps_bind.
  { apply keeps_unless_exists. intros Hk.
    apply keeps_bind; [apply keeps_lift|]. intros key.
    by apply keeps_write_text. }
  intros _. by apply keeps_preserves.
Qed.

Lemma keeps_read_leader_data p fs acc : keeps_file p (read_leader_data fs acc).
Proof.
  revert acc. induction fs as [|f fs IH]; intros acc; [apply keeps_ret|].
  cbn [read_leader_data]. apply keeps_bind; [|intros c; apply IH].
  apply keeps_preserves. intros w. unfold read_text.
  by destruct (files w !! f).
Qed.

Lemma keeps_broadcast p : keeps_file p broadcast_secrets.
Proof.
  unfold broadcast_secrets.
  apply keeps_bind; [apply keeps_read_leader_data|intros d].
  apply keeps_bind; [by apply keeps_preserves|intros _].
  apply keeps_bind; [by apply keeps_preserves|intros _].
  by apply keeps_preserves.
Qed.

(** X20.  The leader never replaces a secret it has: whatever
    [setup_leader_authentication] does, whether it returns or raises and
    whether or not a reconfiguration was asked for, a service-account key
    and a token table that exist when it starts have the same content
    when it ends; only [basic_auth.csv] is rewritten. *)
Theorem leader_keeps_key_and_tokens e w p c :
  p = service_key ∨ p = known_tokens →
  files w !! p = Some c →
  files (snd (setup_leader_authentication csv_reader csv_writerows e w)) !! p
  = Some c.
Proof.
  intros Hp. revert w c.
  assert (Hne : p ≠ basic_auth) by by destruct Hp as [-> | ->].
  change (keeps_file p (setup_leader_authentication csv_reader csv_writerows e)).
  unfold setup_leader_authentication.
  apply keeps_bind; [by apply keeps_preserves|intros _].
  apply keeps_bind; [apply keeps_get_keys|intros got].
  apply keeps_bind; [by apply keeps_preserves|intros reconf].
  apply keeps_bind; [|intros _; apply keeps_broadcast].
  apply keeps_if; [by apply keeps_generate|apply keeps_ret].
Qed.

End LeaderKeeps.

Lemma leader_keeps_key_and_tokens_witness :
  files (snd (setup_leader_authentication plain_csv_reader plain_csv_writerows
                env0 (set_flags {[ reconfigure_flag ]} world_leader)))
    !! service_key
  = Some ("RSA PRIVATE KEY" +:+ String Py.LF "").
Proof.
  apply (leader_keeps_key_and_tokens plain_csv_reader plain_csv_writerows env0
           (set_flags {[ reconfigure_flag ]} world_leader) service_key).
  - by left.
  - reflexivity.
Defined.

(** ** Running the migration of the token table again *)

Lemma concat_readlines s : concat_text (Py.readlines s) = s.
Proof.
  induction s as [|c s IH]; [done|].
  cbn [Py.readlines]. destruct (Py.ascii_eqb c Py.LF) eqn:Hc.
  - apply bool_decide_eq_true in Hc as ->. cbn [concat_text]. by rewrite IH.
  - destruct (Py.readlines s) as [|l ls]; cbn [concat_text] in *.
    + by rewrite <- IH.
    + rewrite append_cons. by rewrite IH.
Qed.

Lemma universal_newlines_no_CR s :
  no_char Py.CR (Py.universal_newlines s) = true.
Proof.
  induction s as [|c|c c' s IH1 IH2] using string_ind2; [done|..].
  - cbn. by destruct (Py.ascii_eqb c Py.CR) eqn:Hc; cbn; rewrite ?Hc.
  - change (Py.universal_newlines (String c (String c' s)))
      with (if Py.ascii_eqb c Py.CR then
              if Py.ascii_eqb c' Py.LF
              then String Py.LF (Py.universal_newlines s)
              else String Py.LF (Py.universal_newlines (String c' s))
            else String c (Py.universal_newlines (String c' s))).
    destruct (Py.ascii_eqb c Py.CR) eqn:Hc;
      [destruct (Py.ascii_eqb c' Py.LF)|]; cbn [no_char];
      rewrite ?IH1, ?IH2, ?Hc; reflexivity.
Qed.

Lemma universal_newlines_id s :
  no_char Py.CR s = true → Py.universal_newlines s = s.
Proof.
  intros H. rewrite <- (append_nil_r s) at 1.
  rewrite universal_newlines_plain by done. apply append_nil_r.
Qed.

Lemma no_char_concat c ls :
  no_char c (concat_text ls) = forallb (no_char c) ls.
Proof.
  induction ls as [|l ls IH]; [done|].
  cbn [concat_text forallb]. by rewrite no_char_app, IH.
Qed.

Lemma no_char_lstrip c s : no_char c s = true → no_char c (Py.lstrip s) = true.
Proof.
  induction s as [|a s IH]; [done|].
  intros H. cbn [Py.lstrip]. destruct (Py.is_space a); [|done].
  apply IH. by apply andb_prop in H as [_ ?].
Qed.

Lemma no_char_rstrip c s : no_char c s = true → no_char c (Py.rstrip s) = true.
Proof.
  induction s as [|a s IH]; [done|].
  intros [Ha Hs]%andb_prop. cbn [Py.rstrip]. cbv zeta.
  destruct (Py.is_space a && _); [done|].
  cbn [no_char]. by rewrite Ha, IH.
Qed.

Lemma no_char_strip c s : no_char c s = true → no_char c (Py.strip s) = true.
Proof. intros H. by apply no_char_rstrip, no_char_lstrip. Qed.

Lemma no_char_split c sep s :
  no_char c s = true →
  Forall (fun f => no_char c f = true) (Py.split_on sep s).
Proof.
  induction s as [|a s IH]; [by repeat constructor|].
  intros [Ha Hs]%andb_prop. specialize (IH Hs). cbn [Py.split_on].
  destruct (Py.ascii_eqb a sep); [by constructor|].
  destruct (Py.split_on sep s) as [|f fs]; [by repeat constructor; cbn; rewrite Ha|].
  apply Forall_cons in IH as [Hf Hfs]. constructor; [|done].
  cbn [no_char]. by rewrite Ha, Hf.
Qed.

Lemma split_no_sep sep s :
  Forall (fun f => no_char sep f = true) (Py.split_on sep s).
Proof.
  induction s as [|a s IH]; [by repeat constructor|].
  cbn [Py.split_on]. destruct (Py.ascii_eqb a sep) eqn:Ha; [by constructor|].
  destruct (Py.split_on sep s) as [|f fs];
    [by repeat constructor; cbn; rewrite Ha|].
  apply Forall_cons in IH as [Hf Hfs]. constructor; [|done].
  cbn [no_char]. by rewrite Ha, Hf.
Qed.

Lemma split_on_app_sep sep s t :
  Py.split_on sep (s +:+ String sep t) = Py.split_on sep s ++ Py.split_on sep t.
Proof.
  induction s as [|a s IH].
  - rewrite append_nil. cbn [Py.split_on]. by rewrite ascii_eqb_refl.
  - rewrite append_cons. cbn [Py.split_on]. rewrite IH.
    destruct (Py.ascii_eqb a sep); [done|].
    pose proof (split_on_nonempty sep s).
    by destruct (Py.split_on sep s).
Qed.

Lemma split_on_first sep c t :
  ∃ r0 rest,
    Py.split_on sep (String c t) = r0 :: rest
    ∧ (r0 = "" ∨ ∃ t', r0 = String c t').
Proof.
  cbn [Py.split_on]. destruct (Py.ascii_eqb c sep).
  - eexists _, _. split; [done|]. by left.
  - destruct (Py.split_on sep t); eexists _, _; (split; [done|]); right; eauto.
Qed.

(** *** Stripping *)

Lemma rstrip_rstrip s : Py.rstrip (Py.rstrip s) = Py.rstrip s.
Proof.
  induction s as [|a s IH]; [done|].
  cbn [Py.rstrip]. cbv zeta.
  destruct (Py.is_space a && Py.str_eqb (Py.rstrip s) "") eqn:H; [done|].
  cbn [Py.rstrip]. cbv zeta. by rewrite IH, H.
Qed.

Lemma rstrip_app s t :
  Py.rstrip t ≠ "" → Py.rstrip (s +:+ t) = s +:+ Py.rstrip t.
Proof.
  intros Ht. induction s as [|a s IH]; [done|].
  rewrite !append_cons. cbn [Py.rstrip]. cbv zeta. rewrite IH.
  assert (Py.str_eqb (s +:+ Py.rstrip t) "" = false) as ->; [|by rewrite andb_false_r].
  apply str_eqb_neq. destruct s; [done|]. by rewrite append_cons.
Qed.

Lemma lstrip_start c t :
  Py.is_space c = false → Py.lstrip (String c t) = String c t.
Proof. intros H. cbn [Py.lstrip]. by rewrite H. Qed.

Lemma lstrip_cases s :
  Py.lstrip s = "" ∨ ∃ c t, Py.lstrip s = String c t ∧ Py.is_space c = false.
Proof.
  induction s as [|a s IH]; [by left|].
  cbn [Py.lstrip]. destruct (Py.is_space a) eqn:Ha; [done|].
  right. by exists a, s.
Qed.

Lemma strip_cases s :
  Py.strip s = "" ∨ ∃ c t, Py.strip s = String c t ∧ Py.is_space c = false.
Proof.
  unfold Py.strip.
  destruct (lstrip_cases s) as [->|(c & t & -> & Hc)]; [by left|].
  right. cbn [Py.rstrip]. cbv zeta. rewrite Hc. cbn [andb]. eauto.
Qed.

(** *** Lines *)

Lemma one_line_cons c s :
  one_line (String c s)
  = match s with
    | EmptyString => true
    | String _ _ => negb (Py.ascii_eqb c Py.LF) && one_line s
    end.
Proof. reflexivity. Qed.

Lemma one_line_rstrip s :
  one_line s = true → no_char Py.LF (Py.rstrip s) = true.
Proof.
  induction s as [|a s IH]; [done|].
  rewrite one_line_cons. cbn [Py.rstrip]. cbv zeta.
  destruct s as [|b s].
  - intros _. cbn [Py.rstrip]. rewrite str_eqb_refl, andb_true_r.
    destruct (Py.is_space a) eqn:Ha; [done|].
    cbn [no_char]. rewrite andb_true_r. apply negb_true_iff.
    apply bool_decide_eq_false. intros ->. by vm_compute in Ha.
  - intros [Ha Hs]%andb_prop. specialize (IH Hs).
    destruct (Py.is_space a && _); [done|].
    cbn [no_char]. by rewrite Ha, IH.
Qed.

Lemma one_line_lstrip s :
  one_line s = true → Py.lstrip s = "" ∨ one_line (Py.lstrip s) = true.
Proof.
  induction s as [|a s IH]; [done|].
  intros H. cbn [Py.lstrip]. destruct (Py.is_space a); [|by right].
  rewrite one_line_cons in H. destruct s as [|b s]; [by left|].
  apply IH. by apply andb_prop in H as [_ ?].
Qed.

Lemma one_line_strip s :
  one_line s = true → no_char Py.LF (Py.strip s) = true.
Proof.
  intros H. unfold Py.strip.
  destruct (one_line_lstrip s H) as [->|H']; [done|].
  by apply one_line_rstrip.
Qed.

Lemma one_line_app_LF s :
  no_char Py.LF s = true →
  one_line (s +:+ String Py.LF "") = true
  ∧ whole_lines (s +:+ String Py.LF "") = true.
Proof.
  induction s as [|a s IH]; [done|].
  intros [Ha Hs]%andb_prop. destruct (IH Hs) as [H1 H2].
  rewrite append_cons, one_line_cons, whole_lines_cons.
  destruct (s +:+ String Py.LF "") eqn:E; [by destruct s|].
  by rewrite Ha, H1, H2.
Qed.

Lemma readlines_one_line l : one_line l = true → Py.readlines l = [l].
Proof.
  induction l as [|c l IH]; [done|].
  rewrite one_line_cons. destruct l as [|c' l].
  - intros _. cbn. by destruct (Py.ascii_eqb c Py.LF) eqn:Hc;
      [apply bool_decide_eq_true in Hc as ->|].
  - intros [Hc Hl]%andb_prop. apply negb_true_iff in Hc.
    cbn [Py.readlines] in *. rewrite Hc. by rewrite (IH Hl).
Qed.

Lemma readlines_lines_ok s : lines_ok (Py.readlines s).
Proof.
  induction s as [|c s IH]; [done|].
  cbn [Py.readlines]. destruct (Py.ascii_eqb c Py.LF) eqn:Hc.
  - apply bool_decide_eq_true in Hc as ->. cbn [lines_ok]. done.
  - destruct (Py.readlines s) as [|l ls]; [done|].
    cbn [lines_ok] in *. destruct IH as (Hl & Hw & Hls).
    split; [|split; [|done]].
    + rewrite one_line_cons. destruct l; [done|]. by rewrite Hc, Hl.
    + intros Hne. rewrite whole_lines_cons. destruct l; [done|]. by apply Hw.
Qed.

Lemma readlines_texts ts :
  texts_ok ts → Py.readlines (concat_text ts) = List.filter nonempty ts.
Proof.
  induction ts as [|t ts IH]; [done|].
  cbn [texts_ok concat_text List.filter]. intros [Ht Hts].
  destruct Ht as [->|[Hl Hw]].
  - rewrite append_nil. cbn. by apply IH.
  - assert (nonempty t = true) as ->.
    { unfold nonempty. apply negb_true_iff, str_eqb_neq. by destruct t. }
    destruct ts as [|t' ts].
    + cbn [concat_text List.filter]. rewrite append_nil_r.
      by apply readlines_one_line.
    + rewrite readlines_app by (by apply Hw).
      rewrite (readlines_one_line _ Hl), (IH Hts). done.
Qed.

Lemma concat_filter ts :
  concat_text (List.filter nonempty ts) = concat_text ts.
Proof.
  induction ts as [|t ts IH]; [done|].
  cbn [List.filter concat_text]. unfold nonempty at 1.
  destruct (Py.str_eqb t "") eqn:Ht; cbn [negb].
  - apply str_eqb_eq in Ht as ->. by rewrite append_nil.
  - cbn [concat_text]. by rewrite IH.
Qed.

(** *** What is written for a line *)

Lemma expected_token_line_copy line r0 r1 r2 rest :
  Py.split_on "," (Py.strip line) = r0 :: r1 :: r2 :: rest →
  ¬ (r2 = "admin" ∧ rest = []) → r2 ≠ "kube_proxy" → r2 ≠ "kubelet" →
  expected_token_line line = line.
Proof.
  intros Hs Hadmin Hproxy Hkubelet. unfold expected_token_line. rewrite Hs.
  cbn [lookup list_lookup length].
  rewrite bool_decide_eq_false_2.
  2: { intros [[= ->] Hlen]. apply Hadmin. split; [done|]. by destruct rest. }
  rewrite bool_decide_eq_false_2 by congruence.
  rewrite bool_decide_eq_false_2; [done|]. intros [[= ->] _]. done.
Qed.

Lemma expected_token_line_cases line :
  token_row line →
  (∃ r0 r1,
     Py.split_on "," (Py.strip line) = [r0; r1; "admin"]
     ∧ expected_token_line line
       = Py.strip line +:+ admin_groups +:+ String Py.LF "")
  ∨ (∃ r0 r1 rest,
       Py.split_on "," (Py.strip line) = r0 :: r1 :: "kube_proxy" :: rest
       ∧ expected_token_line line = r0 +:+ proxy_fields +:+ String Py.LF "")
  ∨ expected_token_line line = ""
  ∨ expected_token_line line = line.
Proof.
  unfold token_row, token_record. intros Hlen.
  destruct (Py.split_on "," (Py.strip line)) as [|r0 [|r1 [|r2 rest]]] eqn:Hs;
    cbn [length] in Hlen; try lia.
  destruct (decide (r2 = "admin" ∧ rest = [])) as [[-> ->]|Hadmin].
  { left. exists r0, r1. split; [done|]. unfold expected_token_line.
    rewrite Hs. cbn [lookup list_lookup length].
    rewrite bool_decide_eq_true_2 by done. unfold admin_groups.
    by rewrite !append_assoc. }
  destruct (decide (r2 = "kube_proxy")) as [->|Hproxy].
  { right; left. exists r0, r1, rest. split; [done|].
    unfold expected_token_line. rewrite Hs. cbn [lookup list_lookup length].
    rewrite bool_decide_eq_false_2 by (by intros [[=] _]).
    rewrite bool_decide_eq_true_2 by done. reflexivity. }
  destruct (decide (r2 = "kubelet")) as [->|Hkubelet].
  { destruct (decide (r1 = "kubelet")) as [->|Hk1].
    - right; right; left. unfold expected_token_line. rewrite Hs.
      cbn [lookup list_lookup length].
      rewrite bool_decide_eq_false_2 by (by intros [[=] _]).
      rewrite bool_decide_eq_false_2 by done.
      by rewrite bool_decide_eq_true_2.
    - right; right; right. unfold expected_token_line. rewrite Hs.
      cbn [lookup list_lookup length].
      rewrite bool_decide_eq_false_2 by (by intros [[=] _]).
      rewrite bool_decide_eq_false_2 by done.
      rewrite bool_decide_eq_false_2; [done|]. intros [_ [=]]. done. }
  right; right; right. by apply (expected_token_line_copy _ _ _ _ _ Hs).
Qed.

(** A rewritten line, stripped: the text before the fields that were
    added, and those fields. *)
Lemma strip_rewritten x q :
  (x = "" ∨ ∃ c t, x = String c t ∧ Py.is_space c = false) →
  (∃ c t, q = String c t ∧ Py.is_space c = false) →
  Py.rstrip (q +:+ String Py.LF "") = q →
  Py.strip (x +:+ q +:+ String Py.LF "") = x +:+ q.
Proof.
  intros Hx (c' & t' & -> & Hc') Hq. unfold Py.strip.
  assert (Py.lstrip (x +:+ String c' t' +:+ String Py.LF "")
          = x +:+ String c' t' +:+ String Py.LF "") as ->.
  { destruct Hx as [->|(c & t & -> & Hc)].
    - rewrite append_nil, append_cons. by apply lstrip_start.
    - rewrite append_cons. by apply lstrip_start. }
  rewrite rstrip_app; rewrite Hq; done.
Qed.

Lemma expected_token_line_fixed line :
  one_line line = true → token_row line →
  expected_token_line line = ""
  ∨ (token_row (expected_token_line line)
     ∧ expected_token_line (expected_token_line line)
       = expected_token_line line
     ∧ one_line (expected_token_line line) = true
     ∧ (whole_lines line = true →
        whole_lines (expected_token_line line) = true)
     ∧ (no_char Py.CR line = true →
        no_char Py.CR (expected_token_line line) = true)).
Proof.
  intros Hline Hrow.
  pose proof (one_line_strip line Hline) as Hlf.
  pose proof (split_no_sep "," (Py.strip line)) as Hcomma.
  pose proof (no_char_split Py.LF "," (Py.strip line) Hlf) as Hlfs.
  destruct (expected_token_line_cases line Hrow)
    as [(r0 & r1 & Hs & ->)|[(r0 & r1 & rest & Hs & ->)|[->|Hcopy]]].
  - right.
    assert (Hstart : ∃ c t, Py.strip line = String c t
                            ∧ Py.is_space c = false).
    { destruct (strip_cases line) as [E|?]; [|done]. by rewrite E in Hs. }
    assert (Hstrip : Py.strip (Py.strip line +:+ admin_groups
                               +:+ String Py.LF "")
                     = Py.strip line +:+ admin_groups).
    { apply strip_rewritten; [by right| |reflexivity].
      eexists _, _. split; reflexivity. }
    assert (Hsplit : Py.split_on "," (Py.strip line +:+ admin_groups)
                     = [r0; r1; "admin";
                        String Py.DQ "system:masters" +:+ String Py.DQ ""]).
    { change admin_groups
        with (String "," (String Py.DQ "system:masters" +:+ String Py.DQ "")).
      rewrite split_on_app_sep, Hs. reflexivity. }
    split; [|split; [|split; [|split]]].
    + unfold token_row, token_record. rewrite Hstrip, Hsplit. cbn. lia.
    + apply (expected_token_line_copy _ r0 r1 "admin"
               [String Py.DQ "system:masters" +:+ String Py.DQ ""]).
      * by rewrite Hstrip, Hsplit.
      * by intros [_ [=]].
      * done.
      * done.
    + rewrite <- append_assoc. apply one_line_app_LF.
      by rewrite no_char_app, Hlf.
    + intros _. rewrite <- append_assoc. apply one_line_app_LF.
      by rewrite no_char_app, Hlf.
    + intros Hcr. rewrite !no_char_app, (no_char_strip _ _ Hcr). reflexivity.
  - right. rewrite Hs in Hcomma, Hlfs.
    apply Forall_cons in Hcomma as [Hc0 _].
    apply Forall_cons in Hlfs as [Hl0 _].
    assert (Hstart : r0 = "" ∨ ∃ c t, r0 = String c t ∧ Py.is_space c = false).
    { destruct (strip_cases line) as [E|(c & t & E & Hc)];
        [by rewrite E in Hs|].
      rewrite E in Hs.
      destruct (split_on_first "," c t) as (f & fs & Hf & [->|(t' & ->)]);
        rewrite Hf in Hs; injection Hs as <- _; [by left|].
      right. by exists c, t'. }
    assert (Hstrip : Py.strip (r0 +:+ proxy_fields +:+ String Py.LF "")
                     = r0 +:+ proxy_fields).
    { apply strip_rewritten; [done| |reflexivity].
      eexists _, _. split; reflexivity. }
    assert (Hsplit : Py.split_on "," (r0 +:+ proxy_fields)
                     = [r0; "system:kube-proxy"; "kube-proxy"]).
    { change proxy_fields with (String "," "system:kube-proxy,kube-proxy").
      rewrite split_on_app_sep, (split_on_none _ _ Hc0). reflexivity. }
    split; [|split; [|split; [|split]]].
    + unfold token_row, token_record. rewrite Hstrip, Hsplit. cbn. lia.
    + apply (expected_token_line_copy _ r0 "system:kube-proxy" "kube-proxy" []).
      * by rewrite Hstrip, Hsplit.
      * by intros [[=] _].
      * done.
      * done.
    + rewrite <- append_assoc. apply one_line_app_LF.
      by rewrite no_char_app, Hl0.
    + intros _. rewrite <- append_assoc. apply one_line_app_LF.
      by rewrite no_char_app, Hl0.
    + intros Hcr. rewrite !no_char_app.
      pose proof (no_char_split Py.CR "," _ (no_char_strip _ _ Hcr)) as Hf.
      rewrite Hs in Hf. apply Forall_cons in Hf as [-> _]. reflexivity.
  - by left.
  - right. rewrite !Hcopy. done.
Qed.

Lemma migrated_lines lines :
  lines_ok lines → Forall token_row lines →
  forallb (no_char Py.CR) lines = true →
  texts_ok (map expected_token_line lines)
  ∧ Forall (fun o => token_row o ∧ expected_token_line o = o)
      (List.filter nonempty (map expected_token_line lines))
  ∧ forallb (no_char Py.CR) (map expected_token_line lines) = true.
Proof.
  induction lines as [|l lines IH]; [done|].
  cbn [lines_ok map texts_ok forallb List.filter].
  intros (Hl & Hw & Hok) [Hrow Hrows]%Forall_cons [Hcr Hcrs]%andb_prop.
  destruct (IH Hok Hrows Hcrs) as (H1 & H2 & H3).
  destruct (expected_token_line_fixed l Hl Hrow)
    as [->|(Hrow' & Hfix & Hl' & Hw' & Hcr')].
  - split; [split; [by left|done]|]. done.
  - split; [|split].
    + split; [|done]. right. split; [done|]. intros Hne. apply Hw', Hw.
      by destruct lines.
    + destruct (nonempty _); [|done]. by constructor.
    + by rewrite Hcr', H3.
Qed.

Lemma map_fixed (f : string → string) ls :
  Forall (fun o => f o = o) ls → map f ls = ls.
Proof.
  induction 1 as [|l ls Hl _ IH]; [done|]. cbn. by rewrite Hl, IH.
Qed.

(** X21.  The migration of the token table can be run again: on a table
    whose lines all have three fields or more, [add_rbac_roles] returns,
    and a second [add_rbac_roles] on what the first one has written
    returns as well and writes the very same table; the backup then holds
    that table too. *)
Theorem add_rbac_roles_idempotent w c :
  files w !! known_tokens = Some c →
  Forall token_row (token_lines w) →
  ∃ w1 w2,
    add_rbac_roles w = (Ok tt, w1)
    ∧ add_rbac_roles w1 = (Ok tt, w2)
    ∧ files w1 !! known_tokens
      = Some (concat_text (map expected_token_line (token_lines w)))
    ∧ files w2 !! known_tokens = files w1 !! known_tokens
    ∧ files w2 !! known_tokens_backup = files w1 !! known_tokens.
Proof.
  intros Hc Hrows.
  destruct (add_rbac_roles_rows w c Hc Hrows) as [Hr1 Hf1].
  destruct (add_rbac_roles w) as [r1 w1]. cbn [fst snd] in Hr1, Hf1. subst r1.
  set (lines := token_lines w) in *.
  set (table := concat_text (map expected_token_line lines)) in *.
  assert (Ht1 : files w1 !! known_tokens = Some table).
  { rewrite Hf1. apply lookup_insert_eq. }
  assert (Hlines : lines = Py.readlines (Py.universal_newlines c)).
  { unfold lines, token_lines. by rewrite Hc. }
  assert (Hshape : lines_ok lines).
  { rewrite Hlines. apply readlines_lines_ok. }
  assert (Hplain : forallb (no_char Py.CR) lines = true).
  { rewrite <- no_char_concat, Hlines, concat_readlines.
    apply universal_newlines_no_CR. }
  destruct (migrated_lines lines Hshape Hrows Hplain) as (Hok & Hfixed & Hcr).
  assert (Hlines1 : token_lines w1
                    = List.filter nonempty (map expected_token_line lines)).
  { unfold token_lines. rewrite Ht1.
    rewrite universal_newlines_id by (unfold table; by rewrite no_char_concat).
    by apply readlines_texts. }
  destruct (add_rbac_roles_rows w1 table Ht1) as [Hr2 Hf2].
  { rewrite Hlines1. by apply (Forall_impl _ _ _ Hfixed); intros o [? _]. }
  exists w1, (snd (add_rbac_roles w1)).
  destruct (add_rbac_roles w1) as [r2 w2]. cbn [fst snd] in *. subst r2.
  split; [done|]. split; [done|]. split; [done|].
  rewrite Hf2, Hlines1.
  rewrite map_fixed by (by apply (Forall_impl _ _ _ Hfixed); intros o [_ ?]).
  rewrite concat_filter. fold table.
  split.
  - by rewrite lookup_insert_eq.
  - rewrite lookup_insert_ne by done. by rewrite lookup_insert_eq.
Qed.

Lemma add_rbac_roles_idempotent_witness :
  ∃ w1 w2,
    add_rbac_roles world_old_tokens = (Ok tt, w1)
    ∧ add_rbac_roles w1 = (Ok tt, w2)
    ∧ files w2 !! known_tokens
      = Some ("t1,admin,admin," +:+ String Py.DQ "system:masters"
              +:+ String Py.DQ (String Py.LF "")
              +:+ "t2,system:kube-proxy,kube-proxy" +:+ String Py.LF ""
              +:+ "t4,alice,alice" +:+ String Py.LF "").
Proof.
  destruct (add_rbac_roles_idempotent world_old_tokens
              ("t1,admin,admin" +:+ String Py.LF ""
               +:+ "t2,kube_proxy,kube_proxy" +:+ String Py.LF ""
               +:+ "t3,kubelet,kubelet" +:+ String Py.LF ""
               +:+ "t4,alice,alice" +:+ String Py.LF ""))
    as (w1 & w2 & H1 & H2 & Ht & H3 & _).
  - reflexivity.
  - vm_compute. repeat constructor.
  - exists w1, w2. split; [exact H1|]. split; [exact H2|].
    rewrite H3, Ht. vm_compute. reflexivity.
Defined.

(** ** A follower that is in sync *)

Lemma append_inj_l p a b : p +:+ a = p +:+ b → a = b.
Proof.
  induction p as [|c p IH]; [done|].
  rewrite !append_cons. intros [= H]. by apply IH.
Qed.

Lemma files_changed_key_inj f g :
  files_changed_key f = files_changed_key g → f = g.
Proof. apply append_inj_l. Qed.

Section FilesChanged.

Variable file_hash : string → string.

Lemma any_file_changed_quiet fs w :
  recorded file_hash fs w → any_file_changed file_hash fs w = (Ok false, w).
Proof.
  induction fs as [|f fs IH]; intros Hrec; [done|].
  cbn [any_file_changed]. unfold bind at 1. unfold gets at 1.
  unfold bind at 1. unfold gets at 1.
  rewrite bool_decide_eq_true_2 by (apply Hrec; by left).
  unfold bind at 1. unfold ret at 1. unfold bind.
  rewrite IH; [done|]. intros g Hg. apply Hrec. by right.
Qed.

Lemma any_file_changed_records fs :
  ∀ w, ∃ b kv',
    any_file_changed file_hash fs w = (Ok b, set_kv kv' w)
    ∧ (∀ f, f ∈ fs → kv' !! files_changed_key f = file_hash <$> files w !! f)
    ∧ (∀ k, (∀ f, f ∈ fs → k ≠ files_changed_key f) → kv' !! k = kv w !! k).
Proof.
  induction fs as [|f fs IH]; intros w.
  { exists false, (kv w). cbn. unfold ret. rewrite world_eta_kv.
    split; [done|]. split; [|done]. intros f Hf. by apply elem_of_nil in Hf. }
  cbn [any_file_changed]. unfold bind at 1. unfold gets at 1.
  unfold bind at 1. unfold gets at 1.
  set (key := files_changed_key f).
  set (new := file_hash <$> files w !! f).
  assert (∃ b0 kv0,
            (if bool_decide (kv w !! key = new) then ret false
             else
               modify (fun w =>
                 set_kv (match new with
                         | Some h => <[key := h]> (kv w)
                         | None => delete key (kv w)
                         end) w) ;;;
               ret true) w = (Ok b0, set_kv kv0 w)
            ∧ kv0 !! key = new
            ∧ ∀ k, k ≠ key → kv0 !! k = kv w !! k) as (b0 & kv0 & Hstep & Hk0 & Ho0).
  { destruct (bool_decide (kv w !! key = new)) eqn:Hb.
    - apply bool_decide_eq_true in Hb. exists false, (kv w).
      unfold ret. by rewrite world_eta_kv.
    - unfold bind, modify, ret. eexists true, _. split; [reflexivity|].
      destruct new as [h|].
      + split; [apply lookup_insert_eq|]. intros k Hk.
        by apply lookup_insert_ne.
      + split; [apply lookup_delete_eq|]. intros k Hk.
        by apply lookup_delete_ne. }
  unfold bind at 1. rewrite Hstep. clear Hstep.
  destruct (IH (set_kv kv0 w)) as (b & kv' & Hrest & Hrec & Hother).
  unfold bind. rewrite Hrest. unfold ret.
  exists (b0 || b), kv'. split; [reflexivity|].
  cbn [kv files set_kv] in *. split.
  - intros g [->|Hg]%elem_of_cons.
    + destruct (decide (f ∈ fs)) as [Hin|Hnot]; [by apply Hrec|].
      rewrite Hother; [done|]. intros g Hg E.
      apply files_changed_key_inj in E as <-. done.
    + by apply Hrec.
  - intros k Hk. rewrite Hother.
    + apply Ho0. apply Hk. by left.
    + intros g Hg. apply Hk. by right.
Qed.

(** X22.  A follower that is in sync stays quiet: once the leadership
    channel holds the three keys, a run of
    [setup_non_leader_authentication] returns with [authentication.setup]
    set, and a second run on the unit as the first one left it, with the
    channel unchanged, returns without changing anything at all: no file,
    no flag, no status, and [kubernetes-master.components.started] is not
    cleared again. *)
Theorem follower_quiet_once_synced w :
  (∀ k, k ∈ keys → is_Some (leader_data w !! k)) →
  ∃ w1,
    setup_non_leader_authentication file_hash w = (Ok tt, w1)
    ∧ auth_flag ∈ flags w1
    ∧ leader_data w1 = leader_data w
    ∧ setup_non_leader_authentication file_hash w1 = (Ok tt, w1).
Proof.
  intros Hall.
  destruct (Hall service_key) as [key Hk]; [apply keys_elem; auto|].
  destruct (Hall basic_auth) as [auth Ha]; [apply keys_elem; auto|].
  destruct (Hall known_tokens) as [tokens Ht]; [apply keys_elem; auto|].
  assert (Hget : ∀ w0, leader_data w0 = leader_data w →
            get_keys_from_leader keys true w0
            = (Ok true,
               set_files
                 (<[known_tokens := tokens +:+ String Py.LF ""]>
                    (<[basic_auth := auth +:+ String Py.LF ""]>
                       (<[service_key := key +:+ String Py.LF ""]>
                          (files w0)))) w0)).
  { intros w0 Hd. rewrite get_keys_overwrite, Hd.
    rewrite (adopt_all _ _ _ _ _ Hk Ha Ht).
    unfold keys. cbn [forallb]. rewrite Hk, Ha, Ht.
    by rewrite !bool_decide_eq_true_2 by eauto. }
  unfold setup_non_leader_authentication at 1. unfold bind at 1.
  rewrite (Hget w eq_refl). cbn [negb].
  set (w0 := set_files _ w).
  unfold bind at 1.
  destruct (any_file_changed_records keys w0) as (b & kv' & -> & Hrec & _).
  unfold bind at 1. unfold is_state, gets. cbn [flags set_kv].
  assert (Hquiet : ∀ w1,
            files w1 = files w0 → kv w1 = kv' → leader_data w1 = leader_data w →
            auth_flag ∈ flags w1 →
            setup_non_leader_authentication file_hash w1 = (Ok tt, w1)).
  { intros w1 Hf Hkv Hd Hflag.
    unfold setup_non_leader_authentication. unfold bind at 1.
    rewrite (Hget w1 Hd). cbn [negb].
    assert (<[known_tokens := tokens +:+ String Py.LF ""]>
              (<[basic_auth := auth +:+ String Py.LF ""]>
                 (<[service_key := key +:+ String Py.LF ""]> (files w1)))
            = files w1) as ->.
    { rewrite Hf. unfold w0. cbn [files set_files].
      apply map_eq. intros p.
      destruct (decide (p = known_tokens)) as [->|H1];
        [by repeat (rewrite lookup_insert_eq
                    || rewrite lookup_insert_ne by done)|].
      destruct (decide (p = basic_auth)) as [->|H2];
        [by repeat (rewrite lookup_insert_eq
                    || rewrite lookup_insert_ne by done)|].
      destruct (decide (p = service_key)) as [->|H3];
        by repeat (rewrite lookup_insert_eq
                   || rewrite lookup_insert_ne by done). }
    rewrite world_eta.
    unfold bind at 1. rewrite any_file_changed_quiet.
    2: { intros f Hf'. rewrite Hkv, Hf. by apply Hrec. }
    unfold bind, is_state, gets. rewrite bool_decide_eq_true_2 by done. done. }
  destruct (negb b && bool_decide (auth_flag ∈ flags w0)) eqn:Hskip.
  - apply andb_prop in Hskip as [_ Hflag%bool_decide_eq_true].
    unfold ret. eexists. split; [reflexivity|]. split; [done|].
    split; [done|]. by apply Hquiet.
  - unfold bind, status_set, remove_state, set_state, modify.
    eexists. split; [reflexivity|].
    cbn [flags leader_data set_flags set_status_log set_kv set_files].
    assert (Hin : auth_flag ∈ ({[auth_flag]} ∪ flags w ∖ {[started_flag]}
                               : gset string)).
    { apply elem_of_union. left. by apply elem_of_singleton. }
    split; [exact Hin|]. split; [done|]. by apply Hquiet.
Qed.

End FilesChanged.

Lemma follower_quiet_once_synced_witness :
  setup_non_leader_authentication plain_hash world_synced
  = (Ok tt, world_synced).
Proof.
  destruct (follower_quiet_once_synced plain_hash
              (world_follower (leader_data world_leader_done)))
    as (w1 & Hrun & _ & _ & Hquiet).
  - intros k [->|[->| ->]]%keys_elem; vm_compute; eauto.
  - assert (w1 = world_synced) as ->; [|exact Hquiet].
    unfold world_synced. by rewrite Hrun.
Defined.

(** ** What the API server configuration leaves behind *)

Lemma yields_later {A B C} (proj : World → C) v (m : M A) (k : A → M B) :
  (∀ a, yields proj v (k a)) → yields proj v (bind m k).
Proof.
  intros Hk w r w' H. apply bind_inv in H as (a & w1 & _ & H).
  by apply (Hk a w1 r).
Qed.

Lemma yields_first {A B C} (proj : World → C) v (m : M A) (k : A → M B) :
  yields proj v m → (∀ a, preserves proj (k a)) → yields proj v (bind m k).
Proof.
  intros Hm Hk w r w' H. apply bind_inv in H as (a & w1 & H1 & H).
  pose proof (Hk a w1) as Hp. rewrite H in Hp. cbn [snd] in Hp.
  rewrite Hp. by apply (Hm w a).
Qed.

Lemma yields_if {A C} (proj : World → C) v (b : bool) (m1 m2 : M A) :
  yields proj v m1 → yields proj v m2 → yields proj v (if b then m1 else m2).
Proof. by destruct b. Qed.

Lemma file_write_text p q c :
  p ≠ q → preserves (fun w => files w !! p) (write_text q c).
Proof.
  intros Hne w. unfold write_text, modify. cbn [snd files set_files].
  by apply lookup_insert_ne.
Qed.

Lemma file_header p q c :
  p ≠ q →
  preserves (fun w => files w !! p) (write_file_with_autogenerated_header q c).
Proof. intros Hne. by apply file_write_text. Qed.

Lemma file_remove_if_exists p q :
  p ≠ q → preserves (fun w => files w !! p) (remove_if_exists q).
Proof.
  intros Hne w. unfold remove_if_exists, modify. cbn [snd files set_files].
  by apply lookup_delete_ne.
Qed.

Lemma file_configure p e key service args extra :
  preserves (fun w => files w !! p)
    (configure_kubernetes_service e key service args extra).
Proof. by intros w. Qed.

Lemma file_service_restart p s :
  preserves (fun w => files w !! p) (service_restart s).
Proof. by intros w. Qed.

Lemma yields_audit_file p setting :
  yields (fun w => files w !! p) (audit_file setting)
    (if Py.truthy_opt setting
     then write_file_with_autogenerated_header p (default "" setting)
     else remove_if_exists p).
Proof.
  intros w r w'. unfold audit_file.
  destruct (Py.truthy_opt setting).
  - unfold write_file_with_autogenerated_header, write_text, modify.
    intros [= _ <-]. cbn [files set_files]. apply lookup_insert_eq.
  - unfold remove_if_exists, modify.
    intros [= _ <-]. cbn [files set_files]. apply lookup_delete_eq.
Qed.

(** X23.  The audit files mirror the audit options: when
    [configure_apiserver] returns, the audit policy file holds the
    [audit-policy] option under the charm's header when the option is
    set, and does not exist when the option is empty or missing, whatever
    was there before; the same holds for the audit webhook configuration
    and the [audit-webhook-config] option. *)
Theorem configure_apiserver_audit_files e etcd w w' :
  configure_apiserver e etcd w = (Ok tt, w') →
  files w' !! audit_policy_path = audit_file (config e !! "audit-policy")
  ∧ files w' !! audit_webhook_config_path
    = audit_file (config e !! "audit-webhook-config").
Proof.
  intros Hrun. split.
  - apply (fun H : yields (fun w => files w !! audit_policy_path)
                     (audit_file (config e !! "audit-policy"))
                     (configure_apiserver e etcd) => H w tt w' Hrun).
    unfold configure_apiserver. cbv zeta.
    apply yields_later; intros privileged.
    apply yields_later; intros _.
    apply yields_later; intros cidr.
    apply yields_later; intros storage_backend.
    destruct (config e !! "authorization-mode") as [auth_mode|]; [|done].
    apply yields_later; intros opts_and_mode.
    apply yields_later; intros api_opts.
    apply yields_first; [apply yields_audit_file|intros _].
    apply preserves_bind.
    { apply preserves_if;
        [by apply file_header|by apply file_remove_if_exists]. }
    intros _. apply preserves_bind; [apply preserves_is_state|intros secure].
    apply preserves_bind;
      [apply file_configure|intros _; apply file_service_restart].
  - apply (fun H : yields (fun w => files w !! audit_webhook_config_path)
                     (audit_file (config e !! "audit-webhook-config"))
                     (configure_apiserver e etcd) => H w tt w' Hrun).
    unfold configure_apiserver. cbv zeta.
    apply yields_later; intros privileged.
    apply yields_later; intros _.
    apply yields_later; intros cidr.
    apply yields_later; intros storage_backend.
    destruct (config e !! "authorization-mode") as [auth_mode|]; [|done].
    apply yields_later; intros opts_and_mode.
    apply yields_later; intros api_opts.
    apply yields_later; intros _.
    apply yields_first; [apply yields_audit_file|intros _].
    apply preserves_bind; [apply preserves_is_state|intros secure].
    apply preserves_bind;
      [apply file_configure|intros _; apply file_service_restart].
Qed.

Lemma configure_apiserver_audit_files_witness :
  files (snd (configure_apiserver env_audit "https://10.0.0.5:2379"
                (world_files {[ audit_webhook_config_path := "stale" ]})))
    !! audit_webhook_config_path = None
  ∧ files (snd (configure_apiserver env_audit "https://10.0.0.5:2379"
                  (world_files {[ audit_webhook_config_path := "stale" ]})))
      !! audit_policy_path
    = Some ("# Autogenerated by kubernetes-master charm" +:+ String Py.LF ""
            +:+ "apiVersion: audit.k8s.io/v1beta1").
Proof.
  destruct (configure_apiserver_audit_files env_audit "https://10.0.0.5:2379"
              (world_files {[ audit_webhook_config_path := "stale" ]})
              (snd (configure_apiserver env_audit "https://10.0.0.5:2379"
                      (world_files {[ audit_webhook_config_path := "stale" ]}))))
    as [Hp Hw].
  - vm_compute. reflexivity.
  - split; [rewrite Hw|rewrite Hp]; vm_compute; reflexivity.
Defined.

Lemma flag_set_state f g : f ≠ g → preserves (flag f) (set_state g).
Proof.
  intros Hne w. unfold set_state, modify. cbn [snd].
  by apply flag_union_ne.
Qed.

Lemma flag_remove_state f g : f ≠ g → preserves (flag f) (remove_state g).
Proof.
  intros Hne w. unfold remove_state, modify, flag. cbn [snd flags set_flags].
  by apply mem_difference_ne.
Qed.

Lemma flag_write_text f p c : preserves (flag f) (write_text p c).
Proof. by intros w. Qed.

Lemma flag_remove_if_exists f p : preserves (flag f) (remove_if_exists p).
Proof. by intros w. Qed.

Lemma flag_configure f e key service args extra :
  preserves (flag f) (configure_kubernetes_service e key service args extra).
Proof. by intros w. Qed.

Lemma flag_service_restart f s : preserves (flag f) (service_restart s).
Proof. by intros w. Qed.

Ltac flag_frame :=
  repeat first
    [ apply preserves_ret | apply preserves_raise | apply preserves_lift
    | apply preserves_gets | apply preserves_is_state
    | apply preserves_leader_get
    | apply flag_write_text | apply flag_remove_if_exists
    | apply flag_configure | apply flag_service_restart
    | apply flag_set_state; done | apply flag_remove_state; done
    | apply preserves_if
    | apply preserves_bind; [|intros ?]
    | progress unfold getStorageBackend, cloud_opts, is_flag_set,
        write_file_with_autogenerated_header ].

Lemma is_privileged_world e w r w' : is_privileged e w = (r, w') → w' = w.
Proof.
  unfold is_privileged. destruct (config e !! "allow-privileged"); [|by intros [= _ <-]].
  destruct (Py.str_eqb _ _); by intros [= _ <-].
Qed.

(** X24.  The flags that [configure_apiserver] leaves tell what it
    configured: when it returns, [kubernetes-master.privileged] is set
    exactly when [is_privileged] answered yes at the start, and
    [keystone.apiserver.configured] is set exactly when the keystone
    endpoint is there and the address of its authentication service was
    found; any older value of either flag is replaced. *)
Theorem configure_apiserver_flags e etcd w w' :
  configure_apiserver e etcd w = (Ok tt, w') →
  (∃ privileged,
     is_privileged e w = (Ok privileged, w)
     ∧ flag "kubernetes-master.privileged" w' = privileged)
  ∧ flag "keystone.apiserver.configured" w'
    = bool_decide (is_Some (keystone_api_version e))
      && Py.truthy_opt (keystone_service_ip e).
Proof.
  intros Hrun. split.
  - revert Hrun. unfold configure_apiserver. cbv zeta. intros Hrun.
    apply bind_inv in Hrun as (privileged & w1 & Hp & Hrun).
    pose proof (is_privileged_world _ _ _ _ Hp) as ->.
    exists privileged. split; [done|].
    revert Hrun.
    match goal with
    | |- ?m w = (Ok tt, w') → _ =>
        apply (fun H : yields (flag "kubernetes-master.privileged")
                         privileged m => H w tt w')
    end.
    apply yields_first.
    { intros w0 r w0'. destruct privileged.
      - unfold set_state, modify. intros [= _ <-]. apply flag_union_eq.
      - unfold remove_state, modify, flag. intros [= _ <-].
        cbn [flags set_flags]. apply mem_difference_eq. }
    intros _.
    apply preserves_bind; [flag_frame|intros cidr].
    apply preserves_bind; [flag_frame|intros storage_backend].
    destruct (config e !! "authorization-mode") as [auth_mode|]; flag_frame.
  - apply (fun H : yields (flag "keystone.apiserver.configured")
                     (bool_decide (is_Some (keystone_api_version e))
                      && Py.truthy_opt (keystone_service_ip e))
                     (configure_apiserver e etcd) => H w tt w' Hrun).
    unfold configure_apiserver. cbv zeta.
    apply yields_later; intros privileged.
    apply yields_later; intros _.
    apply yields_later; intros cidr.
    apply yields_later; intros storage_backend.
    destruct (config e !! "authorization-mode") as [auth_mode|]; [|done].
    apply yields_first; [|intros opts_and_mode; flag_frame].
    destruct (bool_decide (is_Some (keystone_api_version e))) eqn:Hks;
      cbn [andb].
    + destruct (Py.truthy_opt (keystone_service_ip e)).
      * apply yields_later; intros _. apply yields_first; [|flag_frame].
        intros w0 r w0'. unfold set_state, modify. intros [= _ <-].
        apply flag_union_eq.
      * apply yields_first; [|flag_frame].
        intros w0 r w0'. unfold remove_state, modify, flag. intros [= _ <-].
        cbn [flags set_flags]. apply mem_difference_eq.
    + cbn [Py.truthy_opt]. apply yields_first; [|flag_frame].
      intros w0 r w0'. unfold remove_state, modify, flag. intros [= _ <-].
      cbn [flags set_flags]. apply mem_difference_eq.
Qed.

Lemma configure_apiserver_flags_witness :
  flag "kubernetes-master.privileged"
    (snd (configure_apiserver env_api "https://10.0.0.5:2379"
            (world_flags {[ "kubernetes-master.privileged" ]}))) = false.
Proof.
  destruct (configure_apiserver_flags env_api "https://10.0.0.5:2379"
              (world_flags {[ "kubernetes-master.privileged" ]})
              (snd (configure_apiserver env_api "https://10.0.0.5:2379"
                      (world_flags {[ "kubernetes-master.privileged" ]}))))
    as [(privileged & Hp & Hflag) _].
  - vm_compute. reflexivity.
  - rewrite Hflag. vm_compute in Hp. by injection Hp as <-.
Defined.
